(** * boost::context::fiber_handle over fcontext (fiber_fcontext.hpp)

    A shallow embedding of [include/boost/context/fiber_fcontext.hpp] as an
    abstract machine with several call stacks.  The three context-switch
    primitives ([make_fcontext], [jump_fcontext], [ontop_fcontext]) are the
    machine's own instructions; every function of the header is split at the
    switches it performs, one definition per straight-line piece, and the
    place where it waits for a switch to come back is a [frame] on the call
    stack of the suspended context. *)

From stdpp Require Import base option list gmap strings.
From Stdlib Require Import ZArith Lia.

Local Open Scope Z_scope.

(** ** Data *)

(** [fcontext_t] is a pointer: [None] is [nullptr], [Some tok] names the
    machine state saved by the switch that produced [tok]. *)
Abbreviation token := (nat).
Abbreviation fcontext_t := (option token).

(** Address of a [fiber_handle] object and of a [detail::data] object. *)
Abbreviation var := (nat).
Abbreviation addr := (nat).

(** [std::thread::id]: [None] is the default-constructed id, which names no
    thread; [std::this_thread::get_id()] is always [Some _]. *)
Abbreviation thread_id := (option nat).

(** [detail::data] (l.63-71). *)
Inductive flag_t := flag_side_stack | flag_hosting_thread.
Inductive variant := v_bool (b : bool) | v_id (i : thread_id).
Record data := Data { data_f : flag_t; data_v : variant }.

(** [detail::data d = { flag }] value-initialises the variant with its first
    alternative. *)
Definition data_init (fl : flag_t) : data := Data fl (v_bool false).

Definition std_get_bool (x : variant) : option bool :=
  match x with v_bool b => Some b | v_id _ => None end.
Definition std_get_id (x : variant) : option thread_id :=
  match x with v_id i => Some i | v_bool _ => None end.

(** [stack_context]: the region [sp - size, sp). *)
Record stack_context := StackContext { sctx_sp : Z; sctx_size : Z }.

(** The call stacks of the machine: the stack an OS thread started on, or a
    stack handed to [make_fcontext]; the latter is identified by the record
    that [create_fiber] placed on it. *)
Inductive stack := thread_stack (n : nat) | side_stack (rec : nat).

Global Instance stack_eq_dec : EqDecision stack.
Proof. solve_decision. Defined.

(** The exceptions that cross this header: [detail::forced_unwind] carries
    the context to continue with, [std::domain_error] is thrown by
    [resume()] and [resume_with()]. *)
Inductive exn := forced_unwind (fctx : fcontext_t) | domain_error.

(** User code.  A callable is a function of the address of the handle it is
    given; a body is a tree of the operations a callable can perform on
    handles, on a counter and on scoped locals. *)
Inductive code : Type :=
| Return (x : var)                                   (* return std::move(x); *)
| ReturnEmpty                                        (* return fiber_handle{}; *)
| Tick (k : code)                                    (* ++counter; *)
| Acquire (r : nat) (k : code)                       (* { scoped g{r}; ... *)
| Try (h : code) (k : code)                          (* try { ... } catch (...) { h } *)
| TryDomain (h : code) (k : code)                    (* try { ... } catch (std::domain_error const&) { h } *)
| Leave (k : code)                                   (* ... } closes the innermost scope or try block *)
| Resume (x : var) (k : var -> code)                 (* auto y = std::move(x).resume_from_any_thread(); *)
| ResumeChecked (x : var) (k : var -> code)          (* auto y = std::move(x).resume(); *)
| ResumeWith (x : var) (fn : var -> code) (k : var -> code)
| ResumeCheckedWith (x : var) (fn : var -> code) (k : var -> code)
| CanResume (x : var) (k : bool -> code)             (* x.can_resume() *)
| CanResumeAny (x : var) (k : bool -> code)          (* x.can_resume_from_any_thread() *)
| Destroy (x : var) (k : code)                       (* the lifetime of x ends *)
| Construct (fn : var -> code) (k : var -> code)     (* fiber_handle y{ fn }; *)
| OnThread (t : nat) (k : code).                     (* the rest runs on host thread t *)

Abbreviation callable := (var -> code).

(** What is live in a user frame, innermost first in every list: a scoped
    resource, or a try block with its handler. *)
Inductive local :=
| L_res (r : nat)
| L_catch_all (h : code)
| L_catch_domain (h : code).

(** [void *] as this header uses it. *)
Inductive ptr :=
| null
| p_record (rec : nat)            (* Record * *)
| p_data (a : addr)               (* detail::data * *)
| p_tuple (fn : callable).        (* std::tuple< Fn > * *)

Record transfer_t := Transfer { t_fctx : fcontext_t; t_data : ptr }.

(** The functions handed to [ontop_fcontext]. *)
Inductive ontop_fn := fiber_unwind | fiber_exit | fiber_ontop.

(** What the processor does next. *)
Inductive control :=
| Run (ls : list local) (c : code)     (* user code, with the live locals of its frame *)
| Deliver (t : transfer_t)             (* jump_fcontext / ontop_fcontext returns t *)
| OnTop (fn : ontop_fn) (t : transfer_t) (* fn( t) on top of the restored stack *)
| RetH (h : fcontext_t)                (* a call returns a handle or an fcontext_t *)
| RetB (b : bool)
| RetV
| Throw (e : exn)
| Exit (h : fcontext_t).               (* the thread's own function has returned *)

(** A frame of a suspended call, named after the function and the line at
    which it waits. *)
Inductive frame :=
| K_let (ls : list local) (k : var -> code)   (* user code waits for a handle *)
| K_if (ls : list local) (k : bool -> code)   (* user code waits for a bool *)
| K_seq (ls : list local) (k : code)          (* user code waits for a destructor *)
| K_start                                     (* context made by make_fcontext, entry fiber_entry *)
| K_create                                    (* create_fiber, l.217 *)
| K_entry_idle (rec : nat)                    (* fiber_entry, l.112 *)
| K_entry_run (rec : nat)                     (* fiber_entry, l.124 *)
| K_entry_exit (rec : nat)                    (* fiber_entry, l.130 *)
| K_run (p : var)                             (* fiber_record::run, l.185 *)
| K_ontop (p : var)                           (* fiber_ontop, l.141 *)
| K_dtor                                      (* ~fiber_handle, l.249 *)
| K_resume (this : var) (tid : nat)           (* resume_from_any_thread, l.286 *)
| K_resume_with (this : var) (tid : nat)      (* resume_from_any_thread_with, l.319 and l.335 *)
| K_resume_check (this : var) (fn : option callable) (* resume / resume_with, l.276 and l.308 *)
| K_can_resume (this : var) (d : addr)        (* can_resume, l.363 *)
| K_can_resume_any (this : var) (d : addr)    (* can_resume_from_any_thread, l.349 *)
| K_then (c : control)                        (* after the destructor of a temporary *)
| K_main.                                     (* bottom of a thread's stack *)

(** A suspended context: its stack and the calls pending on it. *)
Record context := Context { c_stack : stack; c_frames : list frame }.

(** [fiber_record] (l.149-193) and where [create_fiber] put it. *)
Record fiber_record := FiberRecord {
  sctx_ : stack_context;
  fn_ : callable;
  storage : Z;          (* address of the record *)
  stack_top : Z;        (* passed to make_fcontext *)
  stack_size : Z        (* passed to make_fcontext *)
}.

Inductive event :=
| ev_tick
| ev_acquire (r : nat)
| ev_release (r : nat)
| ev_invoke (rec : nat)                      (* run() invokes fn_ *)
| ev_fn (on : stack) (src : fcontext_t)      (* fiber_ontop invokes fn on stack on *)
| ev_user_catch (e : exn)                    (* a handler of user code catches e *)
| ev_catch (rec : nat)                       (* fiber_entry catches forced_unwind *)
| ev_dealloc (rec : nat) (on : stack).       (* record and stack freed while on stack on *)

Record machine := Machine {
  ctxs : gmap token context;        (* the suspended contexts *)
  handles : gmap var fcontext_t;    (* fctx_ of every fiber_handle object *)
  slots : gmap addr data;           (* every detail::data object *)
  records : gmap nat fiber_record;  (* the allocated side stacks *)
  next : nat;                       (* next unused token / address *)
  host : nat;                       (* std::this_thread::get_id() *)
  log : list event;
  usteps : nat;                     (* instructions of user code executed *)
  switches : nat;                   (* calls of jump_fcontext and ontop_fcontext *)
  ctl : control;
  frames : list frame;              (* pending calls of the running context *)
  on : stack                        (* stack of the running context *)
}.

Definition set_ctxs x m := Machine x (handles m) (slots m) (records m) (next m) (host m) (log m) (usteps m) (switches m) (ctl m) (frames m) (on m).
Definition set_handles x m := Machine (ctxs m) x (slots m) (records m) (next m) (host m) (log m) (usteps m) (switches m) (ctl m) (frames m) (on m).
Definition set_slots x m := Machine (ctxs m) (handles m) x (records m) (next m) (host m) (log m) (usteps m) (switches m) (ctl m) (frames m) (on m).
Definition set_records x m := Machine (ctxs m) (handles m) (slots m) x (next m) (host m) (log m) (usteps m) (switches m) (ctl m) (frames m) (on m).
Definition set_next x m := Machine (ctxs m) (handles m) (slots m) (records m) x (host m) (log m) (usteps m) (switches m) (ctl m) (frames m) (on m).
Definition set_host x m := Machine (ctxs m) (handles m) (slots m) (records m) (next m) x (log m) (usteps m) (switches m) (ctl m) (frames m) (on m).
Definition set_log x m := Machine (ctxs m) (handles m) (slots m) (records m) (next m) (host m) x (usteps m) (switches m) (ctl m) (frames m) (on m).
Definition set_usteps x m := Machine (ctxs m) (handles m) (slots m) (records m) (next m) (host m) (log m) x (switches m) (ctl m) (frames m) (on m).
Definition set_switches x m := Machine (ctxs m) (handles m) (slots m) (records m) (next m) (host m) (log m) (usteps m) x (ctl m) (frames m) (on m).
Definition set_ctl x m := Machine (ctxs m) (handles m) (slots m) (records m) (next m) (host m) (log m) (usteps m) (switches m) x (frames m) (on m).
Definition set_frames x m := Machine (ctxs m) (handles m) (slots m) (records m) (next m) (host m) (log m) (usteps m) (switches m) (ctl m) x (on m).
Definition set_on x m := Machine (ctxs m) (handles m) (slots m) (records m) (next m) (host m) (log m) (usteps m) (switches m) (ctl m) (frames m) x.

(** Ways to leave the defined behaviour of the header. *)
Inductive fault :=
| UB               (* null or dangling pointer, cast to the wrong type *)
| AssertFailed     (* BOOST_ASSERT *)
| Terminate.       (* std::terminate: exception out of noexcept or out of the thread *)

Inductive outcome := Next (m : machine) | Fault (fl : fault).

Definition emit (e : event) (m : machine) : machine := set_log (log m ++ [e]) m.
Definition push (k : frame) (m : machine) : machine := set_frames (k :: frames m) m.
Definition goto (c : control) (m : machine) : outcome := Next (set_ctl c m).
Definition alloc (m : machine) : nat * machine := (next m, set_next (S (next m)) m).

(** ** The header's functions *)

Definition uintptr_bits : Z := 64.
Definition uintptr (x : Z) : Z := x mod 2 ^ uintptr_bits.

Section Semantics.

(** The stack allocator ([fixedsize_stack], declared outside this header):
    the region its call numbered [n] hands out; and [sizeof( Record)]. *)
Variable allocate : nat -> stack_context.
Variable sizeof_Record : Z.

(** libunwind (declared outside this header): the procedure name that
    [unw_get_proc_name] reports for the frame at which [unw_step] stops on
    a stack, [None] when it reports an error. The outermost frame of a
    stack is the one the stack was started with. *)
Variable unw_proc_name : stack -> option string.

(** *** The context-switch primitives *)

(** Save the running context under a fresh token with [k] as its innermost
    frame, make [to] the running context and continue there with
    [c { from, vp }]. A token names a context until it is switched to. *)
Definition switch (to : fcontext_t) (k : frame) (c : transfer_t -> control)
    (vp : ptr) (m : machine) : outcome :=
  match to with
  | None => Fault UB
  | Some tok =>
    match ctxs m !! tok with
    | None => Fault UB
    | Some dst =>
      let from := next m in
      Next (Machine (<[from := Context (on m) (k :: frames m)]> (delete tok (ctxs m)))
              (handles m) (slots m) (records m) (S from) (host m) (log m) (usteps m)
              (S (switches m))
              (c (Transfer (Some from) vp)) (c_frames dst) (c_stack dst))
    end
  end.

Definition jump_fcontext (to : fcontext_t) (vp : ptr) (k : frame) : machine -> outcome :=
  switch to k Deliver vp.

Definition ontop_fcontext (to : fcontext_t) (vp : ptr) (fn : ontop_fn) (k : frame)
    : machine -> outcome :=
  switch to k (OnTop fn) vp.

(** [make_fcontext( sp, size, fn)] with [fn = fiber_entry< Record >]: a
    context on the stack of [rec] that has not started. *)
Definition make_fcontext (rec : nat) (m : machine) : token * machine :=
  let (fctx, m) := alloc m in
  (fctx, set_ctxs (<[fctx := Context (side_stack rec) [K_start]]> (ctxs m)) m).

(** *** Handle objects and probe messages *)

Definition set_handle (x : var) (h : fcontext_t) (m : machine) : machine :=
  set_handles (<[x := h]> (handles m)) m.

(** [std::exchange( x.fctx_, new)] *)
Definition exchange (x : var) (new : fcontext_t) (m : machine)
    : option (fcontext_t * machine) :=
  match handles m !! x with
  | Some old => Some (old, set_handle x new m)
  | None => None
  end.

(** [fiber_uses_side_stack] (l.73-87): the cursor is walked to the
    outermost frame of the running stack (l.77-79); an error of
    [unw_get_proc_name] gives false (l.83-85), otherwise the name is
    compared with ["make_fcontext"] (l.86). *)
Definition fiber_uses_side_stack (m : machine) : bool :=
  match unw_proc_name (on m) with
  | None => false
  | Some sym => String.eqb sym "make_fcontext"
  end.

(** The answer to a probe, as written three times (l.115-120, l.294-299,
    l.328-333); [hosting] is what the site stores for
    [flag_hosting_thread]. *)
Definition answer (a : addr) (hosting : thread_id) (m : machine) : option machine :=
  match slots m !! a with
  | None => None
  | Some d =>
    match data_f d with
    | flag_side_stack =>
        Some (set_slots (<[a := Data (data_f d) (v_bool (fiber_uses_side_stack m))]> (slots m)) m)
    | flag_hosting_thread =>
        Some (set_slots (<[a := Data (data_f d) (v_id hosting)]> (slots m)) m)
    end
  end.

(** *** [~fiber_handle] (l.247-258) *)
Definition fiber_handle_dtor (this : var) (m : machine) : outcome :=
  match exchange this None m with
  | None => Fault UB
  | Some (None, _) => goto RetV m
  | Some (Some tok, m') => ontop_fcontext (Some tok) null fiber_unwind K_dtor m'
  end.

(** *** [fiber_record] (l.149-193) *)

(** [deallocate] / [destroy] (l.156-178): the record and its callable are
    destroyed and the stack is given back; what was saved on that stack is
    gone with it. *)
Definition deallocate (rec : nat) (m : machine) : option machine :=
  match records m !! rec with
  | None => None
  | Some _ =>
    Some (emit (ev_dealloc rec (on m))
           (set_ctxs (filter (λ kc, c_stack kc.2 ≠ side_stack rec) (ctxs m))
              (set_records (delete rec (records m)) m)))
  end.

(** [run] (l.180-192) up to the call of [fn_]; the temporary [Ctx{ fctx }]
    is the object [p]. *)
Definition run (rec : nat) (fctx : fcontext_t) (m : machine) : outcome :=
  match records m !! rec with
  | None => Fault UB
  | Some r =>
    let (p, m) := alloc m in
    goto (Run [] (fn_ r p)) (emit (ev_invoke rec) (push (K_run p) (set_handle p fctx m)))
  end.

(** [run] after [fn_] has returned [c]: the temporary dies, then
    [return std::exchange( c.fctx_, nullptr)]. *)
Definition run_return (p : var) (c : fcontext_t) (m : machine) : outcome :=
  fiber_handle_dtor p (push (K_then (RetH c)) m).

(** *** [fiber_unwind], [fiber_exit], [fiber_ontop] (l.89-147) *)

Definition call_fiber_unwind (t : transfer_t) (m : machine) : outcome :=
  goto (Throw (forced_unwind (t_fctx t))) m.

Definition call_fiber_exit (t : transfer_t) (m : machine) : outcome :=
  match t_data t with
  | p_record rec =>
    match deallocate rec m with
    | Some m' => goto (Deliver (Transfer None null)) m'
    | None => Fault UB
    end
  | _ => Fault UB
  end.

(** [fiber_ontop] up to the call of [fn]; the temporary [Ctx{ t.fctx }] is
    the object [p]. *)
Definition call_fiber_ontop (t : transfer_t) (m : machine) : outcome :=
  match t_data t with
  | p_tuple fn =>
    let (p, m) := alloc m in
    goto (Run [] (fn p))
      (emit (ev_fn (on m) (t_fctx t)) (push (K_ontop p) (set_handle p (t_fctx t) m)))
  | null => Fault AssertFailed
  | _ => Fault UB
  end.

(** [fiber_ontop] after [fn] has returned [c]. *)
Definition fiber_ontop_return (p : var) (c : fcontext_t) (m : machine) : outcome :=
  fiber_handle_dtor p (push (K_then (Deliver (Transfer c null))) m).

(** *** [fiber_entry] (l.103-132) *)

(** l.104-112: the first switch into the context. *)
Definition fiber_entry (t : transfer_t) (m : machine) : outcome :=
  match t_data t with
  | p_record rec =>
    match t_fctx t with
    | None => Fault AssertFailed
    | Some _ => jump_fcontext (t_fctx t) null (K_entry_idle rec) m
    end
  | null => Fault AssertFailed
  | _ => Fault UB
  end.

(** l.112-124: the jump at [rep] has returned [t]. *)
Definition fiber_entry_rep (rec : nat) (t : transfer_t) (m : machine) : outcome :=
  match t_data t with
  | null => run rec (t_fctx t) (push (K_entry_run rec) m)
  | p_data a =>
    match answer a None m with
    | Some m' => jump_fcontext (t_fctx t) null (K_entry_idle rec) m'
    | None => Fault UB
    end
  | _ => Fault UB
  end.

(** l.128-131, with [t.fctx] as the try block or the handler left it. *)
Definition fiber_entry_exit (rec : nat) (fctx : fcontext_t) (m : machine) : outcome :=
  match fctx with
  | None => Fault AssertFailed
  | Some _ => ontop_fcontext fctx (p_record rec) fiber_exit (K_entry_exit rec) m
  end.

(** l.125-127: an exception reaches the try block. *)
Definition fiber_entry_catch (rec : nat) (e : exn) (m : machine) : outcome :=
  match e with
  | forced_unwind fctx => fiber_entry_exit rec fctx (emit (ev_catch rec) m)
  | domain_error => Fault Terminate
  end.

(** *** [create_fiber] (l.195-218) *)

Definition record_storage (sctx : stack_context) : Z :=
  Z.land (uintptr (sctx_sp sctx - sizeof_Record)) (uintptr (Z.lnot 255)).
Definition record_stack_top (sctx : stack_context) : Z :=
  uintptr (record_storage sctx - 64).
Definition record_stack_bottom (sctx : stack_context) : Z :=
  uintptr (sctx_sp sctx - sctx_size sctx).
Definition record_stack_size (sctx : stack_context) : Z :=
  uintptr (record_stack_top sctx - record_stack_bottom sctx).

Definition create_fiber (fn : callable) (m : machine) : outcome :=
  let (rec, m) := alloc m in
  let sctx := allocate rec in
  let record :=
    FiberRecord sctx fn (record_storage sctx) (record_stack_top sctx) (record_stack_size sctx) in
  let m := set_records (<[rec := record]> (records m)) m in
  let (fctx, m) := make_fcontext rec m in
  jump_fcontext (Some fctx) (p_record rec) K_create m.

(** *** [fiber_handle] (l.222-400) *)

(** [resume_from_any_thread] (l.282-292) up to the jump. *)
Definition resume_from_any_thread (this : var) (m : machine) : outcome :=
  match exchange this None m with
  | None => Fault UB
  | Some (None, _) => Fault AssertFailed
  | Some (fctx, m') => jump_fcontext fctx null (K_resume this (host m)) m'
  end.

(** l.293-303: the jump at [rep] has returned [t]. *)
Definition resume_from_any_thread_rep (this : var) (tid : nat) (t : transfer_t)
    (m : machine) : outcome :=
  match t_data t with
  | null => goto (RetH (t_fctx t)) m
  | p_data a =>
    match answer a (Some tid) m with
    | None => Fault UB
    | Some m1 =>
      match exchange this None (set_handle this (t_fctx t) m1) with
      | None => Fault UB
      | Some (fctx, m2) => jump_fcontext fctx null (K_resume this tid) m2
      end
    end
  | _ => Fault UB
  end.

(** [resume_from_any_thread_with] (l.314-326) up to the switch. *)
Definition resume_from_any_thread_with (this : var) (fn : callable) (m : machine)
    : outcome :=
  match exchange this None m with
  | None => Fault UB
  | Some (None, _) => Fault AssertFailed
  | Some (fctx, m') =>
      ontop_fcontext fctx (p_tuple fn) fiber_ontop (K_resume_with this (host m)) m'
  end.

(** l.327-343: the loop, entered with the [t] that came back. *)
Definition resume_from_any_thread_with_loop (this : var) (tid : nat) (t : transfer_t)
    (m : machine) : outcome :=
  match t_data t with
  | null => goto (RetH (t_fctx t)) m
  | p_data a =>
    match answer a (Some tid) m with
    | None => Fault UB
    | Some m1 =>
      match exchange this None (set_handle this (t_fctx t) m1) with
      | None => Fault UB
      | Some (fctx, m2) => jump_fcontext fctx null (K_resume_with this tid) m2
      end
    end
  | _ => Fault UB
  end.

(** [can_resume_from_any_thread] (l.346-355) up to the jump. *)
Definition can_resume_from_any_thread (this : var) (m : machine) : outcome :=
  let (d, m1) := alloc m in
  let m2 := set_slots (<[d := data_init flag_side_stack]> (slots m1)) m1 in
  match exchange this None m2 with
  | None => Fault UB
  | Some (None, _) => Fault AssertFailed
  | Some (fctx, m3) => jump_fcontext fctx (p_data d) (K_can_resume_any this d) m3
  end.

(** l.356-357 *)
Definition can_resume_from_any_thread_return (this : var) (d : addr) (t : transfer_t)
    (m : machine) : outcome :=
  let m1 := set_handle this (t_fctx t) m in
  match slots m1 !! d with
  | None => Fault UB
  | Some x =>
    match std_get_bool (data_v x) with
    | Some b => goto (RetB b) m1
    | None => Fault Terminate
    end
  end.

(** [can_resume] (l.360-369) up to the jump. *)
Definition can_resume (this : var) (m : machine) : outcome :=
  let (d, m1) := alloc m in
  let m2 := set_slots (<[d := data_init flag_hosting_thread]> (slots m1)) m1 in
  match exchange this None m2 with
  | None => Fault UB
  | Some (None, _) => Fault AssertFailed
  | Some (fctx, m3) => jump_fcontext fctx (p_data d) (K_can_resume this d) m3
  end.

(** The comparison of l.371-372. *)
Definition affinity_ok (this_thread : thread_id) (reported : thread_id) : bool :=
  bool_decide (this_thread = reported) || bool_decide (None = reported).

(** l.370-372 *)
Definition can_resume_return (this : var) (d : addr) (t : transfer_t) (m : machine)
    : outcome :=
  let m1 := set_handle this (t_fctx t) m in
  match slots m1 !! d with
  | None => Fault UB
  | Some x =>
    match std_get_id (data_v x) with
    | Some i => goto (RetB (affinity_ok (Some (host m1)) i)) m1
    | None => Fault Terminate
    end
  end.

(** [resume] (l.275-280) and [resume_with] (l.306-312) up to the call of
    [can_resume], and after it. *)
Definition resume (this : var) (fn : option callable) (m : machine) : outcome :=
  can_resume this (push (K_resume_check this fn) m).

Definition resume_checked (this : var) (fn : option callable) (b : bool) (m : machine)
    : outcome :=
  if b then
    match fn with
    | None => resume_from_any_thread this m
    | Some fn => resume_from_any_thread_with this fn m
    end
  else goto (Throw domain_error) m.

(** *** User code and stack unwinding *)

(** Leaving a frame normally destroys its scoped locals, innermost first. *)
Fixpoint release_locals (ls : list local) (m : machine) : machine :=
  match ls with
  | [] => m
  | L_res r :: ls' => release_locals ls' (emit (ev_release r) m)
  | L_catch_all _ :: ls' | L_catch_domain _ :: ls' => release_locals ls' m
  end.

(** An exception in a frame destroys its locals, innermost first, up to
    the first handler that takes it, or leaves the frame. *)
Fixpoint unwind_locals (ls : list local) (e : exn) (m : machine) : machine :=
  match ls with
  | [] => set_ctl (Throw e) m
  | L_res r :: ls' => unwind_locals ls' e (emit (ev_release r) m)
  | L_catch_all h :: ls' => set_ctl (Run ls' h) (emit (ev_user_catch e) m)
  | L_catch_domain h :: ls' =>
    match e with
    | domain_error => set_ctl (Run ls' h) (emit (ev_user_catch e) m)
    | forced_unwind _ => unwind_locals ls' e m
    end
  end.

Definition exec (ls : list local) (c : code) (m : machine) : outcome :=
  match c with
  | Return x =>
    match exchange x None m with
    | Some (h, m') => goto (RetH h) (release_locals ls m')
    | None => Fault UB
    end
  | ReturnEmpty => goto (RetH None) (release_locals ls m)
  | Tick k => goto (Run ls k) (emit ev_tick m)
  | Acquire r k => goto (Run (L_res r :: ls) k) (emit (ev_acquire r) m)
  | Try h k => goto (Run (L_catch_all h :: ls) k) m
  | TryDomain h k => goto (Run (L_catch_domain h :: ls) k) m
  | Leave k =>
    match ls with
    | L_res r :: ls' => goto (Run ls' k) (emit (ev_release r) m)
    | L_catch_all _ :: ls' | L_catch_domain _ :: ls' => goto (Run ls' k) m
    | [] => Fault UB
    end
  | Resume x k => resume_from_any_thread x (push (K_let ls k) m)
  | ResumeChecked x k => resume x None (push (K_let ls k) m)
  | ResumeWith x fn k => resume_from_any_thread_with x fn (push (K_let ls k) m)
  | ResumeCheckedWith x fn k => resume x (Some fn) (push (K_let ls k) m)
  | CanResume x k => can_resume x (push (K_if ls k) m)
  | CanResumeAny x k => can_resume_from_any_thread x (push (K_if ls k) m)
  | Destroy x k => fiber_handle_dtor x (push (K_seq ls k) m)
  | Construct fn k => create_fiber fn (push (K_let ls k) m)
  | OnThread t k => goto (Run ls k) (set_host t m)
  end.

(** *** One step of the machine *)

(** A switch comes back into the innermost frame [k] with [t]. *)
Definition deliver (k : frame) (t : transfer_t) (m : machine) : outcome :=
  match k with
  | K_start => fiber_entry t m
  | K_entry_idle rec => fiber_entry_rep rec t m
  | K_create => goto (RetH (t_fctx t)) m
  | K_resume this tid => resume_from_any_thread_rep this tid t m
  | K_resume_with this tid => resume_from_any_thread_with_loop this tid t m
  | K_can_resume this d => can_resume_return this d t m
  | K_can_resume_any this d => can_resume_from_any_thread_return this d t m
  | K_dtor => goto RetV m
  | K_entry_exit _ => Fault AssertFailed
  | _ => Fault UB
  end.

Definition call_ontop (fn : ontop_fn) (t : transfer_t) (m : machine) : outcome :=
  match fn with
  | fiber_unwind => call_fiber_unwind t m
  | fiber_exit => call_fiber_exit t m
  | fiber_ontop => call_fiber_ontop t m
  end.

Definition return_handle (k : frame) (h : fcontext_t) (m : machine) : outcome :=
  match k with
  | K_let ls c => let (y, m) := alloc m in goto (Run ls (c y)) (set_handle y h m)
  | K_run p => run_return p h m
  | K_ontop p => fiber_ontop_return p h m
  | K_entry_run rec => fiber_entry_exit rec h m
  | K_main => goto (Exit h) m
  | _ => Fault UB
  end.

Definition return_bool (k : frame) (b : bool) (m : machine) : outcome :=
  match k with
  | K_if ls c => goto (Run ls (c b)) m
  | K_resume_check this fn => resume_checked this fn b m
  | _ => Fault UB
  end.

Definition return_void (k : frame) (m : machine) : outcome :=
  match k with
  | K_seq ls c => goto (Run ls c) m
  | K_then c => goto c m
  | _ => Fault UB
  end.

(** A [throw] first searches the pending calls of the running stack for a
    handler, innermost first, and destroys nothing while it searches. User
    frames are searched through their try blocks; [resume],
    [resume_from_any_thread], their [_with] variants, [create_fiber], [run]
    and [fiber_ontop] have no handler and let the search pass; the try
    block of [fiber_entry] (l.109-127) takes [forced_unwind] only. The
    search ends without a handler at a function declared [noexcept]
    ([fiber_entry] l.104, [can_resume] l.360, [can_resume_from_any_thread]
    l.346, the destructor l.247) and at the bottom of a thread's stack. *)
Definition takes (e : exn) (l : local) : bool :=
  match l, e with
  | L_catch_all _, _ => true
  | L_catch_domain _, domain_error => true
  | _, _ => false
  end.

Fixpoint find_handler (e : exn) (fs : list frame) : bool :=
  match fs with
  | [] => false
  | k :: fs' =>
    match k with
    | K_let ls _ | K_if ls _ | K_seq ls _ => existsb (takes e) ls || find_handler e fs'
    | K_resume _ _ | K_resume_with _ _ | K_resume_check _ _ | K_create
    | K_run _ | K_ontop _ => find_handler e fs'
    | K_entry_idle _ | K_entry_run _ =>
        match e with forced_unwind _ => true | domain_error => false end
    | K_can_resume _ _ | K_can_resume_any _ _ | K_dtor | K_then _
    | K_start | K_entry_exit _ | K_main => false
    end
  end.

(** Once a handler is found the stack is unwound up to it: the exception
    [e] leaves the call that frame [k] was waiting for. *)
Definition unwind (k : frame) (e : exn) (m : machine) : outcome :=
  match k with
  | K_let ls _ | K_if ls _ | K_seq ls _ => Next (unwind_locals ls e m)
  | K_resume _ _ | K_resume_with _ _ | K_resume_check _ _ | K_create => goto (Throw e) m
  | K_run p | K_ontop p => fiber_handle_dtor p (push (K_then (Throw e)) m)
  | K_entry_idle rec | K_entry_run rec => fiber_entry_catch rec e m
  | K_can_resume _ _ | K_can_resume_any _ _ | K_dtor | K_then _ | K_main => Fault Terminate
  | K_start | K_entry_exit _ => Fault UB
  end.

Definition pop (m : machine) : option (frame * machine) :=
  match frames m with
  | k :: ks => Some (k, set_frames ks m)
  | [] => None
  end.

Definition step (m : machine) : outcome :=
  match ctl m with
  | Run ls c => exec ls c (set_usteps (S (usteps m)) m)
  | OnTop fn t => call_ontop fn t m
  | Exit _ => Next m
  | Deliver t => match pop m with Some (k, m') => deliver k t m' | None => Fault UB end
  | RetH h => match pop m with Some (k, m') => return_handle k h m' | None => Fault UB end
  | RetB b => match pop m with Some (k, m') => return_bool k b m' | None => Fault UB end
  | RetV => match pop m with Some (k, m') => return_void k m' | None => Fault UB end
  | Throw e =>
    (* no handler: std::terminate at the throw, nothing is unwound *)
    if find_handler e (frames m) then
      match pop m with Some (k, m') => unwind k e m' | None => Fault Terminate end
    else Fault Terminate
  end.

Fixpoint steps (n : nat) (m : machine) : outcome :=
  match n with
  | O => Next m
  | S n' => match step m with Next m' => steps n' m' | Fault fl => Fault fl end
  end.

(** A thread [t] about to run [main] on its own stack. *)
Definition boot (t : nat) (main : code) : machine :=
  Machine ∅ ∅ ∅ ∅ 0 t [] 0 0 (Run [] main) [K_main] (thread_stack t).

End Semantics.


(** [explicit operator bool] (l.375-377) *)
Definition operator_bool (fctx_ : fcontext_t) : bool := bool_decide (fctx_ ≠ None).

(** [fiber_handle() noexcept = default] (l.238): a new object with
    [fctx_{ nullptr }]. *)
Definition fiber_handle_default (m : machine) : var * machine :=
  let (x, m) := alloc m in (x, set_handle x None m).

(** [operator!] (l.379-381) *)
Definition operator_not (fctx_ : fcontext_t) : bool := bool_decide (fctx_ = None).

(** [fiber_handle::swap] (l.397-399): [std::swap( fctx_, other.fctx_)]. *)
Definition fiber_handle_swap (this other : var) (m : machine) : option machine :=
  match handles m !! this, handles m !! other with
  | Some a, Some b => Some (set_handle other a (set_handle this b m))
  | _, _ => None
  end.

(** [swap( l, r)] (l.402-405) *)
Definition swap (l r : var) (m : machine) : option machine := fiber_handle_swap l r m.

(** The move constructor (l.260-262): the new object starts with
    [fctx_{ nullptr }] and swaps with [other]. *)
Definition fiber_handle_move (other : var) (m : machine) : option (var * machine) :=
  let (this, m1) := fiber_handle_default m in
  match fiber_handle_swap this other m1 with
  | Some m2 => Some (this, m2)
  | None => None
  end.

(** Move assignment (l.264-270): [tmp] takes [other], swaps with [this], and
    dies when the block is left; [return * this] goes back to the caller. *)
Definition fiber_handle_assign (this other : var) (m : machine) : outcome :=
  if decide (this = other) then goto RetV m
  else
    match fiber_handle_move other m with
    | None => Fault UB
    | Some (tmp, m1) =>
      match fiber_handle_swap this tmp m1 with
      | None => Fault UB
      | Some m2 => fiber_handle_dtor tmp m2
      end
    end.

(** The statement [x = std::move( y);] of user code with live locals [ls],
    followed by [k]. *)
Definition assign_stmt (ls : list local) (x y : var) (k : code) (m : machine) : outcome :=
  fiber_handle_assign x y (push (K_seq ls k) m).

Arguments steps : simpl never.
Arguments affinity_ok : simpl never.

(** ** Vocabulary of the properties *)

(** A fiber parked at the idle point of its trampoline: alone on its stack,
    waiting at l.112. *)
Definition parked (rec : nat) : context := Context (side_stack rec) [K_entry_idle rec].

(** The hosting thread a suspended context reports to a probe: the waits at
    which the header answers probes, and what each stores. *)
Definition reported (c : context) : option thread_id :=
  match c_frames c with
  | K_entry_idle _ :: _ => Some None
  | K_resume _ tid :: _ | K_resume_with _ tid :: _ => Some (Some tid)
  | _ => None
  end.

(** The scoped resources among the live locals, innermost first. *)
Fixpoint resources (ls : list local) : list nat :=
  match ls with
  | [] => []
  | L_res r :: ls' => r :: resources ls'
  | _ :: ls' => resources ls'
  end.

Definition no_catch_all (l : local) : Prop :=
  match l with L_catch_all _ => False | _ => True end.

(** Frames an exception of type [forced_unwind] passes through: calls of
    this header that do not catch, user frames without a [catch (...)], and
    calls of a callable whose argument has been moved from. *)
Fixpoint passes (hs : gmap var fcontext_t) (fs : list frame) : Prop :=
  match fs with
  | [] => True
  | k :: fs' =>
    match k with
    | K_let ls _ | K_if ls _ | K_seq ls _ => Forall no_catch_all ls
    | K_resume _ _ | K_resume_with _ _ | K_resume_check _ _ | K_create => True
    | K_run p | K_ontop p => hs !! p = Some None
    | _ => False
    end ∧ passes hs fs'
  end.

(** The scoped resources live on a stack, innermost frame first. *)
Fixpoint frames_resources (fs : list frame) : list nat :=
  match fs with
  | [] => []
  | k :: fs' =>
    match k with
    | K_let ls _ | K_if ls _ | K_seq ls _ => resources ls
    | _ => []
    end ++ frames_resources fs'
  end.

(** Steps the machine takes to unwind these frames. *)
Fixpoint unwind_cost (fs : list frame) : nat :=
  match fs with
  | [] => 0
  | k :: fs' => match k with K_run _ | K_ontop _ => 2 | _ => 1 end + unwind_cost fs'
  end.

(** The consuming calls and the frame each waits in: [resume()] and
    [resume_with()] check the affinity first ([chk]) and then make the
    any-thread call (l.279, l.311), so the four calls wait in two frames. *)
Inductive resume_call := via_resume | via_resume_with (fn : callable).

Definition resume_code (chk : bool) (r : resume_call) (x : var) (k : var -> code) : code :=
  match chk, r with
  | false, via_resume => Resume x k
  | false, via_resume_with fn => ResumeWith x fn k
  | true, via_resume => ResumeChecked x k
  | true, via_resume_with fn => ResumeCheckedWith x fn k
  end.

(** Steps up to and including the switch: the checked calls probe first. *)
Definition resume_cost (chk : bool) : nat := if chk then 4%nat else 1%nat.

Definition call_frame (r : resume_call) (x : var) (tid : nat) : frame :=
  match r with
  | via_resume => K_resume x tid
  | via_resume_with _ => K_resume_with x tid
  end.




(** The counter a scoped resource bumps on acquire and drops on release. *)
Fixpoint counter (l : list event) : Z :=
  match l with
  | [] => 0
  | ev_acquire _ :: l' => counter l' + 1
  | ev_release _ :: l' => counter l' - 1
  | _ :: l' => counter l'
  end.

(** A run of probes as user code writes it. *)
Inductive probe := probe_hosting | probe_stack.

Fixpoint probes (qs : list probe) (x : var) (k : code) : code :=
  match qs with
  | [] => k
  | probe_hosting :: qs' => CanResume x (fun _ => probes qs' x k)
  | probe_stack :: qs' => CanResumeAny x (fun _ => probes qs' x k)
  end.

(** ** Vocabulary of further properties *)

(** The calls of [fiber_handle] that require a non-empty handle. *)
Definition calls_on (x : var) (c : code) : Prop :=
  match c with
  | Resume y _ | ResumeChecked y _ | ResumeWith y _ _ | ResumeCheckedWith y _ _
  | CanResume y _ | CanResumeAny y _ => y = x
  | _ => False
  end.

(** The callable returns an empty handle. *)
Definition returns_empty (hs : gmap var fcontext_t) (c : code) : Prop :=
  match c with
  | ReturnEmpty => True
  | Return y => hs !! y = Some None
  | _ => False
  end.

(** A pending call the search for a handler of [e] goes through: a call of
    this header that neither catches nor is [noexcept], or a user frame
    whose try blocks do not take [e]. *)
Definition lets_pass (e : exn) (k : frame) : Prop :=
  match k with
  | K_let ls _ | K_if ls _ | K_seq ls _ => Forall (λ l, takes e l = false) ls
  | K_resume _ _ | K_resume_with _ _ | K_resume_check _ _ | K_create
  | K_run _ | K_ontop _ => True
  | _ => False
  end.

(** Where the search ends without a handler: a fiber's trampoline takes
    [forced_unwind] only and is [noexcept], a thread's own function takes
    nothing. *)
Definition fatal_at (b : frame) (e : exn) : Prop :=
  match b with
  | K_main => True
  | K_entry_idle _ | K_entry_run _ => e = domain_error
  | _ => False
  end.

(** ** Invariants of the machine *)

(** What [K_then] may continue with: the result of [run], the transfer
    [fiber_ontop] returns, or an exception on its way out. *)
Definition then_ok (c : control) : Prop :=
  match c with
  | RetH _ | Throw _ => True
  | Deliver t => t_data t = null
  | _ => False
  end.

(** Where a frame may sit: the frames of [fiber_entry] belong to the stack
    of their own record, and the handle objects a frame refers to have been
    allocated. *)
Definition home (nx : nat) (s : stack) (k : frame) : Prop :=
  match k with
  | K_entry_idle rec | K_entry_run rec | K_entry_exit rec => s = side_stack rec
  | K_run x | K_ontop x
  | K_resume x _ | K_resume_with x _ | K_resume_check x _
  | K_can_resume x _ | K_can_resume_any x _ => (x < nx)%nat
  | K_then c => then_ok c
  | _ => True
  end.

(** [fiber_exit] is about to run on another stack than the one it frees;
    the record handed to [fiber_entry] is the one of the running stack. *)
Definition ctl_ok (m : machine) : Prop :=
  match ctl m with
  | OnTop fiber_exit t => ∀ rec, t_data t = p_record rec -> on m ≠ side_stack rec
  | Deliver t => ∀ rec, t_data t = p_record rec -> on m = side_stack rec
  | _ => True
  end.

(** A stack was freed while the processor was on another one. *)
Definition freed_elsewhere (ev : event) : Prop :=
  match ev with ev_dealloc rec s => s ≠ side_stack rec | _ => True end.

(** Tokens, records and handle objects are numbered below [next]; no
    suspended context shares its stack with the running one or with another
    suspended context; every stack in use has its record. *)
Record well_formed (m : machine) : Prop := WellFormed {
  wf_tok : ∀ t c, ctxs m !! t = Some c -> (t < next m)%nat;
  wf_stk : ∀ t c rec, ctxs m !! t = Some c -> c_stack c = side_stack rec -> (rec < next m)%nat;
  wf_on : ∀ rec, on m = side_stack rec -> (rec < next m)%nat;
  wf_hdl : ∀ x h, handles m !! x = Some h -> (x < next m)%nat;
  wf_recs : ∀ rec r, records m !! rec = Some r -> (rec < next m)%nat;
  wf_other : ∀ t c, ctxs m !! t = Some c -> c_stack c ≠ on m;
  wf_inj : ∀ t1 t2 c1 c2, ctxs m !! t1 = Some c1 -> ctxs m !! t2 = Some c2 ->
                          c_stack c1 = c_stack c2 -> t1 = t2;
  wf_rec_on : ∀ rec, on m = side_stack rec -> is_Some (records m !! rec);
  wf_rec : ∀ t c rec, ctxs m !! t = Some c -> c_stack c = side_stack rec ->
                      is_Some (records m !! rec);
  wf_home : Forall (home (next m) (on m)) (frames m);
  wf_homes : ∀ t c, ctxs m !! t = Some c -> Forall (home (next m) (c_stack c)) (c_frames c);
  wf_ctl : ctl_ok m;
  wf_log : Forall freed_elsewhere (log m)
}.

(** The states of the executions of all programs on all threads. *)
Definition reachable (allocate : nat -> stack_context) (sizeof_Record : Z)
    (unw_proc_name : stack -> option string) (m : machine) : Prop :=
  ∃ (t : nat) (main : code) (n : nat),
    steps allocate sizeof_Record unw_proc_name n (boot t main) = Next m.

(** ** Ownership of suspended contexts *)

(** Where a suspended context waits, read off its innermost frame: where a
    resume may enter it (the idle point of [fiber_entry], or inside
    [resume] or [resume_with]), in the destructor [~fiber_handle], in a
    probe, in [create_fiber], at the start of [fiber_entry] or at its end. *)
Inductive wait := resumable | destroying | probing | creating | starting | exiting | elsewhere.

Definition wait_of (fs : list frame) : wait :=
  match fs with
  | K_entry_idle _ :: _ | K_resume _ _ :: _ | K_resume_with _ _ :: _ => resumable
  | K_dtor :: _ => destroying
  | K_can_resume _ _ :: _ | K_can_resume_any _ _ :: _ => probing
  | K_create :: _ => creating
  | K_start :: _ => starting
  | K_entry_exit _ :: _ => exiting
  | _ => elsewhere
  end.

(** The token names a suspended context that waits at [w]. *)
Definition names (cs : gmap token context) (w : wait) (tok : token) : Prop :=
  ∃ c, cs !! tok = Some c ∧ wait_of (c_frames c) = w.

(** A handle value in transit: its context can be resumed and no handle
    object names it. *)
Definition owned (cs : gmap token context) (hs : gmap var fcontext_t) (h : fcontext_t) : Prop :=
  ∀ tok, h = Some tok -> names cs resumable tok ∧ ∀ x, hs !! x ≠ Some (Some tok).

(** The context a [forced_unwind] carries, while suspended, waits in the
    destructor that threw it. *)
Definition exn_ok (cs : gmap token context) (nx : nat) (e : exn) : Prop :=
  match e with
  | forced_unwind (Some tok) =>
      (tok < nx)%nat ∧ ∀ c, cs !! tok = Some c -> wait_of (c_frames c) = destroying
  | _ => True
  end.

Definition fr_lin (cs : gmap token context) (nx : nat) (k : frame) : Prop :=
  match k with K_then (Throw e) => exn_ok cs nx e | _ => True end.

(** The token a pending [K_then] holds. *)
Definition then_tok (c : control) : fcontext_t :=
  match c with RetH h => h | Deliver t => t_fctx t | _ => None end.

(** The handle value a frame keeps for later: [K_then] on top, or under the
    destructor of the temporary that [run] and [fiber_ontop] destroy. *)
Definition held1 (fs : list frame) : fcontext_t :=
  match fs with K_then c :: _ => then_tok c | _ => None end.

Definition held (fs : list frame) : fcontext_t :=
  match fs with
  | K_then c :: _ => then_tok c
  | K_dtor :: fs' => held1 fs'
  | _ => None
  end.

(** [K_then] occurs only where [held] looks. *)
Definition plain (k : frame) : Prop :=
  match k with K_then _ => False | _ => True end.

Definition tidy1 (fs : list frame) : Prop :=
  match fs with K_then _ :: fs' => Forall plain fs' | _ => Forall plain fs end.

Definition tidy (fs : list frame) : Prop :=
  match fs with
  | K_then _ :: fs' => Forall plain fs'
  | K_dtor :: fs' => tidy1 fs'
  | _ => Forall plain fs
  end.

(** Marks a fact the proof search has used. *)
Definition seen (P : Prop) : Prop := True.

(** The handle value the control holds. *)
Definition ctl_tok (c : control) : fcontext_t :=
  match c with
  | RetH h | Exit h => h
  | Deliver t => match t_data t with null => t_fctx t | _ => None end
  | OnTop fiber_ontop t => t_fctx t
  | _ => None
  end.

Definition shape (m : machine) : Prop :=
  match ctl m with
  | RetV | Deliver _ | OnTop fiber_exit _ => tidy (frames m)
  | Exit _ => True
  | _ => Forall plain (frames m)
  end.

(** What the control may carry: a handle value that is owned, a probe or a
    record on its way to the context that waits for it, the context of the
    destructor for [fiber_unwind], the context to free for [fiber_exit]. *)
Definition ctl_lin (m : machine) : Prop :=
  match ctl m with
  | RetH h | Exit h => owned (ctxs m) (handles m) h
  | Deliver t =>
    match t_data t with
    | null => owned (ctxs m) (handles m) (t_fctx t)
    | p_data _ =>
        (∀ tok, t_fctx t = Some tok -> names (ctxs m) probing tok) ∧
        wait_of (frames m) = resumable
    | p_record _ =>
        (∀ tok, t_fctx t = Some tok -> names (ctxs m) creating tok) ∧
        wait_of (frames m) = starting
    | p_tuple _ => False
    end
  | OnTop fiber_ontop t => owned (ctxs m) (handles m) (t_fctx t)
  | OnTop fiber_unwind t => ∀ tok, t_fctx t = Some tok -> names (ctxs m) destroying tok
  | OnTop fiber_exit t =>
      ∀ rec, t_data t = p_record rec ->
        ∃ tok c, t_fctx t = Some tok ∧ ctxs m !! tok = Some c ∧
                 c_stack c = side_stack rec ∧ wait_of (c_frames c) = exiting
  | Throw e => exn_ok (ctxs m) (next m) e
  | _ => True
  end.

(** Every context is named once: handle objects name contexts that can be
    resumed, no two name the same, and a handle value kept by the control
    or by a frame is named by nothing else. *)
Record linear (m : machine) : Prop := Linear {
  lin_hdl : ∀ x tok, handles m !! x = Some (Some tok) -> names (ctxs m) resumable tok;
  lin_inj : ∀ x y tok, handles m !! x = Some (Some tok) ->
                       handles m !! y = Some (Some tok) -> x = y;
  lin_ctl : ctl_lin m;
  lin_cur : ∀ tok, held (frames m) = Some tok ->
              names (ctxs m) resumable tok ∧ (∀ x, handles m !! x ≠ Some (Some tok)) ∧
              ctl_tok (ctl m) ≠ Some tok;
  lin_ctx : ∀ t c tok, ctxs m !! t = Some c -> held (c_frames c) = Some tok ->
              names (ctxs m) resumable tok ∧ (∀ x, handles m !! x ≠ Some (Some tok)) ∧
              ctl_tok (ctl m) ≠ Some tok ∧ held (frames m) ≠ Some tok;
  lin_ctx_inj : ∀ t1 t2 c1 c2 tok, ctxs m !! t1 = Some c1 -> ctxs m !! t2 = Some c2 ->
              held (c_frames c1) = Some tok -> held (c_frames c2) = Some tok -> t1 = t2;
  lin_frames : Forall (fr_lin (ctxs m) (next m)) (frames m);
  lin_ctxs : ∀ t c, ctxs m !! t = Some c -> Forall (fr_lin (ctxs m) (next m)) (c_frames c);
  lin_shape : shape m;
  lin_tidy : ∀ t c, ctxs m !! t = Some c -> tidy (c_frames c)
}.

(** The contexts of [cs'] numbered below [nx] are contexts of [cs]. *)
Definition older (cs : gmap token context) (nx : nat) (cs' : gmap token context) : Prop :=
  ∀ tok c, (tok < nx)%nat -> cs' !! tok = Some c -> cs !! tok = Some c.

(** ** Pending probes *)




(** ** Scenarios *)

(** A stack allocator for the scenarios: 128 KiB regions one MiB apart, and
    a record of 256 bytes. *)
Definition example_allocate (n : nat) : stack_context :=
  StackContext (1048576 * (Z.of_nat n + 2)) 131072.
Definition example_sizeof : Z := 256.

(** What libunwind reports in the scenarios: a stack made by
    [make_fcontext] ends in the frame of that name, a thread's stack in the
    thread's start routine. *)
Definition example_proc_name (s : stack) : option string :=
  match s with
  | side_stack _ => Some "make_fcontext"%string
  | thread_stack _ => Some "start_thread"%string
  end.

(** The state of thread 1 after [n] steps of [main]. *)
Definition after (n : nat) (main : code) : machine :=
  match steps example_allocate example_sizeof example_proc_name n (boot 1 main) with
  | Next m => m
  | Fault _ => boot 1 main
  end.

(** The callable of the spec's example: it ticks and echoes its resumer. *)
Definition echo : callable := fun h => Tick (Return h).

(** A callable that suspends once, holding a scoped resource. *)
Definition holder : callable :=
  fun h => Acquire 7 (Resume h (fun g => Leave (Return g))).

(** A callable that suspends once inside a [try] with a [catch (...)]. *)
Definition catcher : callable :=
  fun h => Try (Tick ReturnEmpty) (Resume h (fun g => Leave (Return g))).


(** C9 as the specification states it: in no execution does a handler of
    user code catch the unwind signal. *)
Definition unwind_signal_private (allocate : nat -> stack_context) (sizeof_Record : Z)
    (unw_proc_name : stack -> option string) : Prop :=
  ∀ (t : nat) (main : code) (n : nat) (m : machine) (e : fcontext_t),
    steps allocate sizeof_Record unw_proc_name n (boot t main) = Next m ->
    ev_user_catch (forced_unwind e) ∉ log m.

(** Thread 1 builds an echo fiber, probes it and resumes it. *)
Definition main_echo : code :=
  Construct echo (fun f => CanResume f (fun _ => Resume f (fun g => Return g))).

(** Thread 1 builds a fiber and probes it three times before resuming. *)
Definition main_probes : code :=
  Construct echo (fun f =>
    probes [probe_hosting; probe_stack; probe_hosting] f (Resume f (fun g => Return g))).

(** A fiber that hands control back once and then echoes. *)
Definition pingpong : callable := fun h => Resume h (fun g => Return g).

Definition main_pingpong : code :=
  Construct pingpong (fun f => Resume f (fun g => Return g)).

(** The fiber has run on thread 1; thread 2 then tries a checked resume. *)
Definition main_affinity : code :=
  Construct pingpong (fun f =>
    Resume f (fun g => OnThread 2 (ResumeChecked g (fun y => Return y)))).

(** The fiber is resumed with a function that hands its argument back. *)
Definition main_ontop : code :=
  Construct pingpong (fun f =>
    Resume f (fun g => ResumeWith g (fun p => Return p) (fun y => Return y))).

(** The fiber is abandoned while it holds a scoped resource. *)
Definition main_abandon : code :=
  Construct holder (fun f => Resume f (fun g => Destroy g ReturnEmpty)).

(** Suspended contexts of the scenarios. *)
Definition main_in_resume : context :=
  Context (thread_stack 1) [K_resume 4 1; K_let [] (fun g => Return g); K_main].
Definition pingpong_suspended : context :=
  Context (side_stack 0) [K_resume 6 1; K_let [] (fun g => Return g); K_run 6; K_entry_run 0].
Definition holder_frames : list frame :=
  [K_resume 6 1; K_let [L_res 7] (fun g => Leave (Return g)); K_run 6].
Definition main_in_dtor : context :=
  Context (thread_stack 1) [K_dtor; K_seq [] ReturnEmpty; K_main].

(** The fiber is abandoned while it waits inside [try { } catch (...)]. *)
Definition main_catcher : code :=
  Construct catcher (fun f => Resume f (fun g => Destroy g ReturnEmpty)).


(** Thread 1 resumes a handle it has already moved from. *)
Definition main_twice : code :=
  Construct pingpong (fun f => Resume f (fun g => Resume f (fun _ => ReturnEmpty))).

(** The echo fiber has finished; the empty handle it left is destroyed. *)
Definition main_drop : code :=
  Construct echo (fun f => Resume f (fun g => Destroy g ReturnEmpty)).

(** A callable that returns no context to continue with. *)
Definition stubborn : callable := fun h => Resume h (fun g => ReturnEmpty).

Definition main_stubborn : code :=
  Construct stubborn (fun f => Resume f (fun a => Resume a (fun b => Return b))).

(** A callable that destroys the handle of its resumer. *)
Definition killer : callable := fun h => Destroy h ReturnEmpty.

Definition main_killer : code :=
  Construct killer (fun f => Resume f (fun g => Return g)).

(** A fiber is built and dropped without being resumed. *)
Definition main_unused : code :=
  Construct echo (fun f => Destroy f ReturnEmpty).

(** The function run on top of a context suspended in a resume has thrown;
    the caller of that resume has a handler. *)
Definition fn_has_thrown : machine :=
  Machine ∅ {[5%nat := None]} ∅ ∅ 6 1 [] 0 0 (Throw domain_error)
    [K_ontop 5; K_resume 3 1; K_let [L_catch_domain ReturnEmpty] (fun g => Return g); K_main]
    (thread_stack 1).

(** The fiber has run on thread 1; thread 2 is about to call
    [resume_with]. *)
Definition resume_with_on_thread_2 : machine :=
  set_ctl (Run [] (ResumeCheckedWith 8%nat (fun p => Return p) (fun y => Return y)))
    (after 10 main_affinity).

(** A callable that builds a fiber of its own and returns that fiber's
    handle; the handle it was called with is still live when it returns. *)
Definition giver : callable := fun h => Construct echo (fun g => Return g).

Definition main_giver : code := Construct giver (fun f => Resume f (fun r => Return r)).

(** The function run on top returns the handle of a new fiber and keeps
    the handle it was called with. *)
Definition main_ontop_keep : code :=
  Construct pingpong (fun f => Resume f (fun g =>
    ResumeWith g (fun p => Construct echo (fun q => Return q)) (fun y => Return y))).


(** The checked [resume_with], called on the thread the fiber has run on. *)
Definition main_ontop_checked : code :=
  Construct pingpong (fun f =>
    Resume f (fun g => ResumeCheckedWith g (fun p => Return p) (fun y => Return y))).

(** Two fibers, both still parked. *)
Definition main_two : code :=
  Construct echo (fun f => Construct echo (fun g =>
    Resume f (fun a => Resume g (fun b => Return b)))).


(** C2 as the specification states it: in every execution, destroying a
    handle that names a suspended fiber returns to its caller with the
    signal caught by the trampoline and the fiber's record freed. *)
Definition destroy_frees_fiber (allocate : nat -> stack_context)
    (sizeof_Record : Z) (unw_proc_name : stack -> option string) : Prop :=
  ∀ (t : nat) (main : code) (n : nat) (m : machine) ls x k tok c rec,
    steps allocate sizeof_Record unw_proc_name n (boot t main) = Next m ->
    ctl m = Run ls (Destroy x k) ->
    handles m !! x = Some (Some tok) ->
    ctxs m !! tok = Some c ->
    c_stack c = side_stack rec ->
    ∃ n' m',
      steps allocate sizeof_Record unw_proc_name n' m = Next m' ∧
      ctl m' = Run ls k ∧ frames m' = frames m ∧
      ev_catch rec ∈ log m' ∧ records m' !! rec = None.

(** C7 as the specification states it: in every execution, when the
    callable of a fiber returns a non-empty handle the trampoline gets to
    its final switch, with [fiber_exit] bound to the fiber's record. *)
Definition exit_hands_off (allocate : nat -> stack_context)
    (sizeof_Record : Z) (unw_proc_name : stack -> option string) : Prop :=
  ∀ (t : nat) (main : code) (n : nat) (m : machine) ls y p rec fs tok,
    steps allocate sizeof_Record unw_proc_name n (boot t main) = Next m ->
    ctl m = Run ls (Return y) ->
    frames m = K_run p :: K_entry_run rec :: fs ->
    handles m !! y = Some (Some tok) ->
    ∃ n' m' t0,
      steps allocate sizeof_Record unw_proc_name n' m = Next m' ∧
      ctl m' = OnTop fiber_exit (Transfer t0 (p_record rec)).

(** C8 as the specification states it: in every execution, the handle the
    function run on top returns becomes the transfer delivered to the
    pending calls of the destination. *)
Definition fn_result_is_transfer (allocate : nat -> stack_context)
    (sizeof_Record : Z) (unw_proc_name : stack -> option string) : Prop :=
  ∀ (t : nat) (main : code) (n : nat) (m : machine) ls y p fs h,
    steps allocate sizeof_Record unw_proc_name n (boot t main) = Next m ->
    ctl m = Run ls (Return y) ->
    frames m = K_ontop p :: fs ->
    handles m !! y = Some h ->
    ∃ n' m',
      steps allocate sizeof_Record unw_proc_name n' m = Next m' ∧
      ctl m' = Deliver (Transfer h null) ∧ frames m' = fs.

(** * Properties *)

Section Steps.
Variable allocate : nat -> stack_context.
Variable sizeof_Record : Z.
Variable unw_proc_name : stack -> option string.
Local Abbreviation step := (step allocate sizeof_Record unw_proc_name).
Local Abbreviation steps := (steps allocate sizeof_Record unw_proc_name).

Lemma steps_S n m :
  steps (S n) m = match step m with Next m' => steps n m' | Fault fl => Fault fl end.
Proof. reflexivity. Qed.

Lemma steps_add n k m :
  steps (n + k) m = match steps n m with Next m' => steps k m' | Fault fl => Fault fl end.
Proof.
  revert m. induction n as [|n IH]; intros m; [reflexivity|].
  change (S n + k)%nat with (S (n + k)). rewrite !steps_S.
  destruct (step m); [apply IH | reflexivity].
Qed.

Lemma release_locals_eq ls m :
  release_locals ls m = set_log (log m ++ map ev_release (resources ls)) m.
Proof.
  revert m. induction ls as [|[r|h|h] ls IH]; intros m; cbn.
  - destruct m; cbn. unfold set_log; cbn. by rewrite app_nil_r.
  - rewrite IH. destruct m; unfold emit, set_log; cbn. by rewrite <- app_assoc.
  - apply IH.
  - apply IH.
Qed.

Lemma unwind_locals_eq ls f m :
  Forall no_catch_all ls ->
  unwind_locals ls (forced_unwind f) m
  = set_ctl (Throw (forced_unwind f)) (set_log (log m ++ map ev_release (resources ls)) m).
Proof.
  intros H. revert m. induction H as [|[r|h|h] ls Hl _ IH]; intros m; cbn.
  - destruct m; cbn. unfold set_log, set_ctl; cbn. by rewrite app_nil_r.
  - rewrite IH. destruct m; unfold emit, set_log, set_ctl; cbn. by rewrite <- app_assoc.
  - destruct Hl.
  - apply IH.
Qed.

Lemma unwind_locals_ctl ls e m :
  ctl (unwind_locals ls e m) = Throw e ∨
  ∃ ls' h, ctl (unwind_locals ls e m) = Run ls' h.
Proof.
  revert m. induction ls as [|[r|h|h] ls IH]; intros m; cbn.
  - by left.
  - apply IH.
  - right. by eexists _, _.
  - destruct e; [apply IH|]. right. by eexists _, _.
Qed.


Lemma counter_app l1 l2 : counter (l1 ++ l2) = counter l1 + counter l2.
Proof. induction l1 as [|[] l1 IH]; cbn; lia. Qed.

Lemma counter_releases rs : counter (map ev_release rs) = - Z.of_nat (length rs).
Proof. induction rs as [|r rs IH]; cbn [map counter length]; lia. Qed.

Lemma steps_Next n m m' k :
  steps n m = Next m' -> steps (n + k) m = steps k m'.
Proof. intros H. rewrite steps_add, H. reflexivity. Qed.

Lemma steps_Fault n k m fl :
  steps n m = Fault fl -> steps (n + k) m = Fault fl.
Proof. intros H. by rewrite steps_add, H. Qed.
End Steps.

(** Symbolic execution: unfold one step down to the map operations, then
    resolve the lookups. *)
Ltac unfold_machine :=
  unfold step, exec, deliver, call_ontop, return_handle, return_bool, return_void, unwind, pop,
    fiber_entry, fiber_entry_rep, fiber_entry_catch, fiber_entry_exit,
    resume, resume_checked, resume_from_any_thread, resume_from_any_thread_rep,
    resume_from_any_thread_with, resume_from_any_thread_with_loop,
    can_resume, can_resume_return, can_resume_from_any_thread,
    can_resume_from_any_thread_return, create_fiber, make_fcontext,
    call_fiber_unwind, call_fiber_exit, call_fiber_ontop, fiber_ontop_return, run_return, run,
    fiber_handle_dtor, deallocate, answer,
    jump_fcontext, ontop_fcontext, switch, exchange, set_handle, alloc, goto, push, emit.

Ltac map_lookup :=
  repeat first
    [ rewrite lookup_insert_eq
    | rewrite lookup_delete_eq
    | rewrite lookup_insert_ne by lia
    | rewrite lookup_delete_ne by lia
    | match goal with H : _ !! _ = _ |- _ => rewrite H end ].

Ltac machine_cbv :=
  cbv beta iota zeta delta
    [step exec deliver call_ontop return_handle return_bool return_void unwind pop
     fiber_entry fiber_entry_rep fiber_entry_catch fiber_entry_exit
     resume resume_checked resume_from_any_thread resume_from_any_thread_rep
     resume_from_any_thread_with resume_from_any_thread_with_loop
     can_resume can_resume_return can_resume_from_any_thread
     can_resume_from_any_thread_return create_fiber make_fcontext
     call_fiber_unwind call_fiber_exit call_fiber_ontop fiber_ontop_return run_return run
     fiber_handle_dtor deallocate answer
     jump_fcontext ontop_fcontext switch exchange set_handle alloc goto push emit
     set_ctxs set_handles set_slots set_records set_next set_host set_log set_usteps
     set_switches set_ctl set_frames set_on
     ctxs handles slots records next host log usteps switches ctl frames on
     t_fctx t_data c_stack c_frames data_f data_v data_init std_get_bool std_get_id
     sctx_ fn_ storage stack_top stack_size parked probes call_frame].

Ltac run_step :=
  machine_cbv; cbn [find_handler takes existsb orb];
  repeat (progress (map_lookup; rewrite ?release_locals_eq; machine_cbv;
                    cbn [find_handler takes existsb orb])).

Ltac run_steps := repeat (rewrite steps_S; run_step).

(** Case analysis of one step: split on the lookups, variables and tests the
    step examines, innermost first. *)
Ltac case_step :=
  match goal with
  | |- context [match ?m !! ?k with _ => _ end] => destruct (m !! k) eqn:?
  | |- context [match ?v with _ => _ end] => is_var v; destruct v
  | |- context [if ?b then _ else _] => destruct b eqn:?
  end.

(** The step of an exception in flight goes on when the search has found a
    handler. *)
Ltac handler_found :=
  match goal with
  | |- context [if find_handler ?e ?fs then _ else _] =>
      destruct (find_handler e fs) eqn:?; [|intros; discriminate]
  end.

Ltac step_cases :=
  machine_cbv; rewrite ?release_locals_eq; machine_cbv;
  repeat (first [progress map_lookup | case_step];
          machine_cbv; rewrite ?release_locals_eq; machine_cbv);
  try (intros; discriminate).



Ltac open_machine m :=
  destruct m;
  cbn [ctxs handles slots records next host log usteps switches ctl frames on] in *;
  subst.

Section Properties.

Variable allocate : nat -> stack_context.
Variable sizeof_Record : Z.
Variable unw_proc_name : stack -> option string.

Local Abbreviation step := (step allocate sizeof_Record unw_proc_name).
Local Abbreviation steps := (steps allocate sizeof_Record unw_proc_name).

(** ** Where [create_fiber] puts the record *)

Definition fits (sctx : stack_context) : Prop :=
  0 < sizeof_Record ∧ sizeof_Record + 320 <= sctx_size sctx ∧
  sctx_size sctx <= sctx_sp sctx ∧ sctx_sp sctx < 2 ^ uintptr_bits.

Lemma land_align (x : Z) :
  0 <= x < 2 ^ uintptr_bits ->
  Z.land (uintptr x) (uintptr (Z.lnot 255)) = x - x mod 256.
Proof.
  intros Hx. unfold uintptr, uintptr_bits in *.
  rewrite (Z.mod_small x) by lia.
  replace (x - x mod 256) with (Z.ldiff x (Z.ones 8)).
  2:{ rewrite Z.ldiff_ones_r by lia.
      rewrite Z.shiftr_div_pow2, Z.shiftl_mul_pow2 by lia.
      change (2 ^ 8) with 256. pose proof (Z.div_mod x 256). lia. }
  apply Z.bits_inj'. intros n Hn. rewrite Z.land_spec, Z.ldiff_spec.
  change 255 with (Z.ones 8).
  destruct (Z.ltb_spec n 64).
  - rewrite Z.mod_pow2_bits_low by lia. rewrite Z.lnot_spec by lia. reflexivity.
  - rewrite Z.mod_pow2_bits_high by lia. rewrite andb_false_r.
    rewrite <- (Z.mod_small x (2 ^ 64)) by lia.
    rewrite Z.mod_pow2_bits_high by lia. reflexivity.
Qed.

(** The record is 256-aligned and lies inside the allocated region; the
    stack given to [make_fcontext] ends 64 bytes below it and starts at the
    bottom of the region. *)
Lemma record_placement (sctx : stack_context) :
  fits sctx ->
  record_storage sizeof_Record sctx mod 256 = 0 ∧
  record_storage sizeof_Record sctx + sizeof_Record <= sctx_sp sctx ∧
  record_stack_top sizeof_Record sctx = record_storage sizeof_Record sctx - 64 ∧
  record_stack_bottom sctx = sctx_sp sctx - sctx_size sctx ∧
  record_stack_bottom sctx < record_stack_top sizeof_Record sctx ∧
  record_stack_size sizeof_Record sctx
    = record_stack_top sizeof_Record sctx - record_stack_bottom sctx.
Proof.
  intros (Hs & Hsz & Hsp & Hmax).
  unfold record_stack_size, record_stack_top, record_stack_bottom, record_storage.
  rewrite land_align by lia.
  set (x := sctx_sp sctx - sizeof_Record).
  pose proof (Z.mod_pos_bound x 256 ltac:(lia)) as Hm.
  assert (Ha : (x - x mod 256) mod 256 = 0).
  { rewrite Zminus_mod, Zmod_mod, Z.sub_diag. reflexivity. }
  unfold uintptr in *. unfold uintptr_bits in *.
  rewrite !(Z.mod_small (x - x mod 256 - 64)) by lia.
  rewrite !(Z.mod_small (sctx_sp sctx - sctx_size sctx)) by lia.
  rewrite (Z.mod_small (x - x mod 256 - 64 - _)) by lia.
  repeat split; first [exact Ha | lia].
Qed.

(** ** Construction *)

(** C3. Constructing a handle from any callable [fn] takes four steps of
    the machine: a stack is allocated and the record is placed on it,
    256-aligned, inside the region and 64 bytes above the stack given to
    [make_fcontext]; the context is created and one round trip of switches
    parks the trampoline at [rep]. The constructor returns a non-empty
    handle naming that parked context, nothing is logged, and the only user
    instruction executed is the constructing call itself. *)
Theorem construct_parks_at_idle (m : machine) ls fn k :
  ctl m = Run ls (Construct fn k) ->
  fits (allocate (next m)) ->
  let rec := next m in
  let tok := (3 + next m)%nat in
  let y := (4 + next m)%nat in
  ∃ m' r,
    steps 4 m = Next m' ∧
    ctl m' = Run ls (k y) ∧ frames m' = frames m ∧ on m' = on m ∧
    operator_bool (Some tok) = true ∧
    handles m' !! y = Some (Some tok) ∧
    ctxs m' !! tok = Some (Context (side_stack rec) [K_entry_idle rec]) ∧
    records m' !! rec = Some r ∧ fn_ r = fn ∧ sctx_ r = allocate rec ∧
    storage r mod 256 = 0 ∧
    sctx_sp (sctx_ r) - sctx_size (sctx_ r) < stack_top r ∧
    stack_top r + 64 = storage r ∧
    storage r + sizeof_Record <= sctx_sp (sctx_ r) ∧
    stack_top r - stack_size r = sctx_sp (sctx_ r) - sctx_size (sctx_ r) ∧
    log m' = log m ∧ usteps m' = S (usteps m) ∧ switches m' = (2 + switches m)%nat.
Proof.
  intros Hc Hfit. open_machine m.
  eexists _, _. split.
  { run_steps. reflexivity. }
  cbn. map_lookup.
  destruct (record_placement _ Hfit) as (Ha & Hb & Hc & Hd & He & Hf).
  repeat split; cbn; first [exact Ha | lia].
Qed.

(** ** Probes *)

(** One probe of a parked fiber, of either kind. *)
Lemma probe_parked (m : machine) ls q x k tok rec :
  ctl m = Run ls (probes [q] x k) ->
  handles m !! x = Some (Some tok) ->
  ctxs m !! tok = Some (parked rec) ->
  ∃ m',
    steps 4 m = Next m' ∧
    ctl m' = Run ls k ∧ frames m' = frames m ∧ on m' = on m ∧ host m' = host m ∧
    handles m' !! x = Some (Some (2 + next m)%nat) ∧
    ctxs m' !! (2 + next m)%nat = Some (parked rec) ∧
    records m' = records m ∧
    log m' = log m ∧ usteps m' = S (usteps m) ∧ switches m' = (2 + switches m)%nat.
Proof.
  intros Hc Hx Ht. open_machine m.
  destruct q; cbn.
  - eexists. split.
    { run_steps. reflexivity. }
    cbn. map_lookup. repeat split.
  - eexists. split.
    { run_steps. reflexivity. }
    cbn. map_lookup. repeat split.
Qed.

(** Resuming a parked fiber starts its callable, on the fiber's stack,
    with a handle that names the resumer. *)
Lemma resume_parked (m : machine) ls x k tok rec r :
  ctl m = Run ls (Resume x k) ->
  handles m !! x = Some (Some tok) ->
  ctxs m !! tok = Some (parked rec) ->
  records m !! rec = Some r ->
  (x < next m)%nat ->
  ∃ m',
    steps 2 m = Next m' ∧
    ctl m' = Run [] (fn_ r (S (next m))) ∧
    frames m' = [K_run (S (next m)); K_entry_run rec] ∧ on m' = side_stack rec ∧
    handles m' !! x = Some None ∧
    handles m' !! S (next m) = Some (Some (next m)) ∧
    ctxs m' !! next m = Some (Context (on m) (K_resume x (host m) :: K_let ls k :: frames m)) ∧
    log m' = log m ++ [ev_invoke rec] ∧ usteps m' = S (usteps m).
Proof.
  intros Hc Hx Ht Hr Hlt. open_machine m.
  eexists. split; [run_steps; reflexivity|].
  cbn. map_lookup. repeat split.
Qed.

(** Any number of probes of a parked fiber, of either kind, in any order:
    the fiber stays parked under the handle, nothing is logged, and the
    only user instructions executed are the probing calls themselves. *)
Lemma probes_parked qs : ∀ (m : machine) ls x k tok rec,
  ctl m = Run ls (probes qs x k) ->
  handles m !! x = Some (Some tok) ->
  ctxs m !! tok = Some (parked rec) ->
  ∃ m' tok',
    steps (4 * length qs) m = Next m' ∧
    ctl m' = Run ls k ∧ frames m' = frames m ∧ on m' = on m ∧ host m' = host m ∧
    handles m' !! x = Some (Some tok') ∧
    ctxs m' !! tok' = Some (parked rec) ∧
    records m' = records m ∧ (next m <= next m')%nat ∧
    log m' = log m ∧
    usteps m' = (length qs + usteps m)%nat ∧
    switches m' = (2 * length qs + switches m)%nat.
Proof.
  induction qs as [|q qs IH]; intros m ls x k tok rec Hc Hx Ht.
  - exists m, tok. cbn in Hc. repeat split; auto.
  - destruct (probe_parked m ls q x (probes qs x k) tok rec) as (m1 & Hs & H1);
      [destruct q; exact Hc | exact Hx | exact Ht |].
    destruct H1 as (Hc1 & Hf1 & Ho1 & Hh1 & Hx1 & Ht1 & Hr1 & Hl1 & Hu1 & Hw1).
    destruct (IH m1 ls x k _ rec Hc1 Hx1 Ht1) as (m2 & tok2 & Hs2 & H2).
    destruct H2 as (Hc2 & Hf2 & Ho2 & Hh2 & Hx2 & Ht2 & Hr2 & Hn2 & Hl2 & Hu2 & Hw2).
    exists m2, tok2.
    replace (4 * length (q :: qs))%nat with (4 + 4 * length qs)%nat by (cbn; lia).
    rewrite (steps_Next _ _ _ _ _ _ _ Hs), Hs2.
    assert (next m <= next m1)%nat.
    { clear -Hs Hc Hx Ht. open_machine m. revert Hs. destruct q; cbn; run_steps;
        intros [= <-]; cbn; lia. }
    repeat split; try congruence; cbn [length]; lia.
Qed.


(** C4. Any number of consecutive [can_resume()] /
    [can_resume_from_any_thread()] calls on a handle to a fiber parked at
    its idle point run no user code of the fiber: the callable is not
    invoked and nothing is logged, the only user instructions executed are
    the probing calls. After the probes the handle is non-empty again and
    names the same fiber, still parked, and resuming it then starts the
    callable. *)
Theorem probes_run_no_user_code qs (m : machine) ls x k tok rec r :
  ctl m = Run ls (probes qs x k) ->
  handles m !! x = Some (Some tok) ->
  ctxs m !! tok = Some (parked rec) ->
  records m !! rec = Some r ->
  (x < next m)%nat ->
  ∃ m' tok',
    steps (4 * length qs) m = Next m' ∧
    ctl m' = Run ls k ∧ frames m' = frames m ∧ on m' = on m ∧
    log m' = log m ∧ usteps m' = (length qs + usteps m)%nat ∧
    switches m' = (2 * length qs + switches m)%nat ∧
    handles m' !! x = Some (Some tok') ∧ operator_bool (Some tok') = true ∧
    ctxs m' !! tok' = Some (parked rec) ∧ records m' !! rec = Some r ∧
    ∀ k', ∃ m'',
      steps 2 (set_ctl (Run ls (Resume x k')) m') = Next m'' ∧
      ctl m'' = Run [] (fn_ r (S (next m'))) ∧ on m'' = side_stack rec ∧
      log m'' = log m ++ [ev_invoke rec].
Proof.
  intros Hc Hx Ht Hr Hlt.
  destruct (probes_parked qs m ls x k tok rec Hc Hx Ht) as (m' & tok' & Hs & H').
  destruct H' as (Hc' & Hf' & Ho' & Hh' & Hx' & Ht' & Hr' & Hn' & Hl' & Hu' & Hw').
  exists m', tok'. repeat split; auto; try congruence.
  intros k'.
  destruct (resume_parked (set_ctl (Run ls (Resume x k')) m') ls x k' tok' rec r)
    as (m'' & Hs'' & Hc'' & _ & Ho'' & _ & _ & _ & Hl'' & _); cbn; auto; try congruence; try lia.
  exists m''. cbn in *. repeat split; auto; congruence.
Qed.

(** ** Affinity *)

Lemma affinity_ok_iff (h : nat) (i : thread_id) :
  affinity_ok (Some h) i = true ↔ i = None ∨ i = Some h.
Proof.
  unfold affinity_ok. rewrite orb_true_iff, !bool_decide_eq_true.
  split; intros [H|H]; auto.
Qed.

Lemma affinity_ok_unbound (h : nat) : affinity_ok (Some h) None = true.
Proof. reflexivity. Qed.

(** One [can_resume()] on a handle naming a context that waits where the
    header answers probes. *)
Lemma can_resume_probe (m : machine) ls x k tok c i :
  ctl m = Run ls (CanResume x k) ->
  handles m !! x = Some (Some tok) ->
  ctxs m !! tok = Some c ->
  reported c = Some i ->
  ∃ m',
    steps 4 m = Next m' ∧
    ctl m' = Run ls (k (affinity_ok (Some (host m)) i)) ∧
    frames m' = frames m ∧ on m' = on m ∧ host m' = host m ∧
    handles m' !! x = Some (Some (2 + next m)%nat) ∧
    ctxs m' !! (2 + next m)%nat = Some c ∧
    slots m' !! next m = Some (Data flag_hosting_thread (v_id i)) ∧
    records m' = records m ∧ next m' = (3 + next m)%nat ∧
    log m' = log m ∧ usteps m' = S (usteps m) ∧ switches m' = (2 + switches m)%nat.
Proof.
  intros Hc Hx Ht Hrep. open_machine m.
  destruct c as [s [|[] fs]]; cbn in Hrep; try discriminate;
    inversion Hrep; subst;
    (eexists; split; [run_steps; reflexivity|]); cbn; map_lookup; repeat split.
Qed.

(** C5. [can_resume()] on a non-empty handle makes one probe round trip
    (two switches, the probe carrying the host-affinity tag), executes no
    user code besides the call itself and logs nothing, restores the handle
    to name the same suspended context, and returns true iff the affinity
    written into the probe by the suspended context is unbound or is the
    current host thread. *)
Theorem can_resume_spec (m : machine) ls x k tok c i :
  ctl m = Run ls (CanResume x k) ->
  handles m !! x = Some (Some tok) ->
  ctxs m !! tok = Some c ->
  reported c = Some i ->
  ∃ m' b tok',
    steps 4 m = Next m' ∧ ctl m' = Run ls (k b) ∧
    frames m' = frames m ∧ on m' = on m ∧
    switches m' = (2 + switches m)%nat ∧
    usteps m' = S (usteps m) ∧ log m' = log m ∧
    handles m' !! x = Some (Some tok') ∧ ctxs m' !! tok' = Some c ∧
    slots m' !! next m = Some (Data flag_hosting_thread (v_id i)) ∧
    (b = true ↔ i = None ∨ i = Some (host m)).
Proof.
  intros Hc Hx Ht Hrep.
  destruct (can_resume_probe m ls x k tok c i Hc Hx Ht Hrep) as (m' & Hs & H').
  destruct H' as (Hc' & Hf' & Ho' & Hh' & Hx' & Ht' & Hd' & Hr' & Hn' & Hl' & Hu' & Hw').
  exists m', (affinity_ok (Some (host m)) i), (2 + next m)%nat.
  repeat split; auto; apply affinity_ok_iff.
Qed.

(** C6. With [x] naming a suspended context that reports affinity [i]:
    [resume()] throws [std::domain_error] exactly when [can_resume()] is
    false; the throw happens after the probe only, with nothing logged, no
    user code run and the handle still naming the same suspended context,
    and a handler for [std::domain_error] around the call catches it. When
    [can_resume()] is true [resume()] goes on to the switch of
    [resume_from_any_thread()], and [resume_from_any_thread()] itself
    performs that switch whatever the affinity. *)
Theorem resume_checks_affinity (m : machine) ls x k kb tok c i :
  handles m !! x = Some (Some tok) ->
  ctxs m !! tok = Some c ->
  reported c = Some i ->
  (x < next m)%nat ->
  let checked := set_ctl (Run ls (ResumeChecked x k)) m in
  let unchecked := set_ctl (Run ls (Resume x k)) m in
  let probing := set_ctl (Run ls (CanResume x kb)) m in
  let b := affinity_ok (Some (host m)) i in
  (∃ m', steps 4 probing = Next m' ∧ ctl m' = Run ls (kb b)) ∧
  (b = false ->
     ∃ m',
       steps 4 checked = Next m' ∧ ctl m' = Throw domain_error ∧
       frames m' = K_let ls k :: frames m ∧ on m' = on m ∧
       log m' = log m ∧ usteps m' = S (usteps m) ∧ records m' = records m ∧
       handles m' !! x = Some (Some (2 + next m)%nat) ∧
       ctxs m' !! (2 + next m)%nat = Some c ∧
       ∀ h ls', ls = L_catch_domain h :: ls' ->
         ∃ m'', steps 5 checked = Next m'' ∧ ctl m'' = Run ls' h ∧
                frames m'' = frames m ∧ on m'' = on m ∧
                log m'' = log m ++ [ev_user_catch domain_error]) ∧
  (b = true ->
     ∃ m',
       steps 4 checked = Next m' ∧
       ctl m' = Deliver (Transfer (Some (3 + next m)%nat) null) ∧
       frames m' = c_frames c ∧ on m' = c_stack c ∧
       handles m' !! x = Some None ∧ log m' = log m) ∧
  (∃ m',
     steps 1 unchecked = Next m' ∧
     ctl m' = Deliver (Transfer (Some (next m)) null) ∧
     frames m' = c_frames c ∧ on m' = c_stack c ∧
     handles m' !! x = Some None ∧ log m' = log m).
Proof.
  intros Hx Ht Hrep Hlt checked unchecked probing b.
  split; [|split; [|split]].
  - destruct (can_resume_probe probing ls x kb tok c i) as (m' & Hs & Hc' & _); auto.
    exists m'. auto.
  - intros Hb. subst checked unchecked probing b. open_machine m.
    destruct c as [s [|[] fs]]; cbn in Hrep; try discriminate; inversion Hrep; subst;
      (eexists; split; [run_steps; rewrite Hb; run_step; reflexivity|]);
      cbn; map_lookup; (repeat split; []); intros h ls' ->;
      (eexists; split; [run_steps; rewrite Hb; run_steps; reflexivity|]); repeat split.
  - intros Hb. subst checked unchecked probing b. open_machine m.
    destruct c as [s [|[] fs]]; cbn in Hrep; try discriminate; inversion Hrep; subst;
      (eexists; split; [run_steps; rewrite Hb; run_step; reflexivity|]);
      cbn; map_lookup; repeat split.
  - subst checked unchecked probing b. open_machine m.
    eexists; split; [run_steps; reflexivity|]. cbn; map_lookup; repeat split.
Qed.

(** C10. A fiber parked at the idle point answers the hosting-thread probe
    with the default thread id on every host thread [h]: [can_resume()] is
    true there, and [resume()] from [h] never reaches its throw but goes on
    to start the callable. *)
Theorem parked_affinity_unbound (m : machine) (h : nat) ls x k kb tok rec r :
  handles m !! x = Some (Some tok) ->
  ctxs m !! tok = Some (parked rec) ->
  records m !! rec = Some r ->
  (x < next m)%nat ->
  let probing := set_host h (set_ctl (Run ls (CanResume x kb)) m) in
  let checked := set_host h (set_ctl (Run ls (ResumeChecked x k)) m) in
  (∃ m', steps 4 probing = Next m' ∧ ctl m' = Run ls (kb true) ∧
         slots m' !! next m = Some (Data flag_hosting_thread (v_id None))) ∧
  (∃ m', steps 5 checked = Next m' ∧
         ctl m' = Run [] (fn_ r (4 + next m)%nat) ∧ on m' = side_stack rec ∧
         handles m' !! x = Some None ∧
         log m' = log m ++ [ev_invoke rec]) ∧
  (∀ n m', (n <= 5)%nat -> steps n checked = Next m' -> ctl m' ≠ Throw domain_error).
Proof.
  intros Hx Ht Hr Hlt probing checked. subst probing checked. open_machine m.
  split; [|split].
  - eexists; split; [run_steps; reflexivity|]. cbn; map_lookup; repeat split.
  - eexists; split; [run_steps; rewrite affinity_ok_unbound; run_steps; reflexivity|].
    cbn; map_lookup; repeat split.
  - intros n m' Hn.
    do 6 (destruct n as [|n];
          [run_steps; rewrite ?affinity_ok_unbound; run_steps;
           intros Hs; injection Hs as <-; cbn; discriminate|]).
    lia.
Qed.

(** ** Exit *)

(** C7, as the code has it. When the callable returns a handle [y] naming
    the context [dst], and the handle [p] it was called with is [y] itself
    or has been moved from, the trampoline switches to [dst] with [ontop_fcontext], handing
    [fiber_exit] its own record; up to and including that switch the record
    and stack are allocated, [fiber_exit] frees them while running on the
    stack of [dst], and afterwards no token names a context on the freed
    stack and [dst] receives an empty transfer. *)
Theorem exit_handoff (m : machine) ls y p tok dst rec r :
  ctl m = Run ls (Return y) ->
  frames m = [K_run p; K_entry_run rec] ->
  on m = side_stack rec ->
  handles m !! y = Some (Some tok) ->
  p = y ∨ handles m !! p = Some None ->
  ctxs m !! tok = Some dst ->
  c_stack dst ≠ side_stack rec ->
  records m !! rec = Some r ->
  ∃ m4 m5,
    steps 4 m = Next m4 ∧ steps 5 m = Next m5 ∧
    ctl m4 = OnTop fiber_exit (Transfer (Some (next m)) (p_record rec)) ∧
    frames m4 = c_frames dst ∧ on m4 = c_stack dst ∧
    ctxs m4 !! next m = Some (Context (side_stack rec) [K_entry_exit rec]) ∧
    records m4 !! rec = Some r ∧
    log m4 = log m ++ map ev_release (resources ls) ∧
    (∀ n mn, (n <= 5)%nat -> steps n m = Next mn -> on mn = side_stack rec ->
             records mn !! rec = Some r) ∧
    ctl m5 = Deliver (Transfer None null) ∧
    frames m5 = c_frames dst ∧ on m5 = c_stack dst ∧
    log m5 = log m4 ++ [ev_dealloc rec (c_stack dst)] ∧
    records m5 !! rec = None ∧
    handles m5 !! y = Some None ∧
    (∀ t c, ctxs m5 !! t = Some c -> c_stack c ≠ side_stack rec).
Proof.
  intros Hc Hf Ho Hy Hp Ht Hd Hr. open_machine m.
  assert (Hp' : <[y:=None]> handles0 !! p = Some None).
  { destruct Hp as [->|Hp]; [apply lookup_insert_eq|].
    destruct (decide (y = p)) as [->|]; [apply lookup_insert_eq|].
    by rewrite lookup_insert_ne. }
  eexists _, _. split; [run_steps; reflexivity|].
  split; [run_steps; reflexivity|].
  cbn; map_lookup. repeat split.
  - intros n mn Hn.
    do 6 (destruct n as [|n];
          [run_steps; intros Hs; injection Hs as <-; cbn; intros Hon;
           first [done | by destruct Hd]|]).
    lia.
  - intros t c Hl%map_lookup_filter_Some. by destruct Hl.
Qed.

(** ** Execute-on-top *)

(** C8, as the code has it. [resume_with( fn)], called from a thread the
    affinity check accepts, and [resume_from_any_thread_with( fn)] make one
    switch to the destination after which [fn] runs on the destination's
    stack, on top of the destination's pending calls and before any of them
    continues, with a handle naming the context just left. When [fn]
    returns a handle [y] and the handle [p] it was called with is [y]
    itself or has been moved from, what [y] held is delivered to the
    destination as the transfer of that switch; when [fn] returns an empty
    handle, an empty transfer is. The transfer that later comes back to
    the call with no payload is the result of the call. *)
Theorem resume_with_runs_on_top (m m1 m2 : machine)
    chk ls x fn k tok dst ls1 y h p fs1 t tid fs2 :
  ctl m = Run ls (resume_code chk (via_resume_with fn) x k) ->
  handles m !! x = Some (Some tok) ->
  ctxs m !! tok = Some dst ->
  (x < next m)%nat ->
  (chk = true -> ∃ i, reported dst = Some i ∧ affinity_ok (Some (host m)) i = true) ->
  ctl m1 = Run ls1 (Return y) ->
  frames m1 = K_ontop p :: fs1 ->
  handles m1 !! y = Some h ->
  p = y ∨ handles m1 !! p = Some None ->
  ctl m2 = Deliver t ->
  t_data t = null ->
  frames m2 = K_resume_with x tid :: K_let ls k :: fs2 ->
  let src := (resume_cost chk - 1 + next m)%nat in
  (∃ m',
     steps (resume_cost chk + 1) m = Next m' ∧
     ctl m' = Run [] (fn (S src)) ∧
     on m' = c_stack dst ∧ frames m' = K_ontop (S src) :: c_frames dst ∧
     handles m' !! S src = Some (Some src) ∧
     ctxs m' !! src
       = Some (Context (on m) (K_resume_with x (host m) :: K_let ls k :: frames m)) ∧
     handles m' !! x = Some None ∧
     switches m' = ((if chk then 3 else 1) + switches m)%nat ∧
     usteps m' = S (usteps m) ∧
     log m' = log m ++ [ev_fn (c_stack dst) (Some src)]) ∧
  (∃ m',
     steps 3 m1 = Next m' ∧
     ctl m' = Deliver (Transfer h null) ∧ frames m' = fs1 ∧ on m' = on m1 ∧
     switches m' = switches m1) ∧
  (∀ (m3 : machine) ls3,
     ctl m3 = Run ls3 ReturnEmpty ->
     frames m3 = K_ontop p :: fs1 ->
     handles m3 !! p = Some None ->
     ∃ m',
       steps 3 m3 = Next m' ∧
       ctl m' = Deliver (Transfer None null) ∧ frames m' = fs1 ∧ on m' = on m3 ∧
       switches m' = switches m3) ∧
  (∃ m',
     steps 2 m2 = Next m' ∧
     ctl m' = Run ls (k (next m2)) ∧ frames m' = fs2 ∧ on m' = on m2 ∧
     handles m' !! next m2 = Some (t_fctx t)).
Proof.
  intros Hc Hx Ht Hlt Haff Hc1 Hf1 Hy Hp Hc2 Hd2 Hf2 src. subst src.
  split_and!.
  - clear Hc1 Hf1 Hy Hp Hc2 Hd2 Hf2.
    destruct m as [cs hs sl rs nx ho lg us sw c0 fs0 o].
    cbn [ctxs handles slots records next host log usteps switches ctl frames on] in *; subst.
    destruct chk; cbn [resume_cost resume_code Nat.add Nat.sub].
    + destruct (Haff eq_refl) as (i & Hrep & Hb).
      destruct dst as [s [|[] fs]]; cbn in Hrep; try discriminate; inversion Hrep; subst;
        (eexists; split; [run_steps; rewrite Hb; run_steps; reflexivity|]);
        cbn; map_lookup; repeat split.
    + eexists; split; [run_steps; reflexivity|]. cbn; map_lookup; repeat split.
  - clear Hc Hx Ht Hlt Haff Hc2 Hd2 Hf2.
    destruct m1 as [cs hs sl rs nx ho lg us sw c0 fs0 o].
    cbn [ctxs handles slots records next host log usteps switches ctl frames on] in *; subst.
    assert (Hp' : <[y:=None]> hs !! p = Some None).
    { destruct Hp as [->|Hp]; [apply lookup_insert_eq|].
      destruct (decide (y = p)) as [->|]; [apply lookup_insert_eq|].
      by rewrite lookup_insert_ne. }
    eexists; split; [run_steps; reflexivity|]. cbn; repeat split.
  - clear. intros m3 ls3 Hc3 Hf3 Hp3.
    destruct m3 as [cs hs sl rs nx ho lg us sw c0 fs0 o].
    cbn [ctxs handles slots records next host log usteps switches ctl frames on] in *; subst.
    eexists; split; [run_steps; reflexivity|]. cbn; repeat split.
  - clear Hc Hx Ht Hlt Haff Hc1 Hf1 Hy Hp.
    destruct m2 as [cs hs sl rs nx ho lg us sw c0 fs0 o].
    cbn [ctxs handles slots records next host log usteps switches ctl frames on] in *; subst.
    destruct t as [tf td].
    cbn in Hd2; subst.
    eexists; split; [run_steps; reflexivity|]. cbn; map_lookup; repeat split.
Qed.

(** ** Forced unwind *)

Lemma passes_insert_None hs x fs : passes hs fs -> passes (<[x:=None]> hs) fs.
Proof.
  induction fs as [|k fs IH]; [done|]. intros [Hk Hfs]. split; [|by apply IH].
  destruct k; try exact Hk.
  - destruct (decide (x = p)) as [->|]; [apply lookup_insert_eq|].
    by rewrite lookup_insert_ne.
  - destruct (decide (x = p)) as [->|]; [apply lookup_insert_eq|].
    by rewrite lookup_insert_ne.
Qed.

Lemma takes_no_catch_all f ls :
  Forall no_catch_all ls -> existsb (takes (forced_unwind f)) ls = false.
Proof. induction 1 as [|[] ls Hl _ IH]; cbn; try done. Qed.

(** The search for a handler of [forced_unwind] goes through the frames
    that [forced_unwind] passes through. *)
Lemma find_handler_passes hs fs f bottom :
  passes hs fs ->
  find_handler (forced_unwind f) (fs ++ bottom) = find_handler (forced_unwind f) bottom.
Proof.
  induction fs as [|k fs IH]; [done|]. intros [Hk Hfs].
  destruct k; try contradiction; cbn [app find_handler];
    rewrite ?takes_no_catch_all by assumption; by apply IH.
Qed.

(** [forced_unwind] raised on top of frames it passes through, with a
    handler below them, destroys their scoped resources, innermost first,
    and arrives below them; no user code runs and nothing else changes. *)
Lemma unwind_through fs : ∀ (m : machine) f bottom,
  ctl m = Throw (forced_unwind f) ->
  frames m = fs ++ bottom ->
  passes (handles m) fs ->
  find_handler (forced_unwind f) bottom = true ->
  steps (unwind_cost fs) m
  = Next (set_frames bottom (set_log (log m ++ map ev_release (frames_resources fs)) m)).
Proof.
  induction fs as [|k fs IH]; intros m f bottom Hc Hf Hp Hb.
  - open_machine m. cbn. unfold set_frames, set_log; cbn. by rewrite app_nil_r.
  - assert (Hh : find_handler (forced_unwind f) ((k :: fs) ++ bottom) = true)
      by (by rewrite (find_handler_passes _ _ _ _ Hp)).
    cbn [app] in Hh.
    destruct Hp as [Hk Hp]. open_machine m.
    destruct k; try contradiction; cbn [unwind_cost frames_resources];
      rewrite ?Nat.add_succ_l, ?Nat.add_0_l; rewrite steps_S;
      unfold step, pop, unwind; cbn [ctl frames app]; rewrite Hh;
      rewrite ?unwind_locals_eq by assumption;
      unfold_machine; cbn; map_lookup; cbn;
      try (rewrite steps_S; run_step);
      (erewrite IH; [|reflexivity|reflexivity|exact Hp|exact Hb]);
      cbn; unfold set_frames, set_log, set_ctl; cbn;
      rewrite ?map_app, ?app_assoc, ?app_nil_r; reflexivity.
Qed.

(** C2, as the code has it. Destroying a handle that names a fiber
    suspended with pending frames [fs] above its trampoline (or parked,
    [fs] empty), when [forced_unwind] passes through [fs] (no
    [catch (...)] in its user frames, the handles its callables were
    called with moved from), unwinds that stack: the scoped resources live on it are released once each,
    innermost frame first, then the trampoline catches the signal and the
    record and stack are freed; the destructor returns to its caller, and
    the counter has dropped by one for each resource that was live. *)
Theorem destroy_unwinds (m : machine) ls x k tok rec r fs b :
  ctl m = Run ls (Destroy x k) ->
  handles m !! x = Some (Some tok) ->
  ctxs m !! tok = Some (Context (side_stack rec) (fs ++ [b])) ->
  b = K_entry_idle rec ∨ b = K_entry_run rec ->
  passes (handles m) fs ->
  records m !! rec = Some r ->
  ∃ m',
    steps (2 + (unwind_cost fs + 4)) m = Next m' ∧
    ctl m' = Run ls k ∧ frames m' = frames m ∧ on m' = on m ∧
    handles m' !! x = Some None ∧
    log m' = log m ++ map ev_release (frames_resources fs)
                   ++ [ev_catch rec; ev_dealloc rec (on m)] ∧
    counter (log m') = counter (log m) - Z.of_nat (length (frames_resources fs)) ∧
    records m' !! rec = None ∧
    (∀ t c, ctxs m' !! t = Some c -> c_stack c ≠ side_stack rec) ∧
    usteps m' = S (usteps m).
Proof.
  intros Hc Hx Ht Hb Hp Hr. open_machine m.
  rewrite steps_add.
  replace (steps 2 _) with
    (Next (Machine
       (<[next0 := Context on0 (K_dtor :: K_seq ls k :: frames0)]> (delete tok ctxs0))
       (<[x := None]> handles0) slots0 records0 (S next0) host0 log0 (S usteps0)
       (S switches0) (Throw (forced_unwind (Some next0))) (fs ++ [b]) (side_stack rec)))
    by (run_steps; reflexivity).
  rewrite steps_add.
  erewrite unwind_through;
    [|reflexivity|reflexivity|by apply passes_insert_None|by destruct Hb as [-> | ->]].
  cbn [ctxs handles slots records next host log usteps switches ctl frames on
       set_frames set_log].
  eexists. split.
  { destruct Hb as [-> | ->]; run_steps; reflexivity. }
  cbn; map_lookup. rewrite <- !app_assoc. cbn. repeat split.
  - rewrite !counter_app, counter_releases. cbn. lia.
  - intros t c Hl%map_lookup_filter_Some. by destruct Hl.
Qed.

(** Where a [forced_unwind] in flight comes from: [fiber_unwind] has just
    thrown it, or it was already propagating, or its propagation continues
    after the destructor of a temporary. No instruction of user code and no
    other function of the header raises it. *)
Lemma forced_unwind_origin (m0 m1 : machine) f :
  step m0 = Next m1 ->
  ctl m1 = Throw (forced_unwind f) ->
  (∃ t0, ctl m0 = OnTop fiber_unwind t0 ∧ t_fctx t0 = f) ∨
  ctl m0 = Throw (forced_unwind f) ∨
  (ctl m0 = RetV ∧ ∃ fs0, frames m0 = K_then (Throw (forced_unwind f)) :: fs0).
Proof.
  destruct m0 as [cs hs sl rs nx ho lg us sw c fs o].
  destruct c as [ls c|t|fn t|h|b| |e|h].
  - destruct c; machine_cbv; rewrite ?release_locals_eq;
      repeat case_match; intros; simplify_eq; cbn in *; simplify_eq.
  - machine_cbv.
    repeat case_match; intros; simplify_eq; cbn in *; simplify_eq.
  - destruct fn; machine_cbv;
      repeat case_match; intros; simplify_eq; cbn in *; simplify_eq; eauto.
  - machine_cbv.
    repeat case_match; intros; simplify_eq; cbn in *; simplify_eq.
  - machine_cbv.
    repeat case_match; intros; simplify_eq; cbn in *; simplify_eq.
  - machine_cbv.
    repeat case_match; intros; simplify_eq; cbn in *; simplify_eq; eauto.
  - destruct fs as [|k fs]; [done|].
    destruct k.
    1-3: unfold_machine; cbn [ctl frames]; handler_found; intros Hs Hc; injection Hs as <-;
      match type of Hc with
      | ctl (unwind_locals ?ls ?e ?m) = Throw _ =>
          destruct (unwind_locals_ctl ls e m) as [He|(? & ? & He)];
          rewrite He in Hc; simplify_eq; eauto
      end.
    all: machine_cbv; try done;
      repeat case_match; intros; simplify_eq; cbn in *; simplify_eq; eauto.
  - machine_cbv. intros; simplify_eq; cbn in *; simplify_eq.
Qed.

(** ** A consumed handle stays empty *)

Lemma lookup_insert_None_keep (hs : gmap var fcontext_t) x y :
  hs !! x = Some None -> <[y:=None]> hs !! x = Some None.
Proof.
  intros H. destruct (decide (y = x)) as [->|]; [apply lookup_insert_eq|].
  by rewrite lookup_insert_ne.
Qed.





(** ** What a resume returns *)


(** ** The unwind signal *)

(** [fiber_unwind] is handed to [ontop_fcontext] by [~fiber_handle] only:
    the context that has just switched away waits in the destructor. *)
Lemma fiber_unwind_from_dtor (mp m : machine) t0 :
  step mp = Next m ->
  ctl m = OnTop fiber_unwind t0 ->
  (ctl mp = RetV ∧ ∃ fs, frames mp = K_then (OnTop fiber_unwind t0) :: fs) ∨
  (t_data t0 = null ∧ ∃ tok c fs,
     t_fctx t0 = Some tok ∧ ctxs m !! tok = Some c ∧ c_frames c = K_dtor :: fs).
Proof.
  destruct mp as [cs hs sl rs nx ho lg us sw c fs o].
  destruct c as [ls c|t'|fn t'|h|b| |e|h].
  - destruct c; step_cases; intros Hs; injection Hs as <-; machine_cbv;
      intros; simplify_eq; right; (split; [done|]); eexists _, _, _;
      (split_and!; [reflexivity|apply lookup_insert_eq|reflexivity]).
  - destruct fs as [|k fs]; [done|]. destruct k; step_cases;
      intros Hs; injection Hs as <-; machine_cbv; intros; simplify_eq.
  - destruct fn; step_cases; intros Hs; injection Hs as <-; machine_cbv;
      intros; simplify_eq.
  - destruct fs as [|k fs]; [done|]. destruct k; step_cases;
      intros Hs; injection Hs as <-; machine_cbv;
      intros; simplify_eq; right; (split; [done|]); eexists _, _, _;
      (split_and!; [reflexivity|apply lookup_insert_eq|reflexivity]).
  - destruct fs as [|k fs]; [done|]. destruct k; step_cases;
      intros Hs; injection Hs as <-; machine_cbv; intros; simplify_eq.
  - destruct fs as [|k fs]; [done|]. destruct k; step_cases;
      intros Hs; injection Hs as <-; machine_cbv;
      intros; simplify_eq. left. eauto.
  - destruct fs as [|k fs]; [done|]. destruct k.
    1-3: unfold_machine; cbn [ctl frames]; handler_found; intros Hs Hc; injection Hs as <-;
      match type of Hc with
      | ctl (unwind_locals ?ls ?e ?m) = _ =>
          destruct (unwind_locals_ctl ls e m) as [He|(? & ? & He)];
          rewrite He in Hc; simplify_eq
      end.
    all: step_cases; intros Hs; injection Hs as <-; machine_cbv;
      intros; simplify_eq; right; (split; [done|]); eexists _, _, _;
      (split_and!; [reflexivity|apply lookup_insert_eq|reflexivity]).
  - step_cases; intros Hs; injection Hs as <-; machine_cbv; intros; simplify_eq.
Qed.

(** C9, as the code has it. The unwind signal is the C++ exception
    [forced_unwind]: only [fiber_unwind] raises it, and only the destructor
    of a non-empty handle runs [fiber_unwind]. Raised on a fiber whose
    pending frames [fs] have no [catch (...)] and hold no live handle
    temporaries, it runs no user code and reaches no user handler: the
    scoped resources are released, the trampoline catches it and hands over
    to the destroying context with [fiber_exit], and the destructor there
    returns normally to its caller. *)
Theorem unwind_signal_reaches_trampoline (m : machine) t tok back rec r fs b ls k fs0 :
  ctl m = OnTop fiber_unwind t ->
  t_fctx t = Some tok ->
  ctxs m !! tok = Some back ->
  c_frames back = K_dtor :: K_seq ls k :: fs0 ->
  frames m = fs ++ [b] ->
  b = K_entry_idle rec ∨ b = K_entry_run rec ->
  passes (handles m) fs ->
  records m !! rec = Some r ->
  (∀ (m0 m1 : machine) f,
     step m0 = Next m1 -> ctl m1 = Throw (forced_unwind f) ->
     (∃ t0, ctl m0 = OnTop fiber_unwind t0 ∧ t_fctx t0 = f) ∨
     ctl m0 = Throw (forced_unwind f) ∨
     (ctl m0 = RetV ∧ ∃ fs0, frames m0 = K_then (Throw (forced_unwind f)) :: fs0)) ∧
  (∀ (m0 m1 : machine) t0,
     step m0 = Next m1 -> ctl m1 = OnTop fiber_unwind t0 ->
     (ctl m0 = RetV ∧ ∃ fs1, frames m0 = K_then (OnTop fiber_unwind t0) :: fs1) ∨
     (t_data t0 = null ∧ ∃ tok1 c1 fs1,
        t_fctx t0 = Some tok1 ∧ ctxs m1 !! tok1 = Some c1 ∧
        c_frames c1 = K_dtor :: fs1)) ∧
  ∃ m1 m2,
    steps (1 + (unwind_cost fs + 1)) m = Next m1 ∧
    ctl m1 = OnTop fiber_exit (Transfer (Some (next m)) (p_record rec)) ∧
    frames m1 = c_frames back ∧ on m1 = c_stack back ∧
    log m1 = log m ++ map ev_release (frames_resources fs) ++ [ev_catch rec] ∧
    usteps m1 = usteps m ∧
    steps (1 + (unwind_cost fs + 4)) m = Next m2 ∧
    ctl m2 = Run ls k ∧ frames m2 = fs0 ∧ on m2 = c_stack back ∧
    usteps m2 = usteps m ∧
    log m2 = log m ++ map ev_release (frames_resources fs)
                   ++ [ev_catch rec; ev_dealloc rec (c_stack back)] ∧
    ∀ e, ev_user_catch e ∉ map ev_release (frames_resources fs)
                             ++ [ev_catch rec; ev_dealloc rec (c_stack back)].
Proof.
  intros Hc Ht Hl Hfb Hf Hb Hp Hr.
  split; [exact forced_unwind_origin|]. split; [exact fiber_unwind_from_dtor|].
  destruct t as [tf td]. destruct back as [bs bf]. cbn in Ht, Hfb. subst tf bf.
  open_machine m.
  assert (Hu : ∀ n, steps (1 + (unwind_cost fs + n)) (Machine ctxs0 handles0 slots0 records0
             next0 host0 log0 usteps0 switches0 (OnTop fiber_unwind (Transfer (Some tok) td))
             (fs ++ [b]) on0)
           = steps n (Machine ctxs0 handles0 slots0 records0 next0 host0
               (log0 ++ map ev_release (frames_resources fs)) usteps0 switches0
               (Throw (forced_unwind (Some tok))) [b] on0)).
  { intros n. rewrite steps_add.
    replace (steps 1 _) with
      (Next (Machine ctxs0 handles0 slots0 records0 next0 host0 log0 usteps0 switches0
               (Throw (forced_unwind (Some tok))) (fs ++ [b]) on0))
      by (run_steps; reflexivity).
    rewrite steps_add.
    erewrite unwind_through;
      [|reflexivity|reflexivity|exact Hp|by destruct Hb as [-> | ->]]. reflexivity. }
  rewrite !Hu. clear Hu.
  eexists _, _. split; [destruct Hb as [-> | ->]; run_steps; reflexivity|].
  machine_cbv. rewrite <- !app_assoc. split_and!; try done.
  { destruct Hb as [-> | ->]; run_steps; reflexivity. }
  all: machine_cbv; rewrite <- ?app_assoc; try done.
  intros e [(? & ? & ?)%list_elem_of_fmap | He]%elem_of_app; [done|].
  repeat (apply elem_of_cons in He as [He|He]; [done|]). by apply elem_of_nil in He.
Qed.

End Properties.


(** * Invariants *)

Ltac proj_cbn := cbn [c_stack c_frames t_data t_fctx] in *.

Ltac learn pf :=
  let T := type of pf in
  lazymatch goal with
  | _ : T |- _ => fail
  | _ => pose proof pf
  end.

Ltac peel_all :=
  repeat match goal with
         | H : <[_:=_]> _ !! _ = Some _ |- _ =>
             apply lookup_insert_Some in H as [[? ?]|[? H]]; simplify_eq
         | H : delete _ _ !! _ = Some _ |- _ => apply lookup_delete_Some in H as [? H]
         | H : filter _ _ !! _ = Some _ |- _ =>
             apply map_lookup_filter_Some in H as [H ?]; cbn [snd] in *;
             match type of H with _ !! _ = Some ?c => fold (c_stack c) in * end
         end.

Lemma home_mono nx nx' s k : (nx <= nx')%nat -> home nx s k -> home nx' s k.
Proof. destruct k; cbn; auto; lia. Qed.

Ltac saturate F1 F2 FH FR S1 S2 R2 E2 :=
  repeat match goal with
         | H : _ !! _ = Some _ |- _ => learn (F1 _ _ H)
         | H : _ !! _ = Some _ |- _ => learn (FH _ _ H)
         | H : _ !! _ = Some _ |- _ => learn (FR _ _ H)
         | H : _ !! _ = Some _ |- _ => learn (S1 _ _ H)
         | H : _ !! _ = Some _ |- _ => learn (E2 _ _ H)
         | H : _ !! _ = Some _ |- _ => learn (fun rec => F2 _ _ rec H)
         | H : _ !! _ = Some _ |- _ => learn (fun rec => R2 _ _ rec H)
         | H1 : ?cs !! _ = Some _, H2 : ?cs !! _ = Some _ |- _ => learn (S2 _ _ _ _ H1 H2)
         end.

Ltac fin :=
  repeat match goal with
         | Q : ?P -> _, E : ?P |- _ =>
             match type of P with Prop => specialize (Q E) end
         | Q : ?a = ?b -> _, E : ?b = ?a |- _ => specialize (Q (eq_sym E))
         | Q : ∀ rec, ?s = side_stack rec -> _, E : ?s = side_stack ?r |- _ => learn (Q _ E)
         | Q : ∀ rec, side_stack ?r = side_stack rec -> _ |- _ => learn (Q _ eq_refl)
         | Q : ∀ rec, p_record ?r = p_record rec -> _ |- _ => learn (Q _ eq_refl)
         | Q : ∀ rec, null = p_record rec -> _ |- _ => clear Q
         | E1 : ?a = null, E2 : ?a = p_record _ |- _ => rewrite E1 in E2; discriminate E2
         | E : side_stack _ = side_stack _ |- _ => injection E as E
         | E : p_record _ = p_record _ |- _ => injection E as E
         end;
  subst;
  first [ assumption | exact I | reflexivity | lia | congruence | exfalso; lia | exfalso; congruence
        | idtac ].

Ltac some_goal :=
  try match goal with
      | |- is_Some (_ !! _) =>
          repeat first
            [ rewrite lookup_insert_eq
            | rewrite lookup_insert_ne by first [lia | congruence]
            | rewrite lookup_delete_ne by first [lia | congruence] ];
          try (eexists; reflexivity)
      end.

Ltac wf_goal F1 F2 FH FR S1 S2 R2 E2 :=
  cbn [ctxs handles slots records next host log usteps switches ctl frames on];
  unfold ctl_ok; cbn [ctl on];
  repeat match goal with
         | H : Forall _ (_ :: _) |- _ => apply Forall_cons in H as [? ?]
         end;
  cbn [home] in *;
  try match goal with
      | H : then_ok ?c |- _ => is_var c; destruct c; cbn [then_ok] in H; try contradiction
      end;
  try assumption;
  try (eapply Forall_impl; [eassumption | intros ?; apply home_mono; lia]);
  try (apply Forall_app; split; [assumption|]);
  try (apply Forall_forall; intros ? (? & -> & ?)%list_elem_of_fmap; exact I);
  repeat (apply Forall_cons; split); try apply Forall_nil;
  intros; peel_all; saturate F1 F2 FH FR S1 S2 R2 E2; proj_cbn;
  repeat (apply Forall_cons; split); try apply Forall_nil;
  try (eapply Forall_impl; [eassumption | intros ?; apply home_mono; lia]);
  cbn [home then_ok freed_elsewhere] in *; proj_cbn;
  try match goal with |- _ ≠ _ => intros ? end;
  fin; some_goal; fin.

Section Invariants.
Variable allocate : nat -> stack_context.
Variable sizeof_Record : Z.
Variable unw_proc_name : stack -> option string.
Local Abbreviation step := (step allocate sizeof_Record unw_proc_name).
Local Abbreviation steps := (steps allocate sizeof_Record unw_proc_name).
Local Abbreviation reachable := (reachable allocate sizeof_Record unw_proc_name).

Lemma unwind_locals_well_formed ls e m :
  well_formed (set_ctl (Throw e) m) -> well_formed (unwind_locals ls e m).
Proof.
  assert (Hrel : ∀ r l, Forall freed_elsewhere l -> Forall freed_elsewhere (l ++ [ev_release r])).
  { intros r l Hl. apply Forall_app. split; [assumption|]. by constructor. }
  assert (Hcat : ∀ x l, Forall freed_elsewhere l -> Forall freed_elsewhere (l ++ [ev_user_catch x])).
  { intros x l Hl. apply Forall_app. split; [assumption|]. by constructor. }
  revert m. induction ls as [|[r|h|h] ls IH]; intros m Hw; cbn.
  - done.
  - apply IH. destruct Hw. split; try assumption. by apply Hrel.
  - destruct Hw. split; try assumption; try exact I. by apply Hcat.
  - destruct e; [by apply IH|].
    destruct Hw. split; try assumption; try exact I. by apply Hcat.
Qed.

Lemma well_formed_step (m m' : machine) : well_formed m -> step m = Next m' -> well_formed m'.
Proof.
  destruct m as [cs hs sl rs nx ho lg us sw c fs o].
  intros [F1 F2 F3 FH FR S1 S2 R1 R2 E1 E2 C G].
  cbn [ctxs handles slots records next host log usteps switches ctl frames on] in *.
  unfold ctl_ok in C; cbn [ctl on] in C.
  destruct c as [ls c|t|fn t|h|b| |e|h].
  - destruct c; step_cases; intros Hs; injection Hs as <-;
      split; wf_goal F1 F2 FH FR S1 S2 R2 E2.
  - destruct fs as [|k fs]; [done|]. destruct k; step_cases; intros Hs; injection Hs as <-;
      split; wf_goal F1 F2 FH FR S1 S2 R2 E2.
  - destruct fn; step_cases; intros Hs; injection Hs as <-;
      split; wf_goal F1 F2 FH FR S1 S2 R2 E2.
  - destruct fs as [|k fs]; [done|]. destruct k; step_cases; intros Hs; injection Hs as <-;
      split; wf_goal F1 F2 FH FR S1 S2 R2 E2.
  - destruct fs as [|k fs]; [done|]. destruct k; step_cases; intros Hs; injection Hs as <-;
      split; wf_goal F1 F2 FH FR S1 S2 R2 E2.
  - destruct fs as [|k fs]; [done|]. destruct k; step_cases; intros Hs; injection Hs as <-;
      split; wf_goal F1 F2 FH FR S1 S2 R2 E2.
  - destruct fs as [|k fs]; [done|]. destruct k.
    1-3: unfold_machine; cbn [ctl frames]; handler_found; intros Hs; injection Hs as <-;
      apply Forall_cons in E1 as [_ E1];
      apply unwind_locals_well_formed; by split.
    all: step_cases; intros Hs; injection Hs as <-;
      split; wf_goal F1 F2 FH FR S1 S2 R2 E2.
  - step_cases; intros Hs; injection Hs as <-;
      split; wf_goal F1 F2 FH FR S1 S2 R2 E2.
Qed.

Lemma well_formed_boot t main : well_formed (boot t main).
Proof. split; cbn; try done; repeat constructor. Qed.

Lemma well_formed_steps n : ∀ (m m' : machine),
  well_formed m -> steps n m = Next m' -> well_formed m'.
Proof.
  induction n as [|n IH]; intros m m' Hm Hs.
  - by injection Hs as <-.
  - rewrite steps_S in Hs. destruct (step m) as [m1|] eqn:Hm1; [|done].
    eapply IH; [|exact Hs]. by eapply well_formed_step.
Qed.

Lemma reachable_well_formed m : reachable m -> well_formed m.
Proof.
  intros (t & main & n & Hs). eapply well_formed_steps; [apply well_formed_boot|exact Hs].
Qed.


Lemma handle_allocated m x h : reachable m -> handles m !! x = Some h -> (x < next m)%nat.
Proof. intros []%reachable_well_formed Hx. eauto. Qed.

Lemma next_handle_fresh m : reachable m -> handles m !! next m = None.
Proof.
  intros Hr. destruct (handles m !! next m) eqn:E; [|done].
  pose proof (handle_allocated _ _ _ Hr E). lia.
Qed.
End Invariants.

(** * Ownership of contexts is an invariant *)

(** Switches add contexts under fresh tokens and remove the one switched
    to. *)
Lemma exn_ok_mono cs nx cs' nx' e :
  (nx <= nx')%nat -> older cs nx cs' -> exn_ok cs nx e -> exn_ok cs' nx' e.
Proof.
  intros Hn Ho. destruct e as [[tok|]|]; cbn; auto.
  intros [Hlt H]. split; [lia|]. intros c Hc. apply H. by apply Ho.
Qed.

Lemma fr_lin_mono cs nx cs' nx' k :
  (nx <= nx')%nat -> older cs nx cs' -> fr_lin cs nx k -> fr_lin cs' nx' k.
Proof. destruct k as [| | | | | | | | | | | | | | | |[]|]; cbn; auto. apply exn_ok_mono. Qed.

Lemma held1_plain fs : Forall plain fs -> held1 fs = None.
Proof. intros H. destruct fs as [|k fs]; [done|]. apply Forall_cons in H as [Hk _]. by destruct k. Qed.

Lemma held_plain fs : Forall plain fs -> held fs = None.
Proof.
  intros H. destruct fs as [|k fs]; [done|]. apply Forall_cons in H as [Hk H].
  destruct k; try done. by apply held1_plain.
Qed.

Lemma tidy1_plain fs : Forall plain fs -> tidy1 fs.
Proof.
  intros H. destruct fs as [|k fs]; [done|].
  pose proof H as [Hk H']%Forall_cons. by destruct k.
Qed.

Lemma tidy_plain fs : Forall plain fs -> tidy fs.
Proof.
  intros H. destruct fs as [|k fs]; [done|].
  pose proof H as [Hk H']%Forall_cons. destruct k; try done. by apply tidy1_plain.
Qed.

Lemma tidy_resumable fs : tidy fs -> wait_of fs = resumable -> Forall plain fs.
Proof. destruct fs as [|k fs]; [done|]. by destruct k. Qed.

Lemma held_resumable fs : wait_of fs = resumable -> held fs = None.
Proof. destruct fs as [|k fs]; [done|]. by destruct k. Qed.

(** Equations at hand: substitute, inject, discriminate. *)
Ltac eqs :=
  repeat match goal with
         | H : ?a ≠ ?a |- _ => destruct (H eq_refl)
         | H : ?x = _ |- _ => subst x
         | H : _ = ?x |- _ => subst x
         | H : _ = _ |- _ => discriminate H
         | H : ?f _ = ?f _ |- _ => progress injection H as H
         | H : ?f _ _ = ?f _ _ |- _ => progress injection H as H
         | H : ?x = ?x |- _ => clear H
         | H1 : ?o = Some ?x, H2 : ?o = Some ?y |- _ => assert (y = x) by congruence; clear H2
         | H1 : ?o = Some ?x, H2 : ?o = None |- _ => congruence
         end.

(** Lookups in the maps after a step. *)
Ltac peel :=
  repeat match goal with
         | H : <[_:=_]> _ !! _ = Some _ |- _ =>
             apply lookup_insert_Some in H as [[? ?]|[? H]]; eqs
         | H : delete _ _ !! _ = Some _ |- _ => apply lookup_delete_Some in H as [? H]
         | H : filter _ _ !! _ = Some _ |- _ =>
             apply map_lookup_filter_Some in H as [H ?]; cbn [snd] in *;
             match type of H with _ !! _ = Some ?c => fold (c_stack c) in * end
         end.

Ltac older_solve :=
  let H := fresh in
  unfold older; intros ? ? ? H; peel; first [assumption | exfalso; lia | idtac].

Ltac norm :=
  proj_cbn; cbn [held held1 then_tok ctl_tok tidy tidy1 plain wait_of fr_lin] in *.

(** Adds a fact once. *)
Ltac note pf :=
  let T := type of pf in
  let T' := eval cbn [c_stack c_frames t_data t_fctx
                      held held1 then_tok ctl_tok tidy tidy1 plain wait_of fr_lin] in T in
  lazymatch goal with
  | _ : seen T' |- _ => fail
  | _ : T' |- _ => fail
  | _ => assert (seen T') by exact I; assert T' by exact pf
  end.

(** What the invariant says about the tokens at hand. *)
Ltac inst :=
  repeat match goal with
         | Q : ∀ tok, Some ?n = Some tok -> _ |- _ => pose proof (Q _ eq_refl); clear Q
         | Q : ∀ tok, None = Some tok -> _ |- _ => clear Q
         | Q : ∀ rec, p_record ?r = p_record rec -> _ |- _ => pose proof (Q _ eq_refl); clear Q
         | H : _ ∧ _ |- _ => destruct H
         | H : ∃ _, _ |- _ => destruct H
         | H : names _ _ _ |- _ => destruct H as (? & ? & ?)
         | H : owned _ _ _ |- _ => unfold owned in H
         | H : exn_ok _ _ (forced_unwind (Some _)) |- _ => cbn [exn_ok] in H
         | H : context [match ?d with null => _ | _ => _ end] |- _ =>
             is_var d; destruct d; cbn [wait_of ctl_tok] in *
         | H : False |- _ => destruct H
         | H : Forall _ (_ :: _) |- _ => apply Forall_cons in H as [? ?]
         end.

(** The invariants at the lookups at hand. *)
Ltac sat LH U1 LX LXI LT E2 F1 S1 S2 :=
  repeat match goal with
         | H : _ !! _ = Some (Some _) |- _ => note (LH _ _ H)
         | H1 : ?hs !! _ = Some (Some ?t), H2 : ?hs !! _ = Some (Some ?t) |- _ =>
             note (U1 _ _ _ H1 H2)
         end;
  repeat match goal with
         | H : names _ _ _ |- _ => destruct H as (? & ? & ?)
         end;
  repeat match goal with
         | H : _ !! _ = Some _ |- _ => note (F1 _ _ H)
         | H : _ !! _ = Some _ |- _ => note (S1 _ _ H)
         | H : _ !! _ = Some _ |- _ => note (E2 _ _ H)
         | H : _ !! _ = Some _ |- _ => note (LT _ _ H)
         | H1 : ?cs !! _ = Some _, H2 : ?cs !! _ = Some _ |- _ => note (S2 _ _ _ _ H1 H2)
         | Q : ∀ c, ?cs !! ?t = Some c -> _, H : ?cs !! ?t = Some _ |- _ => note (Q _ H)
         | H : wait_of ?l = resumable |- _ => note (held_resumable l H)
         | H : wait_of ?l = resumable, T : tidy ?l |- _ => note (tidy_resumable l T H)
         | H : Forall plain ?l |- _ => note (held_plain l H)
         | H : Forall plain ?l |- _ => note (held1_plain l H)
         | Q : ∀ tok, ?a = Some tok -> _, H : ?a = Some _ |- _ => note (Q _ H)
         end;
  norm;
  repeat match goal with
         | H : ?cs !! _ = Some ?c, Hh : held ?f = Some _ |- _ =>
             note (LX _ _ _ H Hh)
         | H1 : ?cs !! _ = Some _, H2 : ?cs !! _ = Some _,
           Hh1 : held _ = Some ?t, Hh2 : held _ = Some ?t |- _ =>
             note (LXI _ _ _ _ _ H1 H2 Hh1 Hh2)
         end.

Ltac usat :=
  repeat match goal with
         | U : (∀ x y tok : nat, ?hs !! x = Some (Some tok) -> ?hs !! y = Some (Some tok) -> x = y),
           H1 : ?hs !! ?a = Some (Some ?t), H2 : ?hs !! ?b = Some (Some ?t) |- _ =>
             note (U _ _ _ H1 H2)
         end.

Ltac fold_stack :=
  repeat match goal with
         | H : _ !! _ = Some ?c |- _ => is_var c; progress fold (c_stack c) in *
         end.

Ltac mp :=
  repeat match goal with
         | Q : ?a = ?b -> _ |- _ =>
             let E := fresh in assert (E : a = b) by congruence; specialize (Q E)
         end.

(** Two names for one context. *)
Ltac contra :=
  fold_stack; eqs; norm; usat; mp; eqs; norm;
  first [ lia | congruence
        | exfalso;
          match goal with
          | Q : ∀ x, ?hs !! x ≠ Some (Some ?t), H : ?hs !! _ = Some (Some ?t) |- _ =>
              exact (Q _ H)
          end
        | idtac ].

Ltac neq := first [lia | congruence | let H := fresh in intros H; contra].

Ltac lookup_goal :=
  repeat first
    [ assumption
    | rewrite lookup_insert_ne by neq
    | rewrite lookup_delete_ne by neq
    | apply map_lookup_filter_Some; split; [|cbn [snd]; proj_cbn; neq] ].

Ltac solve_names :=
  unfold names;
  first
    [ eexists; split; [apply lookup_insert_eq | reflexivity]
    | match goal with
      | H : ?cs !! ?tok = Some ?c |- ∃ _, _ !! ?tok = Some _ ∧ _ =>
          exists c; split; [lookup_goal | first [assumption | proj_cbn; congruence]]
      end
    | idtac ].

Ltac exn_goal :=
  first
    [ assumption
    | eapply exn_ok_mono; [ | |eassumption]; [lia | older_solve]
    | idtac ].

Ltac forall_lin :=
  repeat (apply Forall_cons; split);
  try apply Forall_nil;
  try assumption; try exact I;
  try match goal with
      | H : Forall (fr_lin _ _) ?l |- Forall (fr_lin _ _) ?l =>
          eapply Forall_impl; [exact H | intros ?; apply fr_lin_mono; [lia | older_solve]]
      end;
  try (cbn [fr_lin]; exn_goal).

Ltac plain_goal :=
  repeat (apply Forall_cons; split); first [exact I | assumption | apply Forall_nil | idtac].

Ltac tidy_goal :=
  first [ assumption
        | apply tidy_plain; solve [plain_goal]
        | apply tidy1_plain; solve [plain_goal]
        | cbn [tidy tidy1 plain]; plain_goal ].

Ltac prep LH U1 LX LXI LT E2 F1 S1 S2 :=
  norm; eqs; peel; inst;
  do 3 (sat LH U1 LX LXI LT E2 F1 S1 S2; inst);
  eqs; norm.

(** The goals of the invariant after a step, by their shape. *)
Ltac close LH U1 LX LXI LT E2 F1 S1 S2 :=
  lazymatch goal with
  | |- True => exact I
  | |- False => contra
  | |- _ ∧ _ => split; close LH U1 LX LXI LT E2 F1 S1 S2
  | |- _ ≠ _ =>
      let H := fresh in intros H; prep LH U1 LX LXI LT E2 F1 S1 S2; contra
  | |- names _ _ _ => solve_names
  | |- Forall plain _ => plain_goal
  | |- tidy _ => tidy_goal
  | |- tidy1 _ => tidy_goal
  | |- Forall _ _ => forall_lin
  | |- exn_ok _ _ (forced_unwind (Some _)) =>
      cbn [exn_ok]; close LH U1 LX LXI LT E2 F1 S1 S2
  | |- exn_ok _ _ (forced_unwind None) => exact I
  | |- exn_ok _ _ domain_error => exact I
  | |- exn_ok _ _ (forced_unwind ?f) =>
      destruct f; prep LH U1 LX LXI LT E2 F1 S1 S2; close LH U1 LX LXI LT E2 F1 S1 S2
  | |- exn_ok _ _ _ => exn_goal
  | |- owned _ _ _ =>
      unfold owned; intros; prep LH U1 LX LXI LT E2 F1 S1 S2; close LH U1 LX LXI LT E2 F1 S1 S2
  | |- ∃ _, _ =>
      first [ eexists _, _; split_and!;
              [reflexivity | apply lookup_insert_eq
              | first [reflexivity | proj_cbn; congruence] | reflexivity]
            | idtac ]
  | |- ∀ _, _ =>
      intros; prep LH U1 LX LXI LT E2 F1 S1 S2; close LH U1 LX LXI LT E2 F1 S1 S2
  | |- _ => first [assumption | reflexivity | lia | congruence | contra]
  end;
  try exact I.

Ltac lin_goal LH U1 LX LXI LT E2 F1 S1 S2 :=
  cbn [ctxs handles slots records next host log usteps switches ctl frames on];
  unfold ctl_lin, shape; cbn [ctl on ctxs handles frames next t_data t_fctx];
  cbn [home] in *;
  intros; prep LH U1 LX LXI LT E2 F1 S1 S2; close LH U1 LX LXI LT E2 F1 S1 S2.

(** What a [K_then] on top continues with; the frame under a destructor. *)
Ltac open_then :=
  lazymatch goal with
  | H : Forall (home _ _) (K_then ?c :: _) |- _ =>
      let Hok := fresh "Hok" in
      pose proof (Forall_inv H) as Hok; cbn [home then_ok] in Hok;
      destruct c as [| [? ?] | | | | | |]; cbn [then_ok t_data] in Hok;
      try contradiction; try subst
  | _ => idtac
  end.

Ltac open_dtor :=
  lazymatch goal with
  | H : Forall (home _ _) (K_dtor :: ?fs) |- _ => destruct fs as [|[] ?]
  | _ => idtac
  end.

Section Linearity.
Variable allocate : nat -> stack_context.
Variable sizeof_Record : Z.
Variable unw_proc_name : stack -> option string.
Local Abbreviation step := (step allocate sizeof_Record unw_proc_name).
Local Abbreviation steps := (steps allocate sizeof_Record unw_proc_name).
Local Abbreviation reachable := (reachable allocate sizeof_Record unw_proc_name).

Lemma unwind_locals_linear ls e m :
  linear (set_ctl (Throw e) m) -> linear (unwind_locals ls e m).
Proof.
  assert (Hrun : forall ls' h e' m0, linear (set_ctl (Throw e') m0) ->
            linear (set_ctl (Run ls' h) (emit (ev_user_catch e') m0))).
  { intros ls' h e' m0 [A1 A2 A3 A4 A5 A6 A7 A8 A9 A10]. split; try done;
      try (intros tok Ht; destruct (A4 tok Ht) as (? & ? & ?); done);
      try (intros t c tok H1 H2; destruct (A5 t c tok H1 H2) as (? & ? & ? & ?); done). }
  revert m. induction ls as [|[r|h|h] ls IH]; intros m Hl; cbn.
  - done.
  - apply IH. destruct Hl. by split.
  - by apply Hrun.
  - destruct e; [by apply IH|]. by apply Hrun.
Qed.

(** Every step keeps the invariant. *)
Lemma linear_step (m m' : machine) :
  well_formed m -> linear m -> step m = Next m' -> linear m'.
Proof.
  destruct m as [cs hs sl rs nx ho lg us sw c fs o].
  intros [F1 F2 F3 FH FR S1 S2 R1 R2 H1 H2 C1 G] [LH U1 C LC LX LXI E1 E2 SH LT].
  cbn [ctxs handles slots records next host log usteps switches ctl frames on] in *.
  unfold ctl_lin in C; cbn [ctl on ctxs handles frames next] in C.
  unfold shape in SH; cbn [ctl frames] in SH.
  unfold ctl_ok in C1; cbn [ctl on] in C1.
  destruct c as [ls c|t|fn t|h|b| |e|h].
  - destruct c; step_cases; intros Hs; injection Hs as <-;
      cbn [home] in *; prep LH U1 LX LXI LT E2 F1 S1 S2;
      split; lin_goal LH U1 LX LXI LT E2 F1 S1 S2.
  - destruct fs as [|k fs]; [done|]. destruct k; open_dtor;
      step_cases; intros Hs; injection Hs as <-;
      cbn [home] in *; prep LH U1 LX LXI LT E2 F1 S1 S2;
      split; lin_goal LH U1 LX LXI LT E2 F1 S1 S2.
  - destruct fn; step_cases; intros Hs; injection Hs as <-;
      cbn [home] in *; prep LH U1 LX LXI LT E2 F1 S1 S2;
      split; lin_goal LH U1 LX LXI LT E2 F1 S1 S2.
  - destruct fs as [|k fs]; [done|]. destruct k; step_cases; intros Hs; injection Hs as <-;
      cbn [home] in *; prep LH U1 LX LXI LT E2 F1 S1 S2;
      split; lin_goal LH U1 LX LXI LT E2 F1 S1 S2.
  - destruct fs as [|k fs]; [done|]. destruct k; step_cases; intros Hs; injection Hs as <-;
      cbn [home] in *; prep LH U1 LX LXI LT E2 F1 S1 S2;
      split; lin_goal LH U1 LX LXI LT E2 F1 S1 S2.
  - destruct fs as [|k fs]; [done|]. destruct k; open_then;
      step_cases; intros Hs; injection Hs as <-;
      cbn [home] in *; prep LH U1 LX LXI LT E2 F1 S1 S2;
      split; lin_goal LH U1 LX LXI LT E2 F1 S1 S2.
  - destruct fs as [|k fs]; [done|]. destruct k.
    4-18: step_cases; intros Hs; injection Hs as <-;
      cbn [home] in *; prep LH U1 LX LXI LT E2 F1 S1 S2;
      split; lin_goal LH U1 LX LXI LT E2 F1 S1 S2.
    all: unfold_machine; cbn [ctl frames]; handler_found; intros Hs; injection Hs as <-;
      apply Forall_cons in E1 as [_ E1]; apply Forall_cons in SH as [_ SH];
      apply unwind_locals_linear; split; machine_cbv;
      lin_goal LH U1 LX LXI LT E2 F1 S1 S2.
  - step_cases; intros Hs; injection Hs as <-;
      cbn [home] in *; prep LH U1 LX LXI LT E2 F1 S1 S2;
      split; lin_goal LH U1 LX LXI LT E2 F1 S1 S2.
Qed.

Lemma linear_boot t main : linear (boot t main).
Proof. split; cbn; try done; repeat constructor. Qed.

Lemma linear_steps n : ∀ (m m' : machine),
  well_formed m -> linear m -> steps n m = Next m' -> linear m'.
Proof.
  induction n as [|n IH]; intros m m' Hw Hm Hs.
  - by injection Hs as <-.
  - rewrite steps_S in Hs. destruct (step m) as [m1|] eqn:Hm1; [|done].
    eapply IH; [| |exact Hs].
    + by eapply well_formed_step.
    + by eapply linear_step.
Qed.

Lemma reachable_linear m : reachable m -> linear m.
Proof.
  intros (t & main & n & Hs).
  eapply linear_steps; [apply well_formed_boot|apply linear_boot|exact Hs].
Qed.
End Linearity.

(** * Probes are transient *)






Section Calm.
Variable allocate : nat -> stack_context.
Variable sizeof_Record : Z.
Variable unw_proc_name : stack -> option string.
Local Abbreviation step := (step allocate sizeof_Record unw_proc_name).





End Calm.

(** * Further properties of the header *)

Section Further.
Variable allocate : nat -> stack_context.
Variable sizeof_Record : Z.
Variable unw_proc_name : stack -> option string.
Local Abbreviation step := (step allocate sizeof_Record unw_proc_name).
Local Abbreviation steps := (steps allocate sizeof_Record unw_proc_name).
Local Abbreviation reachable := (reachable allocate sizeof_Record unw_proc_name).

(** ** Swapping handles *)

(** X12. [swap] exchanges what two handle objects hold and touches nothing
    else: no switch, no other handle, no context; it works on empty
    handles and on one object swapped with itself, and swapping twice
    gives back the state it started from. *)
Theorem swap_exchanges (m : machine) x y a b :
  handles m !! x = Some a ->
  handles m !! y = Some b ->
  ∃ m1,
    swap x y m = Some m1 ∧
    handles m1 !! x = Some b ∧ handles m1 !! y = Some a ∧
    (∀ z, z ≠ x -> z ≠ y -> handles m1 !! z = handles m !! z) ∧
    ctxs m1 = ctxs m ∧ records m1 = records m ∧
    switches m1 = switches m ∧ log m1 = log m ∧
    ctl m1 = ctl m ∧ frames m1 = frames m ∧ on m1 = on m ∧
    swap x y m1 = Some m.
Proof.
  intros Hx Hy. destruct m as [cs hs sl rs nx ho lg us sw c fs o]. cbn in Hx, Hy.
  unfold swap, fiber_handle_swap. cbn. rewrite Hx, Hy.
  eexists. split; [reflexivity|]. cbn.
  assert (Hh : <[y:=b]> (<[x:=a]> (<[y:=a]> (<[x:=b]> hs))) = hs).
  { apply map_eq. intros z.
    destruct (decide (z = y)) as [->|Hzy]; [by rewrite lookup_insert_eq|].
    rewrite lookup_insert_ne by done.
    destruct (decide (z = x)) as [->|Hzx]; [by rewrite lookup_insert_eq|].
    by rewrite !lookup_insert_ne. }
  assert (Hx1 : <[y:=a]> (<[x:=b]> hs) !! x = Some b).
  { destruct (decide (x = y)) as [->|Hne]; [|by rewrite lookup_insert_ne, lookup_insert_eq].
    rewrite lookup_insert_eq. congruence. }
  rewrite Hx1, lookup_insert_eq.
  split_and!; try done.
  - intros z Hzx Hzy. by rewrite !lookup_insert_ne.
  - unfold set_handle, set_handles; cbn. by rewrite Hh.
Qed.

(** [fiber_unwind] run on top of a fiber whose pending frames let
    [forced_unwind] pass: the frames are unwound, the trampoline catches
    and hands over to the destructor's context, [fiber_exit] frees the
    fiber there, and the destructor returns. *)
Lemma forced_unwind_frees (m : machine) t tok back bfs rec r fs b :
  ctl m = OnTop fiber_unwind t ->
  t_fctx t = Some tok ->
  ctxs m !! tok = Some back ->
  c_frames back = K_dtor :: bfs ->
  frames m = fs ++ [b] ->
  b = K_entry_idle rec ∨ b = K_entry_run rec ->
  passes (handles m) fs ->
  records m !! rec = Some r ->
  steps (1 + (unwind_cost fs + 3)) m
  = Next (Machine
      (filter (λ kc, c_stack kc.2 ≠ side_stack rec)
         (<[next m := Context (on m) [K_entry_exit rec]]> (delete tok (ctxs m))))
      (handles m) (slots m) (delete rec (records m)) (S (next m)) (host m)
      (log m ++ map ev_release (frames_resources fs)
             ++ [ev_catch rec; ev_dealloc rec (c_stack back)])
      (usteps m) (S (switches m)) RetV bfs (c_stack back)).
Proof.
  intros Hc Ht Hl Hfb Hf Hb Hp Hr.
  destruct t as [tf td]. destruct back as [bs bf]. cbn in Ht, Hfb. subst tf bf.
  destruct m as [cs hs sl rs nx ho lg us sw c0 fs0 o].
  cbn [ctxs handles slots records next host log usteps switches ctl frames on] in *; subst.
  rewrite steps_add.
  replace (steps 1 _) with
    (Next (Machine cs hs sl rs nx ho lg us sw
             (Throw (forced_unwind (Some tok))) (fs ++ [b]) o))
    by (run_steps; reflexivity).
  rewrite steps_add.
  erewrite unwind_through;
    [|reflexivity|reflexivity|exact Hp|by destruct Hb as [-> | ->]].
  cbn [ctxs handles slots records next host log usteps switches ctl frames on
       set_frames set_log].
  destruct Hb as [-> | ->]; run_steps; rewrite <- ?app_assoc; reflexivity.
Qed.

(** ** Probing the stack kind *)

(** X4. [can_resume_from_any_thread()] is answered on the stack of the
    probed context, not on the caller's: the context the handle names runs
    [fiber_uses_side_stack] there and stores the result in the probe, the
    handle is restored to name the same context, and the call returns true
    iff libunwind names the outermost procedure of that stack
    [make_fcontext]; when [unw_get_proc_name] reports an error the call
    returns false. *)
Theorem can_resume_from_any_thread_spec (m : machine) ls x k tok c i :
  ctl m = Run ls (CanResumeAny x k) ->
  handles m !! x = Some (Some tok) ->
  ctxs m !! tok = Some c ->
  reported c = Some i ->
  ∃ m' b,
    steps 4 m = Next m' ∧ ctl m' = Run ls (k b) ∧
    frames m' = frames m ∧ on m' = on m ∧
    handles m' !! x = Some (Some (2 + next m)%nat) ∧
    ctxs m' !! (2 + next m)%nat = Some c ∧
    slots m' !! next m = Some (Data flag_side_stack (v_bool b)) ∧
    (b = true ↔ unw_proc_name (c_stack c) = Some "make_fcontext"%string) ∧
    (unw_proc_name (c_stack c) = None -> b = false).
Proof.
  intros Hc Hx Ht Hrep.
  destruct m as [cs hs sl rs nx ho lg us sw c0 fs0 o].
  cbn [ctxs handles slots records next host log usteps switches ctl frames on] in *; subst.
  destruct c as [s [|[] fs]]; cbn in Hrep; try discriminate;
    (eexists _, _; split; [run_steps; reflexivity|]); cbn; map_lookup;
    (split_and!; try done); unfold fiber_uses_side_stack; cbn;
    destruct (unw_proc_name s) as [sym|]; try done;
    rewrite String.eqb_eq; split; congruence.
Qed.

(** ** Empty handles *)

(** X5. Every call that needs a context, [resume], [resume_with], their
    any-thread variants, [can_resume] and [can_resume_from_any_thread],
    fails its assertion on an empty handle, before any switch. *)
Theorem empty_handle_asserts (m : machine) ls x c :
  ctl m = Run ls c ->
  calls_on x c ->
  handles m !! x = Some None ->
  step m = Fault AssertFailed.
Proof.
  intros Hc Hon Hx.
  destruct m as [cs hs sl rs nx ho lg us sw c0 fs0 o].
  cbn [ctxs handles slots records next host log usteps switches ctl frames on] in *; subst.
  destruct c; try contradiction; cbn in Hon; subst; run_step; reflexivity.
Qed.

(** X6. The destructor of an empty handle does nothing: control comes back
    to the caller without a switch, and handles, contexts, records and log
    are as before. *)
Theorem destroy_empty_is_noop (m : machine) ls x k :
  ctl m = Run ls (Destroy x k) ->
  handles m !! x = Some None ->
  ∃ m',
    steps 2 m = Next m' ∧ ctl m' = Run ls k ∧ frames m' = frames m ∧ on m' = on m ∧
    handles m' = handles m ∧ ctxs m' = ctxs m ∧ records m' = records m ∧
    switches m' = switches m ∧ log m' = log m ∧ usteps m' = S (usteps m).
Proof.
  intros Hc Hx.
  destruct m as [cs hs sl rs nx ho lg us sw c0 fs0 o].
  cbn [ctxs handles slots records next host log usteps switches ctl frames on] in *; subst.
  eexists. split; [run_steps; reflexivity|]. cbn. split_and!; done.
Qed.


(** ** A callable must return a context *)

(** X7. When the callable of a fiber has given its argument away (the
    handle object [p] it was called with is empty, moved from or resumed)
    and returns an empty handle, its scoped locals are released, [run]
    returns [nullptr] to the trampoline, and the assertion before the
    final switch (l.128) fails: the fiber has nowhere to go, and its
    record and stack are still allocated. *)
Theorem callable_returns_empty_asserts (m : machine) ls c p rec :
  ctl m = Run ls c ->
  returns_empty (handles m) c ->
  frames m = [K_run p; K_entry_run rec] ->
  handles m !! p = Some None ->
  ∃ m3,
    steps 3 m = Next m3 ∧ ctl m3 = RetH None ∧ frames m3 = [K_entry_run rec] ∧
    on m3 = on m ∧ records m3 = records m ∧ ctxs m3 = ctxs m ∧
    switches m3 = switches m ∧
    log m3 = log m ++ map ev_release (resources ls) ∧
    steps 4 m = Fault AssertFailed.
Proof.
  intros Hc He Hf Hp.
  destruct m as [cs hs sl rs nx ho lg us sw c0 fs0 o].
  cbn [ctxs handles slots records next host log usteps switches ctl frames on] in *; subst.
  destruct c; try contradiction; cbn in He.
  - assert (Hp' : <[x:=None]> hs !! p = Some None) by by apply lookup_insert_None_keep.
    eexists. split; [run_steps; reflexivity|]. cbn. split_and!; try done.
    run_steps. reflexivity.
  - eexists. split; [run_steps; reflexivity|]. cbn. split_and!; try done.
    run_steps. reflexivity.
Qed.

(** ** Exceptions that nothing catches *)

Lemma existsb_takes e ls :
  Forall (λ l, takes e l = false) ls -> existsb (takes e) ls = false.
Proof. induction 1 as [|l ls Hl _ IH]; [done|]. cbn. by rewrite Hl, IH. Qed.

(** The search goes through the frames that let [e] pass and ends without
    a handler at a bottom that is fatal for [e]. *)
Lemma find_handler_fatal e fs b rest :
  Forall (lets_pass e) fs -> fatal_at b e -> find_handler e (fs ++ b :: rest) = false.
Proof.
  intros Hfs Hb. induction Hfs as [|k fs Hk _ IH].
  - destruct b; try contradiction; cbn in *; by subst.
  - destruct k; try contradiction; cbn [app find_handler];
      rewrite ?existsb_takes by assumption; exact IH.
Qed.

(** X8. An exception that meets no handler ends the program at the throw:
    when the pending calls of the running stack let it pass down to the
    trampoline of a fiber ([fiber_entry] is [noexcept] and catches
    [forced_unwind] only) or down to the bottom of a thread's own stack,
    the next step is [std::terminate]; no frame is unwound and no scoped
    resource is released first. *)
Theorem uncaught_exception_terminates (m : machine) e fs b rest :
  ctl m = Throw e ->
  frames m = fs ++ b :: rest ->
  Forall (lets_pass e) fs ->
  fatal_at b e ->
  step m = Fault Terminate.
Proof.
  intros Hc Hf Hp Hb.
  destruct m as [cs hs sl rs nx ho lg us sw c0 fs0 o].
  cbn [ctxs handles slots records next host log usteps switches ctl frames on] in *; subst.
  unfold step; cbn [ctl frames]. by rewrite find_handler_fatal.
Qed.

(** X9. Destroying a handle that names a context on a thread's own stack,
    as the handle given to a callable does, throws [forced_unwind] on that
    thread's stack; when the thread's pending calls have no [catch (...)]
    nothing catches it, since no trampoline is below them, and the program
    terminates at the throw, three steps after the destructor was called
    and with nothing logged. *)
Theorem destroy_thread_context_terminates (m : machine) ls x k tok t fs :
  ctl m = Run ls (Destroy x k) ->
  handles m !! x = Some (Some tok) ->
  ctxs m !! tok = Some (Context (thread_stack t) (fs ++ [K_main])) ->
  Forall (lets_pass (forced_unwind (Some (next m)))) fs ->
  (∃ m', steps 2 m = Next m' ∧
         ctl m' = Throw (forced_unwind (Some (next m))) ∧ frames m' = fs ++ [K_main] ∧
         on m' = thread_stack t ∧ handles m' !! x = Some None ∧ log m' = log m) ∧
  steps 3 m = Fault Terminate.
Proof.
  intros Hc Hx Ht Hp.
  destruct m as [cs hs sl rs nx ho lg us sw c0 fs0 o].
  cbn [ctxs handles slots records next host log usteps switches ctl frames on] in *; subst.
  assert (H2 : steps 2 (Machine cs hs sl rs nx ho lg us sw (Run ls (Destroy x k)) fs0 o)
    = Next (Machine
       (<[nx := Context o (K_dtor :: K_seq ls k :: fs0)]> (delete tok cs))
       (<[x := None]> hs) sl rs (S nx) ho lg (S us)
       (S sw) (Throw (forced_unwind (Some nx))) (fs ++ [K_main]) (thread_stack t)))
    by (run_steps; reflexivity).
  split.
  - eexists. split; [exact H2|]. cbn. split_and!; try done. apply lookup_insert_eq.
  - change 3%nat with (2 + 1)%nat. rewrite steps_add, H2, steps_S.
    unfold step; cbn [ctl frames]. by rewrite find_handler_fatal.
Qed.

(** ** [resume_with] checks the affinity before it switches *)

(** X10. [resume_with( fn)] probes first: when the reported affinity is
    neither unbound nor the calling thread it throws [std::domain_error]
    without running [fn], with nothing logged and the handle still naming
    the same context; otherwise it goes on to the switch and [fn] runs on
    top of the destination with a handle to the caller. *)
Theorem resume_with_checks_affinity (m : machine) ls x fn k tok c i :
  ctl m = Run ls (ResumeCheckedWith x fn k) ->
  handles m !! x = Some (Some tok) ->
  ctxs m !! tok = Some c ->
  reported c = Some i ->
  (x < next m)%nat ->
  let b := affinity_ok (Some (host m)) i in
  (b = false ->
     ∃ m',
       steps 4 m = Next m' ∧ ctl m' = Throw domain_error ∧
       frames m' = K_let ls k :: frames m ∧ on m' = on m ∧
       log m' = log m ∧ usteps m' = S (usteps m) ∧ records m' = records m ∧
       handles m' !! x = Some (Some (2 + next m)%nat) ∧
       ctxs m' !! (2 + next m)%nat = Some c) ∧
  (b = true ->
     ∃ m',
       steps 5 m = Next m' ∧
       ctl m' = Run [] (fn (4 + next m)%nat) ∧
       frames m' = K_ontop (4 + next m)%nat :: c_frames c ∧ on m' = c_stack c ∧
       handles m' !! x = Some None ∧
       handles m' !! (4 + next m)%nat = Some (Some (3 + next m)%nat) ∧
       ctxs m' !! (3 + next m)%nat
         = Some (Context (on m) (K_resume_with x (host m) :: K_let ls k :: frames m)) ∧
       log m' = log m ++ [ev_fn (c_stack c) (Some (3 + next m)%nat)]).
Proof.
  intros Hc Hx Ht Hrep Hlt b. subst b.
  destruct m as [cs hs sl rs nx ho lg us sw c0 fs0 o].
  cbn [ctxs handles slots records next host log usteps switches ctl frames on] in *; subst.
  split.
  - intros Hb.
    destruct c as [s [|[] fs]]; cbn in Hrep; try discriminate; inversion Hrep; subst;
      (eexists; split; [run_steps; rewrite Hb; run_step; reflexivity|]);
      cbn; map_lookup; repeat split.
  - intros Hb.
    destruct c as [s [|[] fs]]; cbn in Hrep; try discriminate; inversion Hrep; subst;
      (eexists; split; [run_steps; rewrite Hb; run_steps; reflexivity|]);
      cbn; map_lookup; repeat split.
Qed.

(** ** An exception thrown by the function run on top *)

(** X11. An exception that leaves the function run by [resume_with], once
    that function has given its argument away (the handle object [p] it
    was called with is empty), propagates out of the resume call the
    destination was suspended in and is raised in the caller of that call,
    on the destination's stack and without a switch; the handler that
    takes it there catches it. *)
Theorem fn_exception_surfaces_in_destination (m : machine) e p w ls k fs h ls' :
  ctl m = Throw e ->
  frames m = K_ontop p :: w :: K_let ls k :: fs ->
  (∃ x tid, w = K_resume x tid ∨ w = K_resume_with x tid) ->
  handles m !! p = Some None ->
  ls = L_catch_all h :: ls' ∨ (e = domain_error ∧ ls = L_catch_domain h :: ls') ->
  ∃ m', steps 4 m = Next m' ∧ ctl m' = Run ls' h ∧ frames m' = fs ∧ on m' = on m ∧
        switches m' = switches m ∧ ctxs m' = ctxs m ∧
        log m' = log m ++ [ev_user_catch e].
Proof.
  intros Hc Hf (x & tid & Hw) Hp Hl.
  destruct m as [cs hs sl rs nx ho lg us sw c0 fs0 o].
  cbn [ctxs handles slots records next host log usteps switches ctl frames on] in *; subst.
  destruct Hl as [-> | [-> ->]]; destruct Hw as [-> | ->];
    (eexists; split; [run_steps; reflexivity|]); cbn; split_and!; done.
Qed.


(** ** Moving handles *)

(** X13. The move constructor hands the context over: the new object holds
    what the source held, the source is empty, and nothing else changes
    (no switch, no other handle, no context). *)
Theorem move_constructor_transfers (m : machine) y h :
  reachable m ->
  handles m !! y = Some h ->
  ∃ m',
    fiber_handle_move y m = Some (next m, m') ∧
    handles m' !! next m = Some h ∧ handles m' !! y = Some None ∧
    operator_not None = true ∧
    (∀ z, z ≠ y -> z ≠ next m -> handles m' !! z = handles m !! z) ∧
    ctxs m' = ctxs m ∧ records m' = records m ∧ switches m' = switches m ∧
    log m' = log m ∧ ctl m' = ctl m ∧ frames m' = frames m ∧ on m' = on m ∧
    next m' = S (next m).
Proof.
  intros Hre Hy. pose proof (handle_allocated _ _ _ _ _ _ Hre Hy) as Hlt. clear Hre.
  destruct m as [cs hs sl rs nx ho lg us sw c0 fs0 o].
  cbn [ctxs handles slots records next host log usteps switches ctl frames on] in *.
  unfold fiber_handle_move, fiber_handle_default, fiber_handle_swap, alloc, set_handle,
    set_handles, set_next; cbn.
  rewrite lookup_insert_eq, lookup_insert_ne, Hy by lia.
  eexists. split; [reflexivity|]. cbn.
  rewrite lookup_insert_eq, lookup_insert_ne, lookup_insert_eq by lia.
  split_and!; try done.
  intros z Hzy Hzn. by rewrite !lookup_insert_ne.
Qed.

(** X14. Move assignment to a handle that is empty, or to itself: the
    target holds what the source held, the source is empty unless it is
    the target, and no context is switched to, unwound or freed. *)
Theorem move_assign_without_target (m : machine) ls x y k h :
  reachable m ->
  handles m !! y = Some h ->
  x = y ∨ handles m !! x = Some None ->
  ∃ m1 m',
    assign_stmt ls x y k m = Next m1 ∧ step m1 = Next m' ∧
    ctl m' = Run ls k ∧ frames m' = frames m ∧ on m' = on m ∧
    handles m' !! x = Some h ∧
    handles m' !! y = Some (if decide (x = y) then h else None) ∧
    ctxs m' = ctxs m ∧ records m' = records m ∧
    switches m' = switches m ∧ log m' = log m ∧ usteps m' = usteps m.
Proof.
  intros Hre Hy Hx.
  pose proof (handle_allocated _ _ _ _ _ _ Hre Hy) as Hlty.
  assert (Hltx : (x < next m)%nat).
  { destruct Hx as [->|Hx]; [done|]. by eapply handle_allocated. }
  clear Hre.
  destruct m as [cs hs sl rs nx ho lg us sw c0 fs0 o].
  cbn [ctxs handles slots records next host log usteps switches ctl frames on] in *.
  unfold assign_stmt, fiber_handle_assign.
  destruct (decide (x = y)) as [->|Hne].
  - eexists _, _. split; [reflexivity|]. split; [run_step; reflexivity|]. done.
  - destruct Hx as [->|Hx]; [done|].
    unfold fiber_handle_move, fiber_handle_default, fiber_handle_swap, fiber_handle_dtor,
      exchange, alloc, push, set_handle, set_handles, set_next, set_frames, goto; cbn.
    repeat (progress (map_lookup; cbn)).
    eexists _, _. split; [reflexivity|]. split; [run_step; reflexivity|]. cbn.
    map_lookup. done.
Qed.

Lemma passes_ext hs hs' fs :
  passes hs fs -> (∀ p, hs !! p = Some None -> hs' !! p = Some None) -> passes hs' fs.
Proof.
  intros Hp He. induction fs as [|k fs IH]; [done|]. destruct Hp as [Hk Hfs].
  split; [|by apply IH]. destruct k; try exact Hk; by apply He.
Qed.

(** X15. Move assignment over a handle that names a suspended fiber
    whose pending frames [forced_unwind] passes through (no [catch (...)]
    in its user frames, the handles its callables were called with moved
    from) destroys that fiber: its stack is unwound, the scoped resources live
    on it are released innermost first, the trampoline catches and the
    record and stack are freed; then the target holds what the source
    held and the source is empty. *)
Theorem move_assign_destroys_target (m : machine) ls x y k tok h rec fs b :
  reachable m ->
  x ≠ y ->
  handles m !! x = Some (Some tok) ->
  handles m !! y = Some h ->
  ctxs m !! tok = Some (Context (side_stack rec) (fs ++ [b])) ->
  b = K_entry_idle rec ∨ b = K_entry_run rec ->
  passes (handles m) fs ->
  ∃ m1 m',
    assign_stmt ls x y k m = Next m1 ∧
    ctl m1 = OnTop fiber_unwind (Transfer (Some (S (next m))) null) ∧
    on m1 = side_stack rec ∧
    steps (unwind_cost fs + 5) m1 = Next m' ∧
    ctl m' = Run ls k ∧ frames m' = frames m ∧ on m' = on m ∧
    handles m' !! x = Some h ∧ handles m' !! y = Some None ∧
    log m' = log m ++ map ev_release (frames_resources fs)
                   ++ [ev_catch rec; ev_dealloc rec (on m)] ∧
    records m' !! rec = None ∧
    (∀ t c, ctxs m' !! t = Some c -> c_stack c ≠ side_stack rec).
Proof.
  intros Hre Hne Hx Hy Ht Hb Hp.
  pose proof (handle_allocated _ _ _ _ _ _ Hre Hx) as Hltx.
  pose proof (handle_allocated _ _ _ _ _ _ Hre Hy) as Hlty.
  pose proof (next_handle_fresh _ _ _ _ Hre) as Hfresh.
  destruct (wf_rec _ (reachable_well_formed _ _ _ _ Hre) _ _ rec Ht eq_refl) as [r Hr].
  clear Hre.
  destruct m as [cs hs sl rs nx ho lg us sw c0 fs0 o].
  cbn [ctxs handles slots records next host log usteps switches ctl frames on] in *.
  unfold assign_stmt, fiber_handle_assign.
  destruct (decide (x = y)) as [->|_]; [done|].
  unfold fiber_handle_move, fiber_handle_default, fiber_handle_swap, fiber_handle_dtor,
    ontop_fcontext, switch,
    exchange, alloc, push, set_handle, set_handles, set_next, set_frames, goto; cbn.
  repeat (progress (map_lookup; cbn)).
  eexists _, _. split; [reflexivity|]. split; [reflexivity|]. split; [reflexivity|].
  replace (unwind_cost fs + 5)%nat with (1 + (unwind_cost fs + 3) + 1)%nat by lia.
  rewrite steps_add.
  erewrite forced_unwind_frees;
    [|reflexivity|reflexivity|cbn; apply lookup_insert_eq|reflexivity|reflexivity|exact Hb| |exact Hr].
  2:{ cbn. eapply passes_ext; [exact Hp|]. intros p Hpn.
      assert (p ≠ nx) by congruence. assert (p ≠ x) by congruence.
      rewrite !(lookup_insert_ne _ nx p), (lookup_insert_ne _ x p) by done.
      destruct (decide (p = y)) as [->|]; [apply lookup_insert_eq|].
      by rewrite lookup_insert_ne, !(lookup_insert_ne _ nx p). }
  cbn. split; [run_steps; reflexivity|]. cbn.
  rewrite <- ?app_assoc. split_and!; try done.
  - by map_lookup.
  - by map_lookup.
  - apply lookup_delete_eq.
  - intros t c Hl%map_lookup_filter_Some. by destruct Hl.
Qed.


(** ** A fiber that is never resumed *)

(** X16. Constructing a fiber and destroying its handle without resuming
    it never invokes the callable, from any reachable state: the
    trampoline catches the unwind at its idle point, and afterwards the
    suspended contexts and the allocated records are exactly those from
    before. *)
Theorem construct_destroy_round_trip (m : machine) ls fn k :
  reachable m ->
  ctl m = Run ls (Construct fn (fun f => Destroy f k)) ->
  ∃ m',
    steps 10 m = Next m' ∧ ctl m' = Run ls k ∧ frames m' = frames m ∧ on m' = on m ∧
    ctxs m' = ctxs m ∧ records m' = records m ∧
    handles m' !! (4 + next m)%nat = Some None ∧
    log m' = log m ++ [ev_catch (next m); ev_dealloc (next m) (on m)] ∧
    counter (log m') = counter (log m) ∧
    usteps m' = (2 + usteps m)%nat.
Proof.
  intros Hre Hc.
  destruct (reachable_well_formed _ _ _ _ Hre) as [F1 F2 F3 FH FR S1 S2 R1 R2 E1 E2 C G].
  clear Hre.
  destruct m as [cs hs sl rs nx ho lg us sw c0 fs0 o].
  cbn [ctxs handles slots records next host log usteps switches ctl frames on] in *; subst.
  eexists. split; [run_steps; reflexivity|]. cbn. split_and!; try done.
  - apply map_eq. intros i.
    destruct (cs !! i) as [c|] eqn:Hi.
    + apply map_lookup_filter_Some. pose proof (F1 _ _ Hi).
      split; [repeat first [rewrite lookup_insert_ne by lia | rewrite lookup_delete_ne by lia];
              exact Hi|].
      cbn. intros Hs. pose proof (F2 _ _ _ Hi Hs). lia.
    + apply map_lookup_filter_None.
      destruct (decide (i = S (S (S (S (S (S nx))))))) as [->|].
      * right. intros c. rewrite lookup_insert_eq. intros [= <-]. cbn. by intros [].
      * left. rewrite lookup_insert_ne by done.
        destruct (decide (i = S (S (S (S (S nx)))))) as [->|]; [apply lookup_delete_eq|].
        rewrite lookup_delete_ne, lookup_insert_ne by done.
        destruct (decide (i = S (S (S nx)))) as [->|]; [apply lookup_delete_eq|].
        rewrite lookup_delete_ne, lookup_insert_ne by done.
        destruct (decide (i = S (S nx))) as [->|]; [apply lookup_delete_eq|].
        rewrite lookup_delete_ne, lookup_insert_ne by done.
        destruct (decide (i = S nx)) as [->|]; [apply lookup_delete_eq|].
        by rewrite lookup_delete_ne, lookup_insert_ne by done.
  - apply delete_insert_id. destruct (rs !! nx) eqn:E; [|done].
    pose proof (FR _ _ E). lia.
  - by map_lookup.
  - by rewrite <- app_assoc.
  - rewrite !counter_app. cbn. lia.
Qed.


(** ** Stacks *)

(** X1. In every execution, whenever the record and stack of a fiber are
    freed, the processor is running on another stack. *)
Theorem stack_freed_from_another_stack (m : machine) rec s :
  reachable m ->
  ev_dealloc rec s ∈ log m ->
  s ≠ side_stack rec.
Proof.
  intros Hre Hin. pose proof (wf_log _ (reachable_well_formed _ _ _ _ Hre)) as Hl.
  rewrite Forall_forall in Hl. exact (Hl _ Hin).
Qed.

(** X2. In every reachable state the stack the processor runs on and the
    stack of every suspended context are still allocated: nothing runs or
    waits on a freed stack. *)
Theorem stacks_in_use_are_allocated (m : machine) :
  reachable m ->
  (∀ rec, on m = side_stack rec -> is_Some (records m !! rec)) ∧
  (∀ t c rec, ctxs m !! t = Some c -> c_stack c = side_stack rec ->
     is_Some (records m !! rec)).
Proof.
  intros Hre. destruct (reachable_well_formed _ _ _ _ Hre). by split.
Qed.

(** X3. In every reachable state each stack holds one context: no
    suspended context is on the running stack, and no two suspended
    contexts are on the same stack. *)
Theorem stacks_are_not_shared (m : machine) :
  reachable m ->
  (∀ t c, ctxs m !! t = Some c -> c_stack c ≠ on m) ∧
  (∀ t1 t2 c1 c2, ctxs m !! t1 = Some c1 -> ctxs m !! t2 = Some c2 ->
     c_stack c1 = c_stack c2 -> t1 = t2).
Proof.
  intros Hre. destruct (reachable_well_formed _ _ _ _ Hre). by split.
Qed.

(** ** Ownership *)

Lemma resumable_reported c : wait_of (c_frames c) = resumable -> ∃ i, reported c = Some i.
Proof. destruct c as [s [|[] fs]]; cbn; try discriminate; eauto. Qed.

Lemma handle_suspended (m : machine) x tok :
  reachable m ->
  handles m !! x = Some (Some tok) ->
  ∃ c i, ctxs m !! tok = Some c ∧ reported c = Some i.
Proof.
  intros Hre Hx.
  destruct (lin_hdl _ (reachable_linear _ _ _ _ Hre) _ _ Hx) as (c & Hc & Hw).
  destruct (resumable_reported _ Hw) as [i Hi]. eauto.
Qed.

(** X17. No handle dangles: in every state a program reaches, a non-empty
    handle names a context that is still suspended, and suspended where the
    header answers probes and takes resumes: in [fiber_entry] before the
    callable has started, or inside a [resume] or [resume_with] call. *)
Theorem handle_names_suspended_context (m : machine) x tok :
  reachable m ->
  handles m !! x = Some (Some tok) ->
  ∃ c i, ctxs m !! tok = Some c ∧ reported c = Some i.
Proof. apply handle_suspended. Qed.

(** X18. A context has one owner: two different handle objects never name
    the same context. *)
Theorem handles_never_share_a_context (m : machine) x y tok :
  reachable m ->
  x ≠ y ->
  handles m !! x = Some (Some tok) ->
  handles m !! y ≠ Some (Some tok).
Proof.
  intros Hre Hxy Hx Hy.
  exact (Hxy (lin_inj _ (reachable_linear _ _ _ _ Hre) _ _ _ Hx Hy)).
Qed.

(** X19. [can_resume()] and [can_resume_from_any_thread()] are safe on
    every non-empty handle a program can have: the probe makes its round
    trip of two switches and comes back with an answer, the handle is
    non-empty again and names the context it named, and nothing is
    logged. *)
Theorem probes_always_answer (m : machine) ls x c k tok :
  reachable m ->
  ctl m = Run ls c ->
  c = CanResume x k ∨ c = CanResumeAny x k ->
  handles m !! x = Some (Some tok) ->
  ∃ m' b tok',
    steps 4 m = Next m' ∧ ctl m' = Run ls (k b) ∧
    frames m' = frames m ∧ on m' = on m ∧ log m' = log m ∧
    switches m' = (2 + switches m)%nat ∧
    handles m' !! x = Some (Some tok') ∧ ctxs m' !! tok' = ctxs m !! tok.
Proof.
  intros Hre Hc Hk Hx.
  destruct (handle_suspended m x tok Hre Hx) as (d & i & Hd & Hi).
  destruct Hk as [-> | ->].
  - destruct (can_resume_probe allocate sizeof_Record unw_proc_name m ls x k tok d i Hc Hx Hd Hi) as (m' & Hs & H').
    destruct H' as (Hc' & Hf' & Ho' & Hh' & Hx' & Ht' & Hd' & Hr' & Hn' & Hl' & Hu' & Hw').
    exists m', (affinity_ok (Some (host m)) i), (2 + next m)%nat.
    rewrite Hd. by split_and!.
  - destruct m as [cs hs sl rs nx ho lg us sw c0 fs0 o].
    cbn [ctxs handles slots records next host log usteps switches ctl frames on] in *; subst.
    destruct d as [[t|rec] [|[] fs]]; cbn in Hi; try discriminate;
      (eexists _, _, _; split; [run_steps; reflexivity|]); cbn; map_lookup;
      (split_and!; try done).
Qed.

(** X20. The calls that give a handle's context away find it: on a state a
    program reaches, the first step of [resume], [resume_with], their
    any-thread variants, a probe or the destructor on a non-empty handle
    is a switch to the stack of the context the handle names, which leaves
    the handle empty and the context no longer suspended. *)
Theorem handle_calls_switch (m : machine) ls x c tok :
  reachable m ->
  ctl m = Run ls c ->
  calls_on x c ∨ (∃ k, c = Destroy x k) ->
  handles m !! x = Some (Some tok) ->
  ∃ m' d,
    step m = Next m' ∧ ctxs m !! tok = Some d ∧
    on m' = c_stack d ∧ frames m' = c_frames d ∧
    switches m' = S (switches m) ∧
    handles m' !! x = Some None ∧ ctxs m' !! tok = None.
Proof.
  intros Hre Hc Hk Hx.
  destruct (handle_suspended m x tok Hre Hx) as (d & i & Hd & Hi).
  pose proof (reachable_well_formed _ _ _ _ Hre) as Hw.
  pose proof (wf_tok _ Hw _ _ Hd) as Hlt.
  destruct m as [cs hs sl rs nx ho lg us sw c0 fs0 o].
  cbn [ctxs handles slots records next host log usteps switches ctl frames on] in *; subst.
  destruct Hk as [Hk | [k ->]]; [destruct c; try contradiction; cbn in Hk; subst|];
    (eexists _, d; split; [run_step; reflexivity|]); cbn; map_lookup;
    (split_and!; try done); map_lookup; done.
Qed.

(** X21. A handle value on its way to its receiver, the result of
    [create_fiber], of a resume or of the callable, names a suspended
    context that can be resumed, and no handle object names that
    context. *)
Theorem returned_handle_is_owned (m : machine) tok :
  reachable m ->
  ctl m = RetH (Some tok) ->
  (∃ c i, ctxs m !! tok = Some c ∧ reported c = Some i) ∧
  ∀ x, handles m !! x ≠ Some (Some tok).
Proof.
  intros Hre Hc.
  pose proof (lin_ctl _ (reachable_linear _ _ _ _ Hre)) as H.
  unfold ctl_lin in H. rewrite Hc in H.
  destruct (H tok eq_refl) as [(c & Hl & Hw) Hn].
  destruct (resumable_reported _ Hw) as [i Hi]. eauto.
Qed.
End Further.

(** * What a resume returns, in every execution *)

Section Resuming.
Variable allocate : nat -> stack_context.
Variable sizeof_Record : Z.
Variable unw_proc_name : stack -> option string.
Local Abbreviation step := (step allocate sizeof_Record unw_proc_name).
Local Abbreviation steps := (steps allocate sizeof_Record unw_proc_name).
Local Abbreviation reachable := (reachable allocate sizeof_Record unw_proc_name).




End Resuming.


(** * The properties on the scenarios *)

Ltac by_compute := vm_compute; reflexivity.

(** Witness for C3: thread 1 constructs an echo fiber. *)
Lemma construct_parks_at_idle_witness :
  ctl (boot 1 main_echo) = Run [] main_echo ∧
  fits example_sizeof (example_allocate (next (boot 1 main_echo))) ∧
  ∃ m', steps example_allocate example_sizeof example_proc_name 4 (boot 1 main_echo) = Next m' ∧
        handles m' !! 4%nat = Some (Some 3%nat) ∧
        ctxs m' !! 3%nat = Some (parked 0) ∧ log m' = [] ∧ usteps m' = 1%nat.
Proof.
  assert (Hfit : fits example_sizeof (example_allocate (next (boot 1 main_echo)))).
  { unfold fits, example_sizeof, uintptr_bits. cbn. lia. }
  split; [reflexivity|]. split; [exact Hfit|].
  destruct (construct_parks_at_idle example_allocate example_sizeof example_proc_name (boot 1 main_echo)
              [] echo _ eq_refl Hfit)
    as (m' & r & Hs & _ & _ & _ & _ & Hh & Hc & _ & _ & _ & _ & _ & _ & _ & _ & Hl & Hu & _).
  exists m'. split_and!; done.
Defined.

(** Witness for C4: three probes of a freshly built fiber. *)
Lemma probes_run_no_user_code_witness :
  ∃ r,
    ctl (after 4 main_probes)
      = Run [] (probes [probe_hosting; probe_stack; probe_hosting] 4%nat
                  (Resume 4%nat (fun g => Return g))) ∧
    handles (after 4 main_probes) !! 4%nat = Some (Some 3%nat) ∧
    ctxs (after 4 main_probes) !! 3%nat = Some (parked 0) ∧
    records (after 4 main_probes) !! 0%nat = Some r ∧
    (4 < next (after 4 main_probes))%nat ∧
    ∃ m', steps example_allocate example_sizeof example_proc_name 12 (after 4 main_probes) = Next m' ∧
          log m' = [] ∧ usteps m' = 4%nat.
Proof.
  eexists. split_and!; [by_compute..|vm_compute; lia|].
  edestruct (probes_run_no_user_code example_allocate example_sizeof example_proc_name
               [probe_hosting; probe_stack; probe_hosting] (after 4 main_probes)
               [] 4%nat (Resume 4%nat (fun g => Return g)) 3%nat 0%nat)
    as (m' & tok' & Hs & _ & _ & _ & Hl & Hu & _);
    [by_compute..|vm_compute; lia|].
  exists m'. split_and!; done.
Defined.

(** Witness for C5: the probe of a freshly built fiber. *)
Lemma can_resume_spec_witness :
  ctl (after 4 main_echo) = Run [] (CanResume 4%nat (fun _ => Resume 4%nat (fun g => Return g))) ∧
  handles (after 4 main_echo) !! 4%nat = Some (Some 3%nat) ∧
  ctxs (after 4 main_echo) !! 3%nat = Some (parked 0) ∧
  reported (parked 0) = Some None ∧
  ∃ m', steps example_allocate example_sizeof example_proc_name 4 (after 4 main_echo) = Next m' ∧
        ctl m' = Run [] (Resume 4%nat (fun g => Return g)) ∧
        switches m' = 4%nat ∧ log m' = [].
Proof.
  split_and!; [by_compute..|].
  edestruct (can_resume_spec example_allocate example_sizeof example_proc_name (after 4 main_echo)
               [] 4%nat (fun _ => Resume 4%nat (fun g => Return g)) 3%nat (parked 0) None)
    as (m' & b & tok' & Hs & Hc & _ & _ & Hw & _ & Hl & _); [by_compute..|].
  exists m'. split_and!; done.
Defined.

(** Witness for C6: the fiber last ran on thread 1 and the calls are made
    on thread 2. *)
Lemma resume_checks_affinity_witness :
  handles (after 10 main_affinity) !! 8%nat = Some (Some 7%nat) ∧
  ctxs (after 10 main_affinity) !! 7%nat = Some pingpong_suspended ∧
  reported pingpong_suspended = Some (Some 1%nat) ∧
  (8 < next (after 10 main_affinity))%nat ∧
  host (after 10 main_affinity) = 2%nat ∧
  (∃ m', steps example_allocate example_sizeof example_proc_name 4
           (set_ctl (Run [] (ResumeChecked 8%nat (fun y => Return y)))
              (after 10 main_affinity)) = Next m' ∧
         ctl m' = Throw domain_error ∧ log m' = log (after 10 main_affinity)) ∧
  (∃ m', steps example_allocate example_sizeof example_proc_name 1
           (set_ctl (Run [] (Resume 8%nat (fun y => Return y)))
              (after 10 main_affinity)) = Next m' ∧
         frames m' = c_frames pingpong_suspended ∧ on m' = c_stack pingpong_suspended).
Proof.
  assert (Hx : handles (after 10 main_affinity) !! 8%nat = Some (Some 7%nat)) by by_compute.
  assert (Ht : ctxs (after 10 main_affinity) !! 7%nat = Some pingpong_suspended) by by_compute.
  assert (Hr : reported pingpong_suspended = Some (Some 1%nat)) by reflexivity.
  assert (Hlt : (8 < next (after 10 main_affinity))%nat) by (vm_compute; lia).
  pose proof (resume_checks_affinity example_allocate example_sizeof example_proc_name
                (after 10 main_affinity) [] 8%nat (fun y => Return y)
                (fun _ => ReturnEmpty) 7%nat pingpong_suspended (Some 1%nat) Hx Ht Hr Hlt)
    as (_ & Hf & _ & m2 & Hs2 & _ & Hf2 & Ho2 & _).
  destruct (Hf eq_refl) as (m1 & Hs1 & Hc1 & _ & _ & Hl1 & _).
  split_and!; [done..|by_compute| |].
  - exists m1. split_and!; done.
  - exists m2. split_and!; done.
Defined.

(** Witness for C10: a freshly built fiber, probed and resumed from
    thread 5. *)
Lemma parked_affinity_unbound_witness :
  ∃ r,
    handles (after 4 main_echo) !! 4%nat = Some (Some 3%nat) ∧
    ctxs (after 4 main_echo) !! 3%nat = Some (parked 0) ∧
    records (after 4 main_echo) !! 0%nat = Some r ∧
    (4 < next (after 4 main_echo))%nat ∧
    ∃ m', steps example_allocate example_sizeof example_proc_name 5
            (set_host 5 (set_ctl (Run [] (ResumeChecked 4%nat (fun g => Return g)))
                           (after 4 main_echo))) = Next m' ∧
          on m' = side_stack 0 ∧ log m' = [ev_invoke 0].
Proof.
  eexists. split_and!; [by_compute..|vm_compute; lia|].
  edestruct (parked_affinity_unbound example_allocate example_sizeof example_proc_name (after 4 main_echo)
               5%nat [] 4%nat (fun g => Return g) (fun _ => ReturnEmpty) 3%nat 0%nat)
    as (_ & (m' & Hs & _ & Ho & _ & Hl) & _); [by_compute..|vm_compute; lia|].
  exists m'. split_and!; done.
Defined.

Ltac passes_solve :=
  cbn [passes]; split_and!; first [exact I | by_compute | repeat constructor].

(** Witness for C7: the echo fiber about to return its resumer's handle. *)
Lemma exit_handoff_witness :
  ∃ r,
    ctl (after 11 main_echo) = Run [] (Return 9%nat) ∧
    frames (after 11 main_echo) = [K_run 9; K_entry_run 0] ∧
    on (after 11 main_echo) = side_stack 0 ∧
    handles (after 11 main_echo) !! 9%nat = Some (Some 8%nat) ∧
    ctxs (after 11 main_echo) !! 8%nat = Some main_in_resume ∧
    c_stack main_in_resume ≠ side_stack 0 ∧
    records (after 11 main_echo) !! 0%nat = Some r ∧
    ∃ m5, steps example_allocate example_sizeof example_proc_name 5 (after 11 main_echo) = Next m5 ∧
          ctl m5 = Deliver (Transfer None null) ∧ on m5 = thread_stack 1 ∧
          records m5 !! 0%nat = None.
Proof.
  eexists. split_and!; [by_compute..|discriminate|by_compute|].
  edestruct (exit_handoff example_allocate example_sizeof example_proc_name (after 11 main_echo)
               [] 9%nat 9%nat 8%nat main_in_resume 0%nat)
    as (m4 & m5 & _ & Hs & _ & _ & _ & _ & _ & _ & _ & Hc & _ & Ho & _ & Hr & _);
    [by_compute..|by left|by_compute|discriminate|by_compute|].
  exists m5. split_and!; done.
Defined.

(** Witness for C8: the three moments of one [resume_with] called on the
    thread the fiber has run on: the call, the return of the function, and
    the transfer that comes back when the fiber has finished. *)
Lemma resume_with_runs_on_top_witness :
  ctl (after 9 main_ontop_checked)
    = Run [] (resume_code true (via_resume_with (fun p => Return p)) 8%nat
                (fun y => Return y)) ∧
  handles (after 9 main_ontop_checked) !! 8%nat = Some (Some 7%nat) ∧
  ctxs (after 9 main_ontop_checked) !! 7%nat = Some pingpong_suspended ∧
  (8 < next (after 9 main_ontop_checked))%nat ∧
  (∃ i, reported pingpong_suspended = Some i ∧
        affinity_ok (Some (host (after 9 main_ontop_checked))) i = true) ∧
  ctl (after 14 main_ontop_checked) = Run [] (Return 13%nat) ∧
  frames (after 14 main_ontop_checked) = K_ontop 13 :: c_frames pingpong_suspended ∧
  handles (after 14 main_ontop_checked) !! 13%nat = Some (Some 12%nat) ∧
  ctl (after 24 main_ontop_checked) = Deliver (Transfer None null) ∧
  frames (after 24 main_ontop_checked)
    = [K_resume_with 8 1; K_let [] (fun y => Return y); K_main] ∧
  (∃ m', steps example_allocate example_sizeof example_proc_name 5
           (after 9 main_ontop_checked) = Next m' ∧
         on m' = side_stack 0 ∧ frames m' = K_ontop 13 :: c_frames pingpong_suspended ∧
         handles m' !! 13%nat = Some (Some 12%nat)) ∧
  (∃ m', steps example_allocate example_sizeof example_proc_name 3
           (after 14 main_ontop_checked) = Next m' ∧
         ctl m' = Deliver (Transfer (Some 12%nat) null) ∧
         frames m' = c_frames pingpong_suspended) ∧
  (∃ m', steps example_allocate example_sizeof example_proc_name 2
           (after 24 main_ontop_checked) = Next m' ∧
         handles m' !! next (after 24 main_ontop_checked) = Some None).
Proof.
  assert (Ha : ∃ i, reported pingpong_suspended = Some i ∧
                    affinity_ok (Some (host (after 9 main_ontop_checked))) i = true)
    by (exists (Some 1%nat); split; by_compute).
  edestruct (resume_with_runs_on_top example_allocate example_sizeof example_proc_name
               (after 9 main_ontop_checked) (after 14 main_ontop_checked)
               (after 24 main_ontop_checked)
               true [] 8%nat (fun p => Return p) (fun y => Return y) 7%nat pingpong_suspended
               [] 13%nat (Some 12%nat) 13%nat (c_frames pingpong_suspended)
               (Transfer None null) 1%nat [K_main])
    as ((ma & Hsa & _ & Hoa & Hfa & Hha & _) & (mb & Hsb & Hcb & Hfb & _) & _
        & (mc & Hsc & _ & _ & _ & Hhc));
    [by_compute|by_compute|by_compute|vm_compute; lia|intros _; exact Ha
    |by_compute|by_compute|by_compute|by left|by_compute|reflexivity|by_compute|].
  split_and!; [by_compute|by_compute|by_compute|vm_compute; lia|exact Ha
              |by_compute|by_compute|by_compute|by_compute|by_compute| | |].
  - exists ma. split_and!; done.
  - exists mb. split_and!; done.
  - exists mc. split_and!; done.
Defined.

(** Witness for C2: the fiber abandoned while it holds resource 7. *)
Lemma destroy_unwinds_witness :
  ∃ r,
    ctl (after 10 main_abandon) = Run [] (Destroy 8%nat ReturnEmpty) ∧
    handles (after 10 main_abandon) !! 8%nat = Some (Some 7%nat) ∧
    ctxs (after 10 main_abandon) !! 7%nat
      = Some (Context (side_stack 0) (holder_frames ++ [K_entry_run 0])) ∧
    passes (handles (after 10 main_abandon)) holder_frames ∧
    records (after 10 main_abandon) !! 0%nat = Some r ∧
    counter (log (after 10 main_abandon)) = 1 ∧
    ∃ m', steps example_allocate example_sizeof example_proc_name 10 (after 10 main_abandon) = Next m' ∧
          ctl m' = Run [] ReturnEmpty ∧
          log m' = [ev_invoke 0; ev_acquire 7; ev_release 7; ev_catch 0;
                    ev_dealloc 0 (thread_stack 1)] ∧
          counter (log m') = 0 ∧ records m' !! 0%nat = None.
Proof.
  assert (Hp : passes (handles (after 10 main_abandon))
                   holder_frames) by (unfold holder_frames; passes_solve).
  eexists. split_and!; [by_compute..|exact Hp|by_compute|by_compute|].
  edestruct (fun r => destroy_unwinds example_allocate example_sizeof example_proc_name
               (after 10 main_abandon) [] 8%nat ReturnEmpty 7%nat 0%nat r holder_frames (K_entry_run 0))
    as (m' & Hs & Hc & _ & _ & _ & Hl & Hn & Hr & _);
    [by_compute..|by right|exact Hp|by_compute|].
  exists m'. split_and!; done.
Defined.

(** Witness for C9 as amended: the abandoned fiber that holds resource 7, at
    the moment [fiber_unwind] is about to run on it. *)
Lemma unwind_signal_reaches_trampoline_witness :
  ∃ r,
    ctl (after 11 main_abandon) = OnTop fiber_unwind (Transfer (Some 9%nat) null) ∧
    ctxs (after 11 main_abandon) !! 9%nat = Some main_in_dtor ∧
    frames (after 11 main_abandon) = holder_frames ++ [K_entry_run 0] ∧
    passes (handles (after 11 main_abandon)) holder_frames ∧
    records (after 11 main_abandon) !! 0%nat = Some r ∧
    ∃ m2, steps example_allocate example_sizeof example_proc_name (1 + (unwind_cost holder_frames + 4))
            (after 11 main_abandon) = Next m2 ∧
          ctl m2 = Run [] ReturnEmpty ∧ frames m2 = [K_main] ∧
          usteps m2 = usteps (after 11 main_abandon).
Proof.
  assert (Hp : passes (handles (after 11 main_abandon)) holder_frames)
    by (unfold holder_frames; passes_solve).
  eexists. split_and!; [by_compute|by_compute|by_compute|exact Hp|by_compute|].
  edestruct (fun r => unwind_signal_reaches_trampoline example_allocate example_sizeof example_proc_name
               (after 11 main_abandon) (Transfer (Some 9%nat) null) 9%nat main_in_dtor
               0%nat r holder_frames (K_entry_run 0) [] ReturnEmpty [K_main])
    as (_ & _ & m1 & m2 & _ & _ & _ & _ & _ & _ & Hs & Hc & Hf & _ & Hu & _);
    [by_compute|reflexivity|by_compute|reflexivity|by_compute|by right|exact Hp|by_compute|].
  exists m2. split_and!; done.
Defined.

(** C9 as stated fails. A fiber waits inside [try { } catch (...)] when its
    handle is destroyed: the [forced_unwind] thrown by [fiber_unwind] is
    caught by that handler after 14 steps, before it reaches the
    trampoline. *)
Lemma unwind_signal_observed_by_handler :
  ¬ unwind_signal_private example_allocate example_sizeof example_proc_name.
Proof.
  intros H.
  apply (H 1%nat main_catcher 14%nat (after 14 main_catcher) (Some 9%nat)); [by_compute|].
  replace (log (after 14 main_catcher))
    with [ev_invoke 0; ev_user_catch (forced_unwind (Some 9%nat))] by by_compute.
  apply elem_of_cons; right. apply elem_of_cons; by left.
Qed.

(** What the machine has done at that point: the handler's code runs on the
    fiber's stack, the trampoline has caught nothing, the record is still
    allocated and the destroying context still waits in the destructor. *)
Example catcher_scenario :
  ctl (after 14 main_catcher) = Run [] (Tick ReturnEmpty) ∧
  on (after 14 main_catcher) = side_stack 0 ∧
  log (after 14 main_catcher) = [ev_invoke 0; ev_user_catch (forced_unwind (Some 9%nat))] ∧
  is_Some (records (after 14 main_catcher) !! 0%nat) ∧
  ctxs (after 14 main_catcher) !! 9%nat = Some main_in_dtor.
Proof. split_and!; try by_compute. vm_compute. eauto. Qed.


(** C2 as stated fails. The fiber waits inside [try { } catch (...)] when
    its handle is destroyed: the handler takes [forced_unwind], the callable
    goes on and returns an empty handle, and the assertion of l.128 fails
    after 9 steps. The destructor never returns to its caller, the
    trampoline catches nothing and the record is not freed. *)
Lemma destroy_meets_user_handler :
  ¬ destroy_frees_fiber example_allocate example_sizeof example_proc_name.
Proof.
  intros H.
  destruct (H 1%nat main_catcher 10%nat (after 10 main_catcher) [] 8%nat ReturnEmpty
              7%nat
              (Context (side_stack 0)
                 [K_resume 6 1;
                  K_let [L_catch_all (Tick ReturnEmpty)] (fun g => Leave (Return g));
                  K_run 6; K_entry_run 0]) 0%nat)
    as (n' & m' & Hs & Hc & Hfr & _ & Hr); [by_compute..|].
  assert (Hf : steps example_allocate example_sizeof example_proc_name 9
                 (after 10 main_catcher) = Fault AssertFailed) by by_compute.
  do 9 (destruct n' as [|n'];
        [vm_compute in Hs; injection Hs as <-;
         first [vm_compute in Hc; discriminate Hc | vm_compute in Hfr; discriminate Hfr]|]).
  change (S (S (S (S (S (S (S (S (S n'))))))))) with (9 + n')%nat in Hs.
  rewrite (steps_Fault _ _ _ _ _ _ _ Hf) in Hs. discriminate Hs.
Qed.

(** C7 as stated fails. The callable returns the handle of a fiber it has
    built, and the handle it was called with is still live: [run] destroys
    that handle on its way out (l.184-191), which unwinds the stack of the
    resumer; nothing there catches [forced_unwind] and the program
    terminates after 4 steps, before the final switch of the trampoline. *)
Lemma exit_meets_live_argument :
  ¬ exit_hands_off example_allocate example_sizeof example_proc_name.
Proof.
  intros H.
  destruct (H 1%nat main_giver 10%nat (after 10 main_giver) [] 11%nat 6%nat 0%nat []
              10%nat) as (n' & m' & t0 & Hs & Hc); [by_compute..|].
  assert (Hf : steps example_allocate example_sizeof example_proc_name 4
                 (after 10 main_giver) = Fault Terminate) by by_compute.
  do 4 (destruct n' as [|n'];
        [vm_compute in Hs; injection Hs as <-; vm_compute in Hc; discriminate Hc|]).
  change (S (S (S (S n')))) with (4 + n')%nat in Hs.
  rewrite (steps_Fault _ _ _ _ _ _ _ Hf) in Hs. discriminate Hs.
Qed.

(** C8 as stated fails. The function run on top returns the handle of a
    fiber it has built, and the handle it was called with is still live:
    [fiber_ontop] destroys that handle (l.141-146), which unwinds the stack
    of the caller of [resume_with]; nothing there catches [forced_unwind]
    and the program terminates after 4 steps. The handle the function
    returned is never delivered. *)
Lemma fn_result_meets_live_argument :
  ¬ fn_result_is_transfer example_allocate example_sizeof example_proc_name.
Proof.
  intros H.
  destruct (H 1%nat main_ontop_keep 15%nat (after 15 main_ontop_keep) [] 15%nat 10%nat
              [K_resume 6 1; K_let [] (fun g => Return g); K_run 6; K_entry_run 0]
              (Some 14%nat)) as (n' & m' & Hs & Hc & _); [by_compute..|].
  assert (Hf : steps example_allocate example_sizeof example_proc_name 4
                 (after 15 main_ontop_keep) = Fault Terminate) by by_compute.
  do 4 (destruct n' as [|n'];
        [vm_compute in Hs; injection Hs as <-; vm_compute in Hc; discriminate Hc|]).
  change (S (S (S (S n')))) with (4 + n')%nat in Hs.
  rewrite (steps_Fault _ _ _ _ _ _ _ Hf) in Hs. discriminate Hs.
Qed.

(** The scenario of the specification: the echo fiber, once probed and
    resumed, ticks, returns to its resumer and is freed; the resume yields
    an empty handle. *)
Example echo_scenario :
  ctl (after 18 main_echo) = Run [] (Return 11%nat) ∧
  handles (after 18 main_echo) !! 11%nat = Some None ∧
  handles (after 18 main_echo) !! 4%nat = Some None ∧
  log (after 18 main_echo) = [ev_invoke 0; ev_tick; ev_dealloc 0 (thread_stack 1)] ∧
  records (after 18 main_echo) = ∅ ∧ ctxs (after 18 main_echo) = ∅.
Proof. split_and!; by_compute. Qed.

(** Cleanup on abandon: the counter is back at zero. *)
Example abandon_scenario :
  counter (log (after 10 main_abandon)) = 1 ∧
  counter (log (after 21 main_abandon)) = 0 ∧
  records (after 21 main_abandon) = ∅.
Proof. split_and!; by_compute. Qed.

(** Affinity: the checked resume from thread 2 throws, the unchecked one
    would switch. *)
Example affinity_scenario :
  host (after 10 main_affinity) = 2%nat ∧
  ctl (after 14 main_affinity) = Throw domain_error ∧
  steps example_allocate example_sizeof example_proc_name 16 (boot 1 main_affinity) = Fault Terminate.
Proof. split_and!; by_compute. Qed.

(** * The further properties on the scenarios *)

Ltac reach_compute n main := exists 1%nat, main, n; vm_compute; reflexivity.

(** The echo fiber of the specification is freed while thread 1 runs on its
    own stack. *)
Lemma stack_freed_from_another_stack_witness :
  reachable example_allocate example_sizeof example_proc_name (after 18 main_echo) ∧
  ev_dealloc 0 (thread_stack 1) ∈ log (after 18 main_echo) ∧
  thread_stack 1 ≠ side_stack 0.
Proof.
  assert (Hre : reachable example_allocate example_sizeof example_proc_name (after 18 main_echo))
    by reach_compute 18%nat main_echo.
  assert (Hin : ev_dealloc 0 (thread_stack 1) ∈ log (after 18 main_echo)).
  { replace (log (after 18 main_echo))
      with [ev_invoke 0; ev_tick; ev_dealloc 0 (thread_stack 1)] by by_compute.
    apply elem_of_cons; right. apply elem_of_cons; right. apply elem_of_cons; by left. }
  split_and!; [exact Hre|exact Hin|].
  exact (stack_freed_from_another_stack _ _ _ _ _ _ Hre Hin).
Defined.

(** The ping-pong fiber has handed control back and waits on its stack. *)
Lemma stacks_in_use_are_allocated_witness :
  reachable example_allocate example_sizeof example_proc_name (after 7 main_pingpong) ∧
  ctxs (after 7 main_pingpong) !! 7%nat = Some pingpong_suspended ∧
  is_Some (records (after 7 main_pingpong) !! 0%nat).
Proof.
  assert (Hre : reachable example_allocate example_sizeof example_proc_name (after 7 main_pingpong))
    by reach_compute 7%nat main_pingpong.
  assert (Ht : ctxs (after 7 main_pingpong) !! 7%nat = Some pingpong_suspended) by by_compute.
  split_and!; [exact Hre|exact Ht|].
  destruct (stacks_in_use_are_allocated _ _ _ _ Hre) as [_ H]. exact (H _ _ 0%nat Ht eq_refl).
Defined.

Lemma stacks_are_not_shared_witness :
  reachable example_allocate example_sizeof example_proc_name (after 7 main_pingpong) ∧
  ctxs (after 7 main_pingpong) !! 7%nat = Some pingpong_suspended ∧
  c_stack pingpong_suspended ≠ on (after 7 main_pingpong).
Proof.
  assert (Hre : reachable example_allocate example_sizeof example_proc_name (after 7 main_pingpong))
    by reach_compute 7%nat main_pingpong.
  assert (Ht : ctxs (after 7 main_pingpong) !! 7%nat = Some pingpong_suspended) by by_compute.
  split_and!; [exact Hre|exact Ht|].
  destruct (stacks_are_not_shared _ _ _ _ Hre) as [H _]. exact (H _ _ Ht).
Defined.

(** The stack-kind probe of a parked fiber: in the scenarios libunwind
    names the outermost procedure of a fiber's stack [make_fcontext]. *)
Lemma can_resume_from_any_thread_spec_witness :
  ctl (after 8 main_probes)
    = Run [] (CanResumeAny 4%nat
                (fun _ => probes [probe_hosting] 4%nat (Resume 4%nat (fun g => Return g)))) ∧
  handles (after 8 main_probes) !! 4%nat = Some (Some 7%nat) ∧
  ctxs (after 8 main_probes) !! 7%nat = Some (parked 0) ∧
  reported (parked 0) = Some None ∧
  ∃ m', steps example_allocate example_sizeof example_proc_name 4 (after 8 main_probes)
          = Next m' ∧
        slots m' !! next (after 8 main_probes)
          = Some (Data flag_side_stack (v_bool true)).
Proof.
  split_and!; [by_compute..|].
  edestruct (can_resume_from_any_thread_spec example_allocate example_sizeof example_proc_name
               (after 8 main_probes) [] 4%nat
               (fun _ => probes [probe_hosting] 4%nat (Resume 4%nat (fun g => Return g)))
               7%nat (parked 0) None)
    as (m' & b & Hs & _ & _ & _ & _ & _ & Hsl & Hb & _); [by_compute..|].
  exists m'. split; [done|].
  rewrite Hsl. by rewrite (proj2 Hb eq_refl).
Defined.

(** The second resume of a handle that the first has consumed. *)
Lemma empty_handle_asserts_witness :
  ctl (after 9 main_twice) = Run [] (Resume 4%nat (fun _ => ReturnEmpty)) ∧
  calls_on 4%nat (Resume 4%nat (fun _ => ReturnEmpty)) ∧
  handles (after 9 main_twice) !! 4%nat = Some None ∧
  step example_allocate example_sizeof example_proc_name (after 9 main_twice) = Fault AssertFailed.
Proof.
  split_and!; [by_compute|reflexivity|by_compute|].
  apply (empty_handle_asserts example_allocate example_sizeof example_proc_name (after 9 main_twice)
           [] 4%nat (Resume 4%nat (fun _ => ReturnEmpty))); [by_compute|reflexivity|by_compute].
Defined.

(** The handle returned by the resume of the echo fiber is empty. *)
Lemma destroy_empty_is_noop_witness :
  ctl (after 14 main_drop) = Run [] (Destroy 8%nat ReturnEmpty) ∧
  handles (after 14 main_drop) !! 8%nat = Some None ∧
  ∃ m', steps example_allocate example_sizeof example_proc_name 2 (after 14 main_drop) = Next m' ∧
        ctl m' = Run [] ReturnEmpty ∧ switches m' = switches (after 14 main_drop).
Proof.
  split_and!; [by_compute..|].
  edestruct (destroy_empty_is_noop example_allocate example_sizeof example_proc_name (after 14 main_drop)
               [] 8%nat ReturnEmpty)
    as (m' & Hs & Hc & _ & _ & _ & _ & _ & Hw & _); [by_compute..|].
  exists m'. split_and!; done.
Defined.

(** The callable of the fiber returns [fiber_handle{}]. *)
Lemma callable_returns_empty_asserts_witness :
  ctl (after 12 main_stubborn) = Run [] ReturnEmpty ∧
  returns_empty (handles (after 12 main_stubborn)) ReturnEmpty ∧
  frames (after 12 main_stubborn) = [K_run 6; K_entry_run 0] ∧
  handles (after 12 main_stubborn) !! 6%nat = Some None ∧
  steps example_allocate example_sizeof example_proc_name 4 (after 12 main_stubborn) = Fault AssertFailed.
Proof.
  split_and!; [by_compute|exact I|by_compute|by_compute|].
  edestruct (callable_returns_empty_asserts example_allocate example_sizeof example_proc_name
               (after 12 main_stubborn) [] ReturnEmpty 6%nat 0%nat)
    as (m3 & _ & _ & _ & _ & _ & _ & _ & _ & Hf); [by_compute|exact I|by_compute|by_compute|].
  exact Hf.
Defined.

(** The [std::domain_error] of the checked resume from thread 2, which
    nothing in the thread catches. *)
Lemma uncaught_exception_terminates_witness :
  ctl (after 14 main_affinity) = Throw domain_error ∧
  frames (after 14 main_affinity) = [K_let [] (fun y => Return y)] ++ K_main :: [] ∧
  Forall (lets_pass domain_error) [K_let [] (fun y => Return y)] ∧
  fatal_at K_main domain_error ∧
  step example_allocate example_sizeof example_proc_name (after 14 main_affinity)
    = Fault Terminate.
Proof.
  assert (He : Forall (lets_pass domain_error) [K_let [] (fun y => Return y)])
    by (repeat constructor).
  split_and!; [by_compute|by_compute|exact He|exact I|].
  apply (uncaught_exception_terminates example_allocate example_sizeof example_proc_name
           (after 14 main_affinity) domain_error [K_let [] (fun y => Return y)] K_main []);
    [by_compute|by_compute|exact He|exact I].
Defined.

(** The callable destroys the handle that names thread 1. *)
Lemma destroy_thread_context_terminates_witness :
  ctl (after 6 main_killer) = Run [] (Destroy 6%nat ReturnEmpty) ∧
  handles (after 6 main_killer) !! 6%nat = Some (Some 5%nat) ∧
  ctxs (after 6 main_killer) !! 5%nat
    = Some (Context (thread_stack 1)
              ([K_resume 4 1; K_let [] (fun g => Return g)] ++ [K_main])) ∧
  Forall (lets_pass (forced_unwind (Some (next (after 6 main_killer)))))
    [K_resume 4 1; K_let [] (fun g => Return g)] ∧
  steps example_allocate example_sizeof example_proc_name 3 (after 6 main_killer)
    = Fault Terminate.
Proof.
  assert (Hp : Forall (lets_pass (forced_unwind (Some (next (after 6 main_killer)))))
                 [K_resume 4 1; K_let [] (fun g => Return g)])
    by (repeat constructor).
  split_and!; [by_compute|by_compute|by_compute|exact Hp|].
  edestruct (destroy_thread_context_terminates example_allocate example_sizeof example_proc_name
               (after 6 main_killer) [] 6%nat ReturnEmpty 5%nat 1%nat
               [K_resume 4 1; K_let [] (fun g => Return g)])
    as (_ & Hf); [by_compute|by_compute|by_compute|exact Hp|].
  exact Hf.
Defined.

(** The fiber last ran on thread 1; thread 2 calls [resume_with]. *)
Lemma resume_with_checks_affinity_witness :
  ctl resume_with_on_thread_2
    = Run [] (ResumeCheckedWith 8%nat (fun p => Return p) (fun y => Return y)) ∧
  handles resume_with_on_thread_2 !! 8%nat = Some (Some 7%nat) ∧
  ctxs resume_with_on_thread_2 !! 7%nat = Some pingpong_suspended ∧
  reported pingpong_suspended = Some (Some 1%nat) ∧
  (8 < next resume_with_on_thread_2)%nat ∧
  ∃ m', steps example_allocate example_sizeof example_proc_name 4 resume_with_on_thread_2 = Next m' ∧
        ctl m' = Throw domain_error ∧ log m' = log resume_with_on_thread_2.
Proof.
  assert (Hc : ctl resume_with_on_thread_2
               = Run [] (ResumeCheckedWith 8%nat (fun p => Return p) (fun y => Return y)))
    by by_compute.
  assert (Hx : handles resume_with_on_thread_2 !! 8%nat = Some (Some 7%nat)) by by_compute.
  assert (Ht : ctxs resume_with_on_thread_2 !! 7%nat = Some pingpong_suspended) by by_compute.
  assert (Hlt : (8 < next resume_with_on_thread_2)%nat) by (vm_compute; lia).
  assert (Hb : affinity_ok (Some (host resume_with_on_thread_2)) (Some 1%nat) = false)
    by by_compute.
  split_and!; [exact Hc|exact Hx|exact Ht|reflexivity|exact Hlt|].
  pose proof (resume_with_checks_affinity example_allocate example_sizeof example_proc_name
                resume_with_on_thread_2
                [] 8%nat (fun p => Return p) (fun y => Return y) 7%nat pingpong_suspended
                (Some 1%nat) Hc Hx Ht eq_refl Hlt) as [Hf _].
  destruct (Hf Hb) as (m' & Hs & Hc' & _ & _ & Hl & _).
  exists m'. split_and!; done.
Defined.

(** The handler around the resume call of the destination catches what the
    function run on top has thrown. *)
Lemma fn_exception_surfaces_in_destination_witness :
  ctl fn_has_thrown = Throw domain_error ∧
  frames fn_has_thrown
    = K_ontop 5 :: K_resume 3 1
        :: K_let [L_catch_domain ReturnEmpty] (fun g => Return g) :: [K_main] ∧
  handles fn_has_thrown !! 5%nat = Some None ∧
  ∃ m', steps example_allocate example_sizeof example_proc_name 4 fn_has_thrown = Next m' ∧
        ctl m' = Run [] ReturnEmpty ∧ frames m' = [K_main] ∧
        log m' = [ev_user_catch domain_error].
Proof.
  split_and!; [reflexivity|reflexivity|by_compute|].
  edestruct (fn_exception_surfaces_in_destination example_allocate example_sizeof
               example_proc_name fn_has_thrown domain_error 5%nat (K_resume 3 1)
               [L_catch_domain ReturnEmpty] (fun g => Return g) [K_main] ReturnEmpty [])
    as (m' & Hs & Hc & Hf & _ & _ & _ & Hl);
    [reflexivity|reflexivity|by eexists _, _; left|by_compute|by right|].
  exists m'. split_and!; done.
Defined.

(** The consumed handle 4 and the live handle 8 of thread 1. *)
Lemma swap_exchanges_witness :
  handles (after 9 main_ontop) !! 4%nat = Some None ∧
  handles (after 9 main_ontop) !! 8%nat = Some (Some 7%nat) ∧
  ∃ m1, swap 4 8 (after 9 main_ontop) = Some m1 ∧
        handles m1 !! 4%nat = Some (Some 7%nat) ∧ handles m1 !! 8%nat = Some None ∧
        swap 4 8 m1 = Some (after 9 main_ontop).
Proof.
  assert (H4 : handles (after 9 main_ontop) !! 4%nat = Some None) by by_compute.
  assert (H8 : handles (after 9 main_ontop) !! 8%nat = Some (Some 7%nat)) by by_compute.
  split_and!; [exact H4|exact H8|].
  destruct (swap_exchanges (after 9 main_ontop) 4%nat 8%nat _ _ H4 H8)
    as (m1 & Hs & Ha & Hb & _ & _ & _ & _ & _ & _ & _ & _ & Hback).
  exists m1. split_and!; done.
Defined.

Lemma move_constructor_transfers_witness :
  reachable example_allocate example_sizeof example_proc_name (after 9 main_ontop) ∧
  handles (after 9 main_ontop) !! 8%nat = Some (Some 7%nat) ∧
  ∃ m', fiber_handle_move 8 (after 9 main_ontop) = Some (next (after 9 main_ontop), m') ∧
        handles m' !! next (after 9 main_ontop) = Some (Some 7%nat) ∧
        handles m' !! 8%nat = Some None.
Proof.
  assert (Hre : reachable example_allocate example_sizeof example_proc_name (after 9 main_ontop))
    by reach_compute 9%nat main_ontop.
  assert (H8 : handles (after 9 main_ontop) !! 8%nat = Some (Some 7%nat)) by by_compute.
  split_and!; [exact Hre|exact H8|].
  destruct (move_constructor_transfers example_allocate example_sizeof example_proc_name
              (after 9 main_ontop) 8%nat _ Hre H8) as (m' & Hs & Ha & Hb & _).
  exists m'. split_and!; done.
Defined.

Lemma move_assign_without_target_witness :
  reachable example_allocate example_sizeof example_proc_name (after 9 main_ontop) ∧
  handles (after 9 main_ontop) !! 8%nat = Some (Some 7%nat) ∧
  handles (after 9 main_ontop) !! 4%nat = Some None ∧
  ∃ m1 m', assign_stmt [] 4 8 ReturnEmpty (after 9 main_ontop) = Next m1 ∧
           step example_allocate example_sizeof example_proc_name m1 = Next m' ∧
           ctl m' = Run [] ReturnEmpty ∧
           handles m' !! 4%nat = Some (Some 7%nat) ∧ handles m' !! 8%nat = Some None ∧
           switches m' = switches (after 9 main_ontop).
Proof.
  assert (Hre : reachable example_allocate example_sizeof example_proc_name (after 9 main_ontop))
    by reach_compute 9%nat main_ontop.
  assert (H8 : handles (after 9 main_ontop) !! 8%nat = Some (Some 7%nat)) by by_compute.
  assert (H4 : handles (after 9 main_ontop) !! 4%nat = Some None) by by_compute.
  split_and!; [exact Hre|exact H8|exact H4|].
  destruct (move_assign_without_target example_allocate example_sizeof example_proc_name
              (after 9 main_ontop) [] 4%nat 8%nat ReturnEmpty _ Hre H8 (or_intror H4))
    as (m1 & m' & Hs & Hs' & Hc & _ & _ & Hx & Hy & _ & _ & Hw & _).
  exists m1, m'. split_and!; done.
Defined.

(** Thread 1 assigns its consumed handle 4 over handle 8, which names the
    fiber that holds resource 7. *)
Lemma move_assign_destroys_target_witness :
  reachable example_allocate example_sizeof example_proc_name (after 10 main_abandon) ∧
  handles (after 10 main_abandon) !! 8%nat = Some (Some 7%nat) ∧
  handles (after 10 main_abandon) !! 4%nat = Some None ∧
  ctxs (after 10 main_abandon) !! 7%nat
    = Some (Context (side_stack 0) (holder_frames ++ [K_entry_run 0])) ∧
  passes (handles (after 10 main_abandon)) holder_frames ∧
  ∃ m1 m', assign_stmt [] 8 4 ReturnEmpty (after 10 main_abandon) = Next m1 ∧
           steps example_allocate example_sizeof example_proc_name (unwind_cost holder_frames + 5) m1
             = Next m' ∧
           ctl m' = Run [] ReturnEmpty ∧ handles m' !! 8%nat = Some None ∧
           log m' = log (after 10 main_abandon)
                      ++ map ev_release (frames_resources holder_frames)
                      ++ [ev_catch 0; ev_dealloc 0 (on (after 10 main_abandon))] ∧
           records m' !! 0%nat = None.
Proof.
  assert (Hre : reachable example_allocate example_sizeof example_proc_name (after 10 main_abandon))
    by reach_compute 10%nat main_abandon.
  assert (H8 : handles (after 10 main_abandon) !! 8%nat = Some (Some 7%nat)) by by_compute.
  assert (H4 : handles (after 10 main_abandon) !! 4%nat = Some None) by by_compute.
  assert (Ht : ctxs (after 10 main_abandon) !! 7%nat
               = Some (Context (side_stack 0) (holder_frames ++ [K_entry_run 0])))
    by by_compute.
  assert (Hp : passes (handles (after 10 main_abandon)) holder_frames)
    by (unfold holder_frames; passes_solve).
  split_and!; [exact Hre|exact H8|exact H4|exact Ht|exact Hp|].
  destruct (move_assign_destroys_target example_allocate example_sizeof example_proc_name
              (after 10 main_abandon) [] 8%nat 4%nat ReturnEmpty 7%nat None 0%nat
              holder_frames (K_entry_run 0) Hre ltac:(lia) H8 H4 Ht (or_intror eq_refl) Hp)
    as (m1 & m' & Hs & _ & _ & Hs' & Hc & _ & _ & Hx & _ & Hl & Hr & _).
  exists m1, m'. split_and!; done.
Defined.

Lemma construct_destroy_round_trip_witness :
  reachable example_allocate example_sizeof example_proc_name (boot 1 main_unused) ∧
  ctl (boot 1 main_unused) = Run [] (Construct echo (fun f => Destroy f ReturnEmpty)) ∧
  ∃ m', steps example_allocate example_sizeof example_proc_name 10 (boot 1 main_unused) = Next m' ∧
        ctl m' = Run [] ReturnEmpty ∧ ctxs m' = ∅ ∧ records m' = ∅ ∧
        log m' = [ev_catch 0; ev_dealloc 0 (thread_stack 1)].
Proof.
  assert (Hre : reachable example_allocate example_sizeof example_proc_name (boot 1 main_unused))
    by (exists 1%nat, main_unused, 0%nat; reflexivity).
  split_and!; [exact Hre|reflexivity|].
  destruct (construct_destroy_round_trip example_allocate example_sizeof example_proc_name
              (boot 1 main_unused) [] echo ReturnEmpty Hre eq_refl)
    as (m' & Hs & Hc & _ & _ & Hcs & Hrs & _ & Hl & _).
  exists m'. split_and!; done.
Defined.

(** The handle of the parked fiber, before the first probe. *)
Lemma handle_names_suspended_context_witness :
  reachable example_allocate example_sizeof example_proc_name (after 8 main_probes) ∧
  handles (after 8 main_probes) !! 4%nat = Some (Some 7%nat) ∧
  ∃ c i, ctxs (after 8 main_probes) !! 7%nat = Some c ∧ reported c = Some i.
Proof.
  assert (Hre : reachable example_allocate example_sizeof example_proc_name (after 8 main_probes))
    by reach_compute 8%nat main_probes.
  assert (Hx : handles (after 8 main_probes) !! 4%nat = Some (Some 7%nat)) by by_compute.
  split_and!; [exact Hre|exact Hx|].
  exact (handle_names_suspended_context example_allocate example_sizeof example_proc_name
           (after 8 main_probes) 4%nat 7%nat Hre Hx).
Defined.

Lemma handles_never_share_a_context_witness :
  reachable example_allocate example_sizeof example_proc_name (after 8 main_two) ∧
  4%nat ≠ 9%nat ∧
  handles (after 8 main_two) !! 4%nat = Some (Some 3%nat) ∧
  handles (after 8 main_two) !! 9%nat = Some (Some 8%nat) ∧
  handles (after 8 main_two) !! 9%nat ≠ Some (Some 3%nat).
Proof.
  assert (Hre : reachable example_allocate example_sizeof example_proc_name (after 8 main_two))
    by reach_compute 8%nat main_two.
  assert (Hx : handles (after 8 main_two) !! 4%nat = Some (Some 3%nat)) by by_compute.
  assert (Hn : 4%nat ≠ 9%nat) by lia.
  split_and!; [exact Hre|exact Hn|exact Hx|by_compute|].
  exact (handles_never_share_a_context example_allocate example_sizeof example_proc_name
           (after 8 main_two) 4%nat 9%nat 3%nat Hre Hn Hx).
Defined.

Lemma probes_always_answer_witness :
  reachable example_allocate example_sizeof example_proc_name (after 8 main_probes) ∧
  ctl (after 8 main_probes)
    = Run [] (CanResumeAny 4%nat
                (fun _ => probes [probe_hosting] 4%nat (Resume 4%nat (fun g => Return g)))) ∧
  handles (after 8 main_probes) !! 4%nat = Some (Some 7%nat) ∧
  ∃ m' tok',
    steps example_allocate example_sizeof example_proc_name 4 (after 8 main_probes) = Next m' ∧
    handles m' !! 4%nat = Some (Some tok') ∧ log m' = log (after 8 main_probes).
Proof.
  assert (Hre : reachable example_allocate example_sizeof example_proc_name (after 8 main_probes))
    by reach_compute 8%nat main_probes.
  assert (Hc : ctl (after 8 main_probes)
    = Run [] (CanResumeAny 4%nat
                (fun _ => probes [probe_hosting] 4%nat (Resume 4%nat (fun g => Return g)))))
    by by_compute.
  assert (Hx : handles (after 8 main_probes) !! 4%nat = Some (Some 7%nat)) by by_compute.
  split_and!; [exact Hre|exact Hc|exact Hx|].
  destruct (probes_always_answer example_allocate example_sizeof example_proc_name
              (after 8 main_probes) [] 4%nat _ _ 7%nat Hre Hc (or_intror eq_refl) Hx)
    as (m' & b & tok' & Hs & _ & _ & _ & Hl & _ & Hx' & _).
  exists m', tok'. split_and!; done.
Defined.

Lemma handle_calls_switch_witness :
  reachable example_allocate example_sizeof example_proc_name (after 8 main_probes) ∧
  ctl (after 8 main_probes)
    = Run [] (CanResumeAny 4%nat
                (fun _ => probes [probe_hosting] 4%nat (Resume 4%nat (fun g => Return g)))) ∧
  handles (after 8 main_probes) !! 4%nat = Some (Some 7%nat) ∧
  ∃ m' d,
    step example_allocate example_sizeof example_proc_name (after 8 main_probes) = Next m' ∧
    ctxs (after 8 main_probes) !! 7%nat = Some d ∧ on m' = c_stack d ∧
    handles m' !! 4%nat = Some None ∧ ctxs m' !! 7%nat = None.
Proof.
  assert (Hre : reachable example_allocate example_sizeof example_proc_name (after 8 main_probes))
    by reach_compute 8%nat main_probes.
  assert (Hc : ctl (after 8 main_probes)
    = Run [] (CanResumeAny 4%nat
                (fun _ => probes [probe_hosting] 4%nat (Resume 4%nat (fun g => Return g)))))
    by by_compute.
  assert (Hx : handles (after 8 main_probes) !! 4%nat = Some (Some 7%nat)) by by_compute.
  split_and!; [exact Hre|exact Hc|exact Hx|].
  destruct (handle_calls_switch example_allocate example_sizeof example_proc_name
              (after 8 main_probes) [] 4%nat _ 7%nat Hre Hc (or_introl eq_refl) Hx)
    as (m' & d & Hs & Hd & Ho & _ & _ & Hx' & Ht).
  exists m', d. split_and!; done.
Defined.

(** The handle that the first resume of the ping-pong fiber returns. *)
Lemma returned_handle_is_owned_witness :
  reachable example_allocate example_sizeof example_proc_name (after 8 main_pingpong) ∧
  ctl (after 8 main_pingpong) = RetH (Some 7%nat) ∧
  (∃ c i, ctxs (after 8 main_pingpong) !! 7%nat = Some c ∧ reported c = Some i) ∧
  ∀ x, handles (after 8 main_pingpong) !! x ≠ Some (Some 7%nat).
Proof.
  assert (Hre : reachable example_allocate example_sizeof example_proc_name (after 8 main_pingpong))
    by reach_compute 8%nat main_pingpong.
  assert (Hc : ctl (after 8 main_pingpong) = RetH (Some 7%nat)) by by_compute.
  split_and!; [exact Hre|exact Hc|..];
    apply (returned_handle_is_owned example_allocate example_sizeof example_proc_name
             (after 8 main_pingpong) 7%nat Hre Hc).
Defined.

